(** * FayCite: citation formatting, bibliography parsing and source library

    A shallow embedding of the Python sources
    [citation_formatter.py], [bibliography_parser.py], [pdf_library.py] and
    [citation_processor.py], and the properties of the specification that
    are checked against them.

    Conventions of the embedding.
    - A Python [str] is a [string]; its characters are those of the 7-bit
      ASCII range, on which the character classes of Python ([isspace],
      [\d], [\w], [lower]) are defined.  Codes above 127 are opaque symbols:
      they belong to no class and have no case.
    - A Python [int] is a [Z]; a Python [float] is a binary64 [float].
    - A Python [dict] read by key is a [gmap]; a dict that is iterated is an
      association list in insertion order.
    - A raised exception is [None] in the [option] monad; every [try/except]
      of the sources is written out where it occurs. *)

From Stdlib Require Import ZArith Ascii String List Bool Floats.
From Stdlib Require Import DecimalString DecimalPos.
From stdpp Require Import base option list gmap strings.

Local Open Scope Z_scope.

(** ** Python strings *)

Module Py.

Definition code (c : ascii) : N := N_of_ascii c.

Definition in_range (lo hi : N) (c : ascii) : bool :=
  ((lo <=? code c) && (code c <=? hi))%N.

(** [str.isspace] on one character, which is also [\s] of [re]. *)
Definition is_space (c : ascii) : bool :=
  in_range 9 13 c || in_range 28 32 c.

Definition is_digit (c : ascii) : bool := in_range 48 57 c.
Definition is_upper (c : ascii) : bool := in_range 65 90 c.
Definition is_lower (c : ascii) : bool := in_range 97 122 c.
Definition is_alpha (c : ascii) : bool := is_upper c || is_lower c.

(** [\w] of [re]: alphanumeric or underscore. *)
Definition is_word (c : ascii) : bool :=
  is_alpha c || is_digit c || (code c =? 95)%N.

Definition lower_char (c : ascii) : ascii :=
  if is_upper c then ascii_of_N (code c + 32) else c.

Definition upper_char (c : ascii) : ascii :=
  if is_lower c then ascii_of_N (code c - 32) else c.

Fixpoint lower (s : string) : string :=
  match s with
  | EmptyString => EmptyString
  | String c s' => String (lower_char c) (lower s')
  end.

Definition char_eqb (a b : ascii) : bool := Ascii.eqb a b.

(** The double quote character. *)
Definition dquote : ascii := "034"%char.

(** The newline, as a string. *)
Definition nl : string := String "010" EmptyString.

Fixpoint lstrip (s : string) : string :=
  match s with
  | String c s' => if is_space c then lstrip s' else s
  | EmptyString => EmptyString
  end.

(** [rstrip] keeps a character when it is not a space or when something
    is kept after it. *)
Fixpoint rstrip (s : string) : string :=
  match s with
  | EmptyString => EmptyString
  | String c s' =>
      match rstrip s' with
      | EmptyString => if is_space c then EmptyString else String c EmptyString
      | t => String c t
      end
  end.

Definition strip (s : string) : string := rstrip (lstrip s).

Fixpoint startswith (p s : string) : bool :=
  match p, s with
  | EmptyString, _ => true
  | String a p', String b s' => char_eqb a b && startswith p' s'
  | String _ _, EmptyString => false
  end.

Fixpoint drop (n : nat) (s : string) : string :=
  match n, s with
  | O, _ => s
  | S n', String _ s' => drop n' s'
  | S _, EmptyString => EmptyString
  end.

Fixpoint take (n : nat) (s : string) : string :=
  match n, s with
  | O, _ => EmptyString
  | S n', String c s' => String c (take n' s')
  | S _, EmptyString => EmptyString
  end.

Definition len (s : string) : nat := String.length s.

(** [sub in s]. *)
Fixpoint contains (sub s : string) : bool :=
  startswith sub s ||
  match s with
  | EmptyString => false
  | String _ s' => contains sub s'
  end.

(** [s.find(sub)], with [None] for -1. *)
Fixpoint find (sub s : string) : option nat :=
  if startswith sub s then Some O
  else match s with
       | EmptyString => None
       | String _ s' => S <$> find sub s'
       end.

(** [s.replace(old, new)] for a non-empty [old]: occurrences are replaced
    from the left, without overlap. *)
Fixpoint replace_go (fuel : nat) (old new s : string) : string :=
  match fuel with
  | O => s
  | S fuel' =>
      match s with
      | EmptyString => EmptyString
      | String c s' =>
          if startswith old s
          then new +:+ replace_go fuel' old new (drop (len old) s)
          else String c (replace_go fuel' old new s')
      end
  end.

Definition replace (old new s : string) : string :=
  replace_go (S (len s)) old new s.

(** [s.split(sep)] for a non-empty [sep]. *)
Fixpoint split_go (fuel : nat) (sep s cur : string) : list string :=
  match fuel with
  | O => [cur]
  | S fuel' =>
      match s with
      | EmptyString => [cur]
      | String c s' =>
          if startswith sep s
          then cur :: split_go fuel' sep (drop (len sep) s) EmptyString
          else split_go fuel' sep s' (cur +:+ String c EmptyString)
      end
  end.

Definition split (sep s : string) : list string :=
  split_go (S (len s)) sep s EmptyString.

(** [s.split()]: maximal runs of non-space characters. *)
Fixpoint words_go (cur : string) (s : string) : list string :=
  match s with
  | EmptyString => match cur with EmptyString => [] | _ => [cur] end
  | String c s' =>
      if is_space c
      then match cur with
           | EmptyString => words_go EmptyString s'
           | _ => cur :: words_go EmptyString s'
           end
      else words_go (cur +:+ String c EmptyString) s'
  end.

Definition words (s : string) : list string := words_go EmptyString s.

(** [sep.join(l)]. *)
Fixpoint join (sep : string) (l : list string) : string :=
  match l with
  | [] => EmptyString
  | [x] => x
  | x :: l' => x +:+ sep +:+ join sep l'
  end.

(** [s.title()]: a letter that follows a letter is lowered, any other
    letter is raised. *)
Fixpoint title_go (after_letter : bool) (s : string) : string :=
  match s with
  | EmptyString => EmptyString
  | String c s' =>
      String (if after_letter then lower_char c else upper_char c)
             (title_go (is_alpha c) s')
  end.

Definition title (s : string) : string := title_go false s.

(** [any(k in s for k in keywords)] *)
Definition contains_any (keywords : list string) (s : string) : bool :=
  existsb (λ k, contains k s) keywords.

(** The quotient of two lengths as Python's true division gives it. *)
Definition ratio (a b : nat) : float :=
  (PrimFloat.of_uint63 (Uint63.of_Z (Z.of_nat a))
   / PrimFloat.of_uint63 (Uint63.of_Z (Z.of_nat b)))%float.

(** [str(n)] for an [int]. *)
Definition str_of_Z (z : Z) : string :=
  NilZero.string_of_int (Z.to_int z).

End Py.

(** ** Regular expressions of [re]

    A backtracking matcher: [run r st] lists, in the order in which
    Python's engine tries them, the states in which [r] can stop when
    started in [st].  The first element is the match that Python reports.
    The patterns of the sources have no back-reference, and no repeated
    part of them matches the empty string; an iteration of a repetition
    that consumes nothing is not followed. *)

Module Re.

Inductive regex :=
| Chr (p : ascii → bool)          (* one character of a class *)
| Eps
| Bol                             (* ^ *)
| Eol                             (* $ *)
| Seq (r1 r2 : regex)
| Alt (r1 r2 : regex)             (* r1|r2, r1 tried first *)
| Star (greedy : bool) (r : regex)(* r* and r*? *)
| Group (n : nat) (r : regex)     (* capturing group number n *)
| Look (r : regex).               (* (?=r) *)

Record mstate := mkState {
  pos : nat;                      (* characters before the cursor *)
  rest : string;                  (* the subject from the cursor on *)
  caps : list (nat * string)      (* groups closed so far, latest first *)
}.

Definition advance (st : mstate) (s' : string) : mstate :=
  {| pos := S (pos st); rest := s'; caps := caps st |}.

Definition close_group (n : nat) (st st' : mstate) : mstate :=
  {| pos := pos st'; rest := rest st';
     caps := (n, Py.take (pos st' - pos st) (rest st)) :: caps st' |}.

Fixpoint star (greedy : bool) (step : mstate → list mstate) (fuel : nat)
    (st : mstate) : list mstate :=
  match fuel with
  | O => [st]
  | S fuel' =>
      let more :=
        flat_map (λ st',
          if (Py.len (rest st') <? Py.len (rest st))%nat
          then star greedy step fuel' st' else []) (step st) in
      if greedy then more ++ [st] else st :: more
  end.

Fixpoint run (r : regex) (st : mstate) : list mstate :=
  match r with
  | Chr p =>
      match rest st with
      | String c s' => if p c then [advance st s'] else []
      | EmptyString => []
      end
  | Eps => [st]
  | Bol => if (pos st =? 0)%nat then [st] else []
  | Eol =>
      match rest st with
      | EmptyString => [st]
      | String c EmptyString => if Py.char_eqb c "010" then [st] else []
      | _ => []
      end
  | Seq r1 r2 => flat_map (run r2) (run r1 st)
  | Alt r1 r2 => run r1 st ++ run r2 st
  | Star greedy r' => star greedy (run r') (S (Py.len (rest st))) st
  | Group n r' => map (close_group n st) (run r' st)
  | Look r' =>
      match run r' st with
      | [] => []
      | st' :: _ => [{| pos := pos st; rest := rest st; caps := caps st' |}]
      end
  end.

(** *** Pattern syntax *)

Definition chr (c : ascii) : regex := Chr (Py.char_eqb c).

Fixpoint lit (s : string) : regex :=
  match s with
  | EmptyString => Eps
  | String c s' => Seq (chr c) (lit s')
  end.

(** The parts of a pattern, one after the other. *)
Fixpoint cat (parts : list regex) : regex :=
  match parts with
  | [] => Eps
  | [r] => r
  | r :: parts' => Seq r (cat parts')
  end.

Definition plus (r : regex) : regex := Seq r (Star true r).      (* r+ *)
Definition many (r : regex) : regex := Star true r.              (* r* *)
Definition lazy (r : regex) : regex := Star false r.             (* r*? *)
Definition opt (r : regex) : regex := Alt r Eps.                 (* r? *)

Fixpoint rep (n : nat) (r : regex) : regex :=                    (* r{n} *)
  match n with
  | O => Eps
  | S n' => Seq r (rep n' r)
  end.

Fixpoint mem (c : ascii) (set : string) : bool :=
  match set with
  | EmptyString => false
  | String x set' => Py.char_eqb c x || mem c set'
  end.

Definition dot : regex := Chr (λ c, negb (Py.char_eqb c "010")). (* . *)
Definition anychar : regex := Chr (λ _, true).                   (* . under DOTALL *)
Definition digit : regex := Chr Py.is_digit.                     (* \d *)
Definition space : regex := Chr Py.is_space.                     (* \s *)
Definition nonspace : regex := Chr (λ c, negb (Py.is_space c)).  (* [^\s] *)
Definition oneof (set : string) : regex := Chr (λ c, mem c set).
Definition noneof (set : string) : regex := Chr (λ c, negb (mem c set)).

(** Under [re.IGNORECASE] a letter of the pattern matches in both cases;
    the classes of the patterns compiled with that flag hold no letter. *)
Definition ichr (c : ascii) : regex :=
  Chr (λ x, Py.char_eqb (Py.lower_char x) (Py.lower_char c)).

Fixpoint ilit (s : string) : regex :=
  match s with
  | EmptyString => Eps
  | String c s' => Seq (ichr c) (ilit s')
  end.

(** *** Match objects and the functions of the module [re] *)

Record Match := mkMatch {
  m_start : nat;
  m_end : nat;
  m_text : string;                 (* group(0) *)
  m_caps : list (nat * string)
}.

Fixpoint assoc (n : nat) (l : list (nat * string)) : option string :=
  match l with
  | [] => None
  | (k, v) :: l' => if (k =? n)%nat then Some v else assoc n l'
  end.

(** [m.group(n)] for n >= 1; [None] when the group took no part. *)
Definition group (m : Match) (n : nat) : option string := assoc n (m_caps m).

(** The match of [r] that starts at the cursor, if any. *)
Definition match_at (r : regex) (at_ : nat) (s : string) : option Match :=
  match run r {| pos := at_; rest := s; caps := [] |} with
  | [] => None
  | st' :: _ =>
      Some {| m_start := at_; m_end := pos st';
              m_text := Py.take (pos st' - at_) s; m_caps := caps st' |}
  end.

(** [re.match(r, s)]. *)
Definition match_ (r : regex) (s : string) : option Match := match_at r 0 s.

Fixpoint search_from (r : regex) (at_ : nat) (s : string) : option Match :=
  match match_at r at_ s with
  | Some m => Some m
  | None =>
      match s with
      | EmptyString => None
      | String _ s' => search_from r (S at_) s'
      end
  end.

(** [re.search(r, s)]: the leftmost match. *)
Definition search (r : regex) (s : string) : option Match := search_from r 0 s.

(** The successive non-overlapping matches, from the left. *)
Fixpoint finditer_go (fuel : nat) (r : regex) (at_ : nat) (s : string)
    : list Match :=
  match fuel with
  | O => []
  | S fuel' =>
      let skip_one :=
        match s with
        | EmptyString => []
        | String _ s' => finditer_go fuel' r (S at_) s'
        end in
      match match_at r at_ s with
      | Some m =>
          if (m_end m =? at_)%nat then m :: skip_one
          else m :: finditer_go fuel' r (m_end m) (Py.drop (m_end m - at_) s)
      | None => skip_one
      end
  end.

Definition finditer (r : regex) (s : string) : list Match :=
  finditer_go (S (Py.len s)) r 0 s.

(** [re.findall(r, s)] for a pattern without group: the matched texts. *)
Definition findall (r : regex) (s : string) : list string :=
  m_text <$> finditer r s.

(** [re.findall(r, s)] for a pattern with one group: the group's texts. *)
Definition findall1 (r : regex) (s : string) : list string :=
  (λ m, default EmptyString (group m 1)) <$> finditer r s.

(** [re.sub(r, repl, s)] for a replacement without group reference. *)
Fixpoint sub_go (fuel : nat) (r : regex) (repl : string) (at_ : nat)
    (s : string) : string :=
  match fuel with
  | O => s
  | S fuel' =>
      let skip_one :=
        match s with
        | EmptyString => EmptyString
        | String c s' => String c (sub_go fuel' r repl (S at_) s')
        end in
      match match_at r at_ s with
      | Some m =>
          if (m_end m =? at_)%nat then repl +:+ skip_one
          else repl +:+
               sub_go fuel' r repl (m_end m) (Py.drop (m_end m - at_) s)
      | None => skip_one
      end
  end.

Definition sub (r : regex) (repl s : string) : string :=
  sub_go (S (Py.len s)) r repl 0 s.

(** [re.split(r, s)] for a pattern without group that matches no empty
    string. *)
Fixpoint split_go (fuel : nat) (r : regex) (at_ : nat) (s cur : string)
    : list string :=
  match fuel with
  | O => [cur +:+ s]
  | S fuel' =>
      match s with
      | EmptyString => [cur]
      | String c s' =>
          match match_at r at_ s with
          | Some m =>
              if (m_end m =? at_)%nat
              then split_go fuel' r (S at_) s' (cur +:+ String c EmptyString)
              else cur :: split_go fuel' r (m_end m)
                            (Py.drop (m_end m - at_) s) EmptyString
          | None => split_go fuel' r (S at_) s' (cur +:+ String c EmptyString)
          end
      end
  end.

Definition split (r : regex) (s : string) : list string :=
  split_go (S (Py.len s)) r 0 s EmptyString.

End Re.

(** ** Python values held in dictionaries *)

Inductive pyval :=
| VNone
| VBool (b : bool)
| VInt (z : Z)
| VStr (s : string)
| VList (l : list string).

Module Val.

(** The truth value of an object. *)
Definition truthy (v : pyval) : bool :=
  match v with
  | VNone => false
  | VBool b => b
  | VInt z => negb (z =? 0)
  | VStr EmptyString => false
  | VStr _ => true
  | VList [] => false
  | VList _ => true
  end.

Definition nonempty (s : string) : bool :=
  match s with EmptyString => false | _ => true end.

(** [d.get(k, dflt)]. *)
Definition get (d : gmap string pyval) (k : string) (dflt : pyval) : pyval :=
  default dflt (d !! k).

(** The receiver of a [str] method: an [AttributeError] is raised on any
    other type; likewise an element given to [str.join]. *)
Definition as_str (v : pyval) : option string :=
  match v with VStr s => Some s | _ => None end.

Definition hex_digit (n : N) : ascii :=
  if (n <? 10)%N then ascii_of_N (48 + n) else ascii_of_N (87 + n).

(** [repr] of one character inside the quotes [q]. *)
Definition repr_char (q : ascii) (c : ascii) : string :=
  if Py.char_eqb c "\" then "\\"
  else if Py.char_eqb c q then String "\" (String q EmptyString)
  else if Py.char_eqb c "010" then "\n"
  else if Py.char_eqb c "013" then "\r"
  else if Py.char_eqb c "009" then "\t"
  else if (Py.code c <? 32)%N || (Py.code c =? 127)%N
       then String "\" (String "x" (String (hex_digit (Py.code c / 16))
              (String (hex_digit (Py.code c mod 16)) EmptyString)))
  else String c EmptyString.

Fixpoint repr_body (q : ascii) (s : string) : string :=
  match s with
  | EmptyString => EmptyString
  | String c s' => repr_char q c +:+ repr_body q s'
  end.

(** [repr(s)]: single quotes, unless [s] has a single quote and no double
    quote. *)
Definition repr_str (s : string) : string :=
  let q : ascii :=
    if Re.mem "'" s && negb (Re.mem Py.dquote s) then Py.dquote else "'"%char in
  String q (repr_body q s +:+ String q EmptyString).

(** [str(v)], which is also how an f-string shows [v]. *)
Definition str (v : pyval) : string :=
  match v with
  | VNone => "None"
  | VBool true => "True"
  | VBool false => "False"
  | VInt z => Py.str_of_Z z
  | VStr s => s
  | VList l => "[" +:+ Py.join ", " (repr_str <$> l) +:+ "]"
  end.

End Val.

(** ** [int(s)] on a string

    Surrounding white space, an optional sign, then decimal digits in which
    single underscores may separate digits; [None] is [ValueError]. *)

Module PyInt.

Definition digit_val (c : ascii) : Z := Z.of_N (Py.code c) - 48.

(** [acc] is the value read so far; [prev_digit] tells whether the previous
    character was a digit. *)
Fixpoint digits (acc : Z) (prev_digit : bool) (s : string) : option Z :=
  match s with
  | EmptyString => if prev_digit then Some acc else None
  | String c s' =>
      if Py.is_digit c then digits (10 * acc + digit_val c) true s'
      else if Py.char_eqb c "_" && prev_digit
           then match s' with
                | String d _ => if Py.is_digit d then digits acc false s' else None
                | EmptyString => None
                end
      else None
  end.

Definition parse (s : string) : option Z :=
  match Py.strip s with
  | String "-" body => Z.opp <$> digits 0 false body
  | String "+" body => digits 0 false body
  | body => digits 0 false body
  end.

End PyInt.

(** ** citation_formatter.py *)

Inductive CitationStyle := APA | MLA | CHICAGO | IEEE.

Record CitationFormatter := mkFormatter {
  style : CitationStyle;
  current_year : Z;                 (* datetime.now().year at construction *)
  _citation_counter : Z;
  _citation_map : gmap string Z
}.

(** [source_info]: the key [filename] may be absent. *)
Record SourceInfo := mkSource {
  si_filename : option string;
  si_metadata : gmap string pyval
}.

(** A citation as the reference list reads it: the keys [source] and
    [metadata], each with its default when absent. *)
Record Citation := mkCitation {
  source : string;
  metadata : gmap string pyval
}.

Definition is_ieee (s : CitationStyle) : bool :=
  match s with IEEE => true | _ => false end.

Definition __init__ (style : CitationStyle) (now_year : Z) : CitationFormatter :=
  {| style := style; current_year := now_year;
     _citation_counter := 0; _citation_map := ∅ |}.

Definition set_style (self : CitationFormatter) (new_style : CitationStyle)
    : CitationFormatter :=
  if is_ieee new_style
  then {| style := new_style; current_year := current_year self;
          _citation_counter := 0; _citation_map := ∅ |}
  else {| style := new_style; current_year := current_year self;
          _citation_counter := _citation_counter self;
          _citation_map := _citation_map self |}.

Definition reset_state (self : CitationFormatter) : CitationFormatter :=
  {| style := style self; current_year := current_year self;
     _citation_counter := 0; _citation_map := ∅ |}.

(** *** Truth values and f-string pieces *)

Definition nonempty := Val.nonempty.

(** The truth value of an [Optional[str]]. *)
Definition given (o : option string) : bool :=
  match o with Some s => nonempty s | None => false end.

(** An [Optional[str]] inside an f-string. *)
Definition shown (o : option string) : string := default "None" o.

Definition quoted (s : string) : string :=
  String Py.dquote (s +:+ String Py.dquote EmptyString).

(** The title between double quotes, unless it already starts with one. *)
Definition formatted_title (title : string) : string :=
  if Py.startswith (String Py.dquote EmptyString) title then title
  else quoted title.

(** *** Single citations *)

Definition _format_apa_citation (author : string) (year : option string)
    (title : string) : string :=
  if nonempty author && given year
  then author +:+ " (" +:+ shown year +:+ "). " +:+ title +:+ "."
  else if nonempty author then author +:+ " (n.d.). " +:+ title +:+ "."
  else if given year then title +:+ " (" +:+ shown year +:+ ")."
  else title +:+ " (n.d.).".

Definition _format_mla_citation (author : string) (year : option string)
    (title : string) : string :=
  if nonempty author
  then if given year
       then author +:+ ". " +:+ formatted_title title +:+ " " +:+ shown year +:+ "."
       else author +:+ ". " +:+ formatted_title title
  else if given year
       then formatted_title title +:+ " " +:+ shown year +:+ "."
       else formatted_title title.

Definition _format_chicago_citation (author : string) (year : option string)
    (title : string) : string :=
  if nonempty author && given year
  then author +:+ ". " +:+ shown year +:+ ". " +:+ quoted title +:+ "."
  else if nonempty author then author +:+ ". n.d. " +:+ quoted title +:+ "."
  else if given year then quoted title +:+ ". " +:+ shown year +:+ "."
  else quoted title +:+ ". n.d.".

Definition _format_ieee_citation (author : string) (year : option string)
    (title filename : string) : string :=
  if nonempty author && given year
  then author +:+ ", " +:+ formatted_title title +:+ " " +:+ shown year +:+ "."
  else if nonempty author then author +:+ ", " +:+ formatted_title title
  else if given year then formatted_title title +:+ " " +:+ shown year +:+ "."
  else formatted_title title.

(** *** In-text citations *)

Definition with_page_p (base : string) (page : option string) : string :=
  if given page then base +:+ ", p. " +:+ shown page +:+ ")" else base +:+ ")".

Definition _format_apa_in_text (author : string) (year page : option string)
    : string :=
  let base_citation :=
    if nonempty author && given year then "(" +:+ author +:+ ", " +:+ shown year
    else if nonempty author then "(" +:+ author +:+ ", n.d."
    else "(Unknown, n.d." in
  with_page_p base_citation page.

Definition _format_mla_in_text (author : string) (year page : option string)
    : string :=
  if nonempty author
  then if given page then "(" +:+ author +:+ " " +:+ shown page +:+ ")"
       else "(" +:+ author +:+ ")"
  else if given page then "(Unknown " +:+ shown page +:+ ")"
       else "(Unknown)".

Definition _format_chicago_in_text (author : string) (year page : option string)
    : string :=
  let base_citation :=
    if nonempty author && given year then "(" +:+ author +:+ " " +:+ shown year
    else if nonempty author then "(" +:+ author +:+ " n.d."
    else "(Unknown n.d." in
  if given page then base_citation +:+ ", " +:+ shown page +:+ ")"
  else base_citation +:+ ")".

(** The map is written before it is read, so the read always finds the
    key. *)
Definition _format_ieee_in_text (self : CitationFormatter) (filename : string)
    (page : option string) : string * CitationFormatter :=
  let self1 :=
    match _citation_map self !! filename with
    | Some _ => self
    | None =>
        let counter := _citation_counter self + 1 in
        {| style := style self; current_year := current_year self;
           _citation_counter := counter;
           _citation_map := <[filename := counter]> (_citation_map self) |}
    end in
  let number := default 0 (_citation_map self1 !! filename) in
  if given page
  then ("[" +:+ Py.str_of_Z number +:+ ", p. " +:+ shown page +:+ "]", self1)
  else ("[" +:+ Py.str_of_Z number +:+ "]", self1).

(** *** Extraction of author, year and title *)

Definition letter_or_space : Re.regex :=
  Re.Chr (λ c, Py.is_alpha c || Py.is_space c).

(** [^([A-Za-z\s]+)\s*\(\d{4}\)] *)
Definition author_paren_year : Re.regex :=
  Re.Seq Re.Bol (Re.Seq (Re.Group 1 (Re.plus letter_or_space))
    (Re.Seq (Re.many Re.space) (Re.Seq (Re.chr "(")
      (Re.Seq (Re.rep 4 Re.digit) (Re.chr ")"))))).

(** [^([A-Za-z\s]+)\s*-] *)
Definition author_dash : Re.regex :=
  Re.Seq Re.Bol (Re.Seq (Re.Group 1 (Re.plus letter_or_space))
    (Re.Seq (Re.many Re.space) (Re.chr "-"))).

(** [^([A-Za-z\s]+)\s*_] *)
Definition author_underscore : Re.regex :=
  Re.Seq Re.Bol (Re.Seq (Re.Group 1 (Re.plus letter_or_space))
    (Re.Seq (Re.many Re.space) (Re.chr "_"))).

Definition author_patterns : list Re.regex :=
  [author_paren_year; author_dash; author_underscore].

(** [parts[-1]] of [s.split()], when there is a part. *)
Definition last_word (s : string) : option string := last (Py.words s).

(** The loop over [author_patterns]: the first pattern that matches
    decides. *)
Fixpoint author_from_filename (short : bool) (patterns : list Re.regex)
    (filename_clean : string) : string :=
  match patterns with
  | [] => EmptyString
  | pattern :: patterns' =>
      match Re.search pattern filename_clean with
      | Some m =>
          let author := Py.strip (default EmptyString (Re.group m 1)) in
          if short then default author (last_word author) else author
      | None => author_from_filename short patterns' filename_clean
      end
  end.

Definition _extract_author (self : CitationFormatter)
    (metadata : gmap string pyval) (filename : string) (short_form : bool)
    : option string :=
  let join_authors (l : list string) : string :=
    match l with
    | [a] => a
    | [a; b] => a +:+ " and " +:+ b
    | a :: _ => a +:+ " et al."
    | [] => EmptyString
    end in
  let from_author_field :=
    author ← Py.strip <$> Val.as_str (Val.get metadata "author" (VStr EmptyString));
    if nonempty author
    then if short_form
         then if is_ieee (style self) then Some author
              else Some (default author (last_word author))
         else Some author
    else Some (author_from_filename (short_form && negb (is_ieee (style self)))
                 author_patterns (Py.replace ".pdf" EmptyString filename)) in
  match Val.get metadata "authors" (VList []) with
  | VList (first_author :: others) =>
      let authors_list := first_author :: others in
      if short_form
      then if is_ieee (style self) then Some (Py.join ", " authors_list)
           else Some (default (join_authors authors_list) (last_word first_author))
      else Some (join_authors authors_list)
  | _ => from_author_field
  end.

(** [(\d{4})] *)
Definition four_digits : Re.regex := Re.Group 1 (Re.rep 4 Re.digit).

Definition year_in_range (self : CitationFormatter) (y : Z) : bool :=
  (1900 <=? y) && (y <=? current_year self).

(** The loop over the four-digit runs of the filename. *)
Fixpoint first_valid_year (self : CitationFormatter) (year_matches : list string)
    : option string :=
  match year_matches with
  | [] => None
  | year_str :: rest =>
      match PyInt.parse year_str with
      | Some year_int =>
          if year_in_range self year_int then Some year_str
          else first_valid_year self rest
      | None => None
      end
  end.

(** The outer [option] is the exception; the inner one is the returned
    [Optional[str]]. *)
Definition _extract_year (self : CitationFormatter)
    (metadata : gmap string pyval) (filename : string)
    : option (option string) :=
  year ← Py.strip <$> Val.as_str (Val.get metadata "year" (VStr EmptyString));
  let from_filename := first_valid_year self (Re.findall1 four_digits filename) in
  let from_creation_date :=
    let creation_date := Val.get metadata "creation_date" (VStr EmptyString) in
    if Val.truthy creation_date
    then match Re.search four_digits (Val.str creation_date) with
         | Some year_match =>
             match PyInt.parse (default EmptyString (Re.group year_match 1)) with
             | Some year_int =>
                 if year_in_range self year_int
                 then Some (Py.str_of_Z year_int) else from_filename
             | None => from_filename
             end
         | None => from_filename
         end
    else from_filename in
  Some (if nonempty year
        then match PyInt.parse year with
             | Some year_int =>
                 if year_in_range self year_int
                 then Some (Py.str_of_Z year_int) else from_creation_date
             | None => from_creation_date
             end
        else from_creation_date).

(** [\(\d{4}\)] *)
Definition paren_year : Re.regex :=
  Re.Seq (Re.chr "(") (Re.Seq (Re.rep 4 Re.digit) (Re.chr ")")).

(** [^[A-Za-z\s]+-] *)
Definition lead_dash : Re.regex :=
  Re.Seq Re.Bol (Re.Seq (Re.plus letter_or_space) (Re.chr "-")).

(** [^[A-Za-z\s]+_] *)
Definition lead_underscore : Re.regex :=
  Re.Seq Re.Bol (Re.Seq (Re.plus letter_or_space) (Re.chr "_")).

Definition title_from_filename (filename : string) : string :=
  let title := Py.replace ".pdf" EmptyString filename in
  let title := Re.sub paren_year EmptyString title in
  let title := Re.sub lead_dash EmptyString title in
  let title := Re.sub lead_underscore EmptyString title in
  let title := Py.replace "-" " " (Py.replace "_" " " title) in
  let title := Py.join " " (Py.words title) in
  if nonempty title then Py.strip title else "Untitled Document".

Definition _extract_title (self : CitationFormatter)
    (metadata : gmap string pyval) (filename : string) : option string :=
  title ← Py.strip <$> Val.as_str (Val.get metadata "title" (VStr EmptyString));
  if nonempty title then Some title else Some (title_from_filename filename).

(** *** Full references

    [metadata.get('journal', metadata.get('subject', ''))] and the other
    fields are objects; an f-string shows them with [str].  The result is
    [None] when the Python function returns [None] or raises, which its one
    caller does not tell apart. *)

Section FullReference.

Variable md : gmap string pyval.

Definition field (k : string) : pyval := Val.get md k (VStr EmptyString).
Definition journal_field : pyval := Val.get md "journal" (field "subject").
Definition has (v : pyval) : bool := Val.truthy v.
Definition show (v : pyval) : string := Val.str v.

Definition _format_apa_full_reference (author : string) (year : option string)
    (title : string) : option string :=
  if negb (nonempty title) then None
  else if negb (nonempty author) && negb (given year) then Some (title +:+ " (n.d.).")
  else
    let parts : list string :=
      if nonempty author && given year then [author +:+ " (" +:+ shown year +:+ ")."]
      else if nonempty author then [author +:+ " (n.d.)."]
      else [title +:+ " (" +:+ shown year +:+ ")."] in
    let parts := if nonempty author then parts ++ [title +:+ "."] else parts in
    let journal := journal_field in
    let volume := field "volume" in
    let issue := field "issue" in
    let pages := field "pages" in
    let parts :=
      if has journal
      then
        let journal_part := "*" +:+ show journal +:+ "*" in
        let journal_part :=
          if has volume && has issue
          then journal_part +:+ ", " +:+ show volume +:+ "(" +:+ show issue +:+ ")"
          else if has volume then journal_part +:+ ", " +:+ show volume
          else journal_part in
        let journal_part :=
          if has pages then journal_part +:+ ", " +:+ show pages else journal_part in
        parts ++ [journal_part +:+ "."]
      else parts in
    let publisher := field "publisher" in
    let parts :=
      if has publisher && negb (has journal)
      then parts ++ [show publisher +:+ "."] else parts in
    let doi := field "doi" in
    let url := field "url" in
    if has doi then Some (Py.join " " (parts ++ ["https://doi.org/" +:+ show doi]))
    else if has url then u ← Val.as_str url; Some (Py.join " " (parts ++ [u]))
    else Some (Py.join " " parts).

(** [s.rstrip(',')] *)
Fixpoint rstrip_commas (s : string) : string :=
  match s with
  | EmptyString => EmptyString
  | String c s' =>
      match rstrip_commas s' with
      | EmptyString => if Py.char_eqb c "," then EmptyString else String c EmptyString
      | t => String c t
      end
  end.

Fixpoint endswith_comma (s : string) : bool :=
  match s with
  | EmptyString => false
  | String c EmptyString => Py.char_eqb c ","
  | String _ s' => endswith_comma s'
  end.

(** [parts[-1] = f(parts[-1])] *)
Fixpoint map_last (f : string → string) (parts : list string) : list string :=
  match parts with
  | [] => []
  | [x] => [f x]
  | x :: parts' => x :: map_last f parts'
  end.

(** [parts.insert(-1, x)]: before the last element. *)
Fixpoint insert_before_last (x : string) (parts : list string) : list string :=
  match parts with
  | [] => [x]
  | [y] => [x; y]
  | y :: parts' => y :: insert_before_last x parts'
  end.

Definition _format_mla_full_reference (author : string) (year : option string)
    (title : string) : option string :=
  if negb (nonempty title) then None
  else
    let parts : list string := if nonempty author then [author +:+ "."] else [] in
    let parts := parts ++ [formatted_title title] in
    let journal := journal_field in
    let volume := field "volume" in
    let issue := field "issue" in
    let pages := field "pages" in
    let parts :=
      if has journal
      then
        let parts := parts ++ ["*" +:+ show journal +:+ "*,"] in
        if has volume && has issue
        then parts ++ ["vol. " +:+ show volume +:+ ", no. " +:+ show issue +:+ ","]
        else if has volume then parts ++ ["vol. " +:+ show volume +:+ ","]
        else parts
      else parts in
    let parts := if given year then parts ++ [shown year +:+ ","] else parts in
    let parts :=
      if has pages
      then if has journal then parts ++ ["pp. " +:+ show pages +:+ "."]
           else parts ++ [show pages +:+ "."]
      else match last parts with
           | Some l =>
               if endswith_comma l
               then map_last (λ l, rstrip_commas l +:+ ".") parts else parts
           | None => parts
           end in
    let publisher := field "publisher" in
    let parts :=
      if has publisher && negb (has journal)
      then if given year then insert_before_last (show publisher +:+ ",") parts
           else parts ++ [show publisher +:+ "."]
      else parts in
    let doi := field "doi" in
    let url := field "url" in
    let parts :=
      if has doi then parts ++ ["DOI: " +:+ show doi +:+ "."]
      else if has url then parts ++ ["Web. " +:+ show url +:+ "."]
      else parts in
    Some (Py.join " " parts).

Definition _format_chicago_full_reference (author : string) (year : option string)
    (title : string) : option string :=
  if negb (nonempty title) then None
  else if negb (nonempty author)
  then if given year then Some (formatted_title title +:+ " " +:+ shown year +:+ ".")
       else Some (formatted_title title +:+ " n.d.")
  else
    let parts : list string :=
      if given year then [author +:+ ". " +:+ shown year +:+ "."]
      else [author +:+ ". n.d."] in
    let parts := parts ++ [formatted_title title] in
    let journal := journal_field in
    let volume := field "volume" in
    let issue := field "issue" in
    let pages := field "pages" in
    let parts :=
      if has journal
      then
        let journal_part := "*" +:+ show journal +:+ "*" in
        let journal_part :=
          if has volume && has issue
          then journal_part +:+ " " +:+ show volume +:+ ", no. " +:+ show issue
          else if has volume then journal_part +:+ " " +:+ show volume
          else journal_part in
        let journal_part :=
          if has pages
          then if given year
               then journal_part +:+ " (" +:+ shown year +:+ "): " +:+ show pages +:+ "."
               else journal_part +:+ ": " +:+ show pages +:+ "."
          else if given year then journal_part +:+ " (" +:+ shown year +:+ ")."
               else journal_part +:+ "." in
        parts ++ [journal_part]
      else parts in
    let publisher := field "publisher" in
    let parts :=
      if has publisher && negb (has journal) then parts ++ [show publisher +:+ "."]
      else if negb (has journal) then parts ++ ["."]
      else parts in
    let doi := field "doi" in
    let url := field "url" in
    let parts :=
      if has doi then parts ++ ["doi:" +:+ show doi +:+ "."]
      else if has url then parts ++ ["Accessed via " +:+ show url +:+ "."]
      else parts in
    Some (Py.join " " parts).

Definition _format_ieee_full_reference (author : string) (year : option string)
    (title : string) : option string :=
  if negb (nonempty title) then None
  else
    let parts : list string := if nonempty author then [author +:+ ","] else [] in
    let parts := parts ++ [formatted_title title] in
    let journal := journal_field in
    let volume := field "volume" in
    let issue := field "issue" in
    let pages := field "pages" in
    let parts :=
      if has journal
      then
        let journal_part := "*" +:+ show journal +:+ "*" in
        let journal_part :=
          if has volume && has issue
          then journal_part +:+ ", vol. " +:+ show volume +:+ ", no. " +:+ show issue
          else if has volume then journal_part +:+ ", vol. " +:+ show volume
          else journal_part in
        let journal_part :=
          if has pages then journal_part +:+ ", pp. " +:+ show pages else journal_part in
        let journal_part :=
          if given year then journal_part +:+ ", " +:+ shown year +:+ "."
          else journal_part +:+ "." in
        parts ++ [journal_part]
      else
        let publisher := field "publisher" in
        if has publisher && given year
        then parts ++ [show publisher +:+ ", " +:+ shown year +:+ "."]
        else if given year then parts ++ [shown year +:+ "."]
        else if has publisher then parts ++ [show publisher +:+ "."]
        else parts ++ ["."] in
    let doi := field "doi" in
    let url := field "url" in
    let parts :=
      if has doi then parts ++ ["DOI: " +:+ show doi]
      else if has url then parts ++ ["[Online]. Available: " +:+ show url]
      else parts in
    Some (Py.join " " parts).

End FullReference.

Definition _format_full_reference (self : CitationFormatter) (citation : Citation)
    : option string :=
  let metadata := metadata citation in
  let filename := source citation in
  author ← _extract_author self metadata filename false;
  year ← _extract_year self metadata filename;
  title ← _extract_title self metadata filename;
  match style self with
  | APA => _format_apa_full_reference metadata author year title
  | MLA => _format_mla_full_reference metadata author year title
  | CHICAGO => _format_chicago_full_reference metadata author year title
  | IEEE => _format_ieee_full_reference metadata author year title
  end.

(** *** [format_citation] and [format_in_text_citation] *)

Definition format_citation (self : CitationFormatter) (source_info : SourceInfo)
    : string :=
  let filename := default EmptyString (si_filename source_info) in
  let metadata := si_metadata source_info in
  let attempt : option string :=
    author ← _extract_author self metadata filename false;
    year ← _extract_year self metadata filename;
    title ← _extract_title self metadata filename;
    Some match style self with
         | APA => _format_apa_citation author year title
         | MLA => _format_mla_citation author year title
         | CHICAGO => _format_chicago_citation author year title
         | IEEE => _format_ieee_citation author year title filename
         end in
  match attempt with
  | Some citation => citation
  | None => default "Unknown source" (si_filename source_info)
  end.

Definition format_in_text_citation (self : CitationFormatter)
    (source_info : SourceInfo) (page : option string)
    : string * CitationFormatter :=
  let metadata := si_metadata source_info in
  let filename := default EmptyString (si_filename source_info) in
  let attempt : option (string * CitationFormatter) :=
    author ← _extract_author self metadata filename true;
    year ← _extract_year self metadata filename;
    Some match style self with
         | APA => (_format_apa_in_text author year page, self)
         | MLA => (_format_mla_in_text author year page, self)
         | CHICAGO => (_format_chicago_in_text author year page, self)
         | IEEE => _format_ieee_in_text self filename page
         end in
  default ("(Unknown, n.d.)", self) attempt.

(** *** The reference list *)

Definition _get_reference_header (self : CitationFormatter) : string :=
  match style self with
  | MLA => "Works Cited"
  | CHICAGO => "Bibliography"
  | _ => "References"
  end.

Fixpoint insert_sorted (x : string) (l : list string) : list string :=
  match l with
  | [] => [x]
  | y :: l' => if String.leb x y then x :: l else y :: insert_sorted x l'
  end.

(** [references.sort()] *)
Definition sort_strings (l : list string) : list string :=
  foldr insert_sorted [] l.

(** The first loop: one reference per distinct non-empty source, first
    occurrence kept. *)
Fixpoint collect_references (self : CitationFormatter) (citations : list Citation)
    (references seen_sources : list string) : list string :=
  match citations with
  | [] => references
  | citation :: citations' =>
      let source := source citation in
      if nonempty source && negb (bool_decide (source ∈ seen_sources))
      then match _format_full_reference self citation with
           | Some ref =>
               if nonempty ref
               then collect_references self citations'
                      (references ++ [ref]) (source :: seen_sources)
               else collect_references self citations' references seen_sources
           | None => collect_references self citations' references seen_sources
           end
      else collect_references self citations' references seen_sources
  end.

(** The IEEE loop: [ordered_references] is written by index, the other
    references are appended to [unmapped_refs]. *)
Fixpoint place_references (self : CitationFormatter) (citations : list Citation)
    (ordered_references : list (option string)) (unmapped_refs : list string)
    : list (option string) * list string :=
  match citations with
  | [] => (ordered_references, unmapped_refs)
  | citation :: citations' =>
      let ref := _format_full_reference self citation in
      match _citation_map self !! source citation with
      | Some number =>
          let idx := number - 1 in
          if given ref && (0 <=? idx)
             && (idx <? Z.of_nat (length ordered_references))
          then place_references self citations'
                 (<[Z.to_nat idx := ref]> ordered_references) unmapped_refs
          else place_references self citations' ordered_references unmapped_refs
      | None =>
          if given ref
          then place_references self citations' ordered_references
                 (unmapped_refs ++ [shown ref])
          else place_references self citations' ordered_references unmapped_refs
      end
  end.

(** [[ref for ref in ordered_references if ref is not None]] *)
Definition not_none (l : list (option string)) : list string := omap id l.

(** The numbered lines, counted from [i]. *)
Fixpoint numbered_lines (i : Z) (refs : list string) : string :=
  match refs with
  | [] => EmptyString
  | ref :: refs' =>
      "[" +:+ Py.str_of_Z i +:+ "] " +:+ ref +:+ Py.nl +:+ Py.nl
      +:+ numbered_lines (i + 1) refs'
  end.

Fixpoint plain_lines (refs : list string) : string :=
  match refs with
  | [] => EmptyString
  | ref :: refs' => ref +:+ Py.nl +:+ Py.nl +:+ plain_lines refs'
  end.

(** [final_refs] of the IEEE branch. *)
Definition ieee_final_refs (self : CitationFormatter) (citations : list Citation)
    : list string :=
  let references := collect_references self citations [] [] in
  let '(ordered_references, unmapped_refs) :=
    place_references self citations
      (replicate (length references) None) [] in
  not_none ordered_references ++ unmapped_refs.

Definition format_reference_list (self : CitationFormatter)
    (citations : list Citation) : string :=
  let references := collect_references self citations [] [] in
  match references with
  | [] => EmptyString
  | _ =>
      if is_ieee (style self)
      then Py.strip ("References" +:+ Py.nl +:+ Py.nl
                     +:+ numbered_lines 1 (ieee_final_refs self citations))
      else Py.strip (_get_reference_header self +:+ Py.nl +:+ Py.nl
                     +:+ plain_lines (sort_strings references))
  end.

(** *** Validation of a citation against the style *)

(** [^.+\s*\(\d{4}\)\..*] *)
Definition apa_author_year : Re.regex :=
  Re.Seq Re.Bol (Re.Seq (Re.plus Re.dot) (Re.Seq (Re.many Re.space)
    (Re.Seq (Re.chr "(") (Re.Seq (Re.rep 4 Re.digit) (Re.Seq (Re.chr ")")
      (Re.Seq (Re.chr ".") (Re.many Re.dot))))))).

(** [^.+\s*\(n\.d\.\)\..*] *)
Definition apa_author_nd : Re.regex :=
  Re.Seq Re.Bol (Re.Seq (Re.plus Re.dot) (Re.Seq (Re.many Re.space)
    (Re.Seq (Re.lit "(n.d.).") (Re.many Re.dot)))).

(** [^\(.+,\s*\d{4}\)] *)
Definition apa_in_text_year : Re.regex :=
  Re.Seq Re.Bol (Re.Seq (Re.chr "(") (Re.Seq (Re.plus Re.dot)
    (Re.Seq (Re.chr ",") (Re.Seq (Re.many Re.space)
      (Re.Seq (Re.rep 4 Re.digit) (Re.chr ")")))))).

(** [^\(.+,\s*n\.d\.\)] *)
Definition apa_in_text_nd : Re.regex :=
  Re.Seq Re.Bol (Re.Seq (Re.chr "(") (Re.Seq (Re.plus Re.dot)
    (Re.Seq (Re.chr ",") (Re.Seq (Re.many Re.space) (Re.lit "n.d.)"))))).

Definition dq : Re.regex := Re.chr Py.dquote.

(** [^.+\.\s*.+\s*\d{4}\..*] with the second [.+] between double quotes *)
Definition mla_author_title_year : Re.regex :=
  Re.Seq Re.Bol (Re.Seq (Re.plus Re.dot) (Re.Seq (Re.chr ".")
    (Re.Seq (Re.many Re.space) (Re.Seq dq (Re.Seq (Re.plus Re.dot) (Re.Seq dq
      (Re.Seq (Re.many Re.space) (Re.Seq (Re.rep 4 Re.digit)
        (Re.Seq (Re.chr ".") (Re.many Re.dot)))))))))).

(** [^\(.+\s+\d+\)] *)
Definition mla_in_text : Re.regex :=
  Re.Seq Re.Bol (Re.Seq (Re.chr "(") (Re.Seq (Re.plus Re.dot)
    (Re.Seq (Re.plus Re.space) (Re.Seq (Re.plus Re.digit) (Re.chr ")"))))).

(** [^.+\.\s*\d{4}\.\s*.+\..*] with the second [.+] between double quotes *)
Definition chicago_author_year_title : Re.regex :=
  Re.Seq Re.Bol (Re.Seq (Re.plus Re.dot) (Re.Seq (Re.chr ".")
    (Re.Seq (Re.many Re.space) (Re.Seq (Re.rep 4 Re.digit) (Re.Seq (Re.chr ".")
      (Re.Seq (Re.many Re.space) (Re.Seq dq (Re.Seq (Re.plus Re.dot) (Re.Seq dq
        (Re.Seq (Re.chr ".") (Re.many Re.dot))))))))))).

(** [^\(.+\s+\d{4}\)] *)
Definition chicago_in_text : Re.regex :=
  Re.Seq Re.Bol (Re.Seq (Re.chr "(") (Re.Seq (Re.plus Re.dot)
    (Re.Seq (Re.plus Re.space) (Re.Seq (Re.rep 4 Re.digit) (Re.chr ")"))))).

(** [^\[\d+\]] *)
Definition ieee_number : Re.regex :=
  Re.Seq Re.Bol (Re.Seq (Re.chr "[") (Re.Seq (Re.plus Re.digit) (Re.chr "]"))).

(** [^.+,\s*.+.*] with the second [.+] between double quotes *)
Definition ieee_author_title : Re.regex :=
  Re.Seq Re.Bol (Re.Seq (Re.plus Re.dot) (Re.Seq (Re.chr ",")
    (Re.Seq (Re.many Re.space) (Re.Seq dq (Re.Seq (Re.plus Re.dot)
      (Re.Seq dq (Re.many Re.dot))))))).

(** The loop [for pattern in patterns: if re.match(pattern, citation)]. *)
Definition matches_any (patterns : list Re.regex) (citation : string) : bool :=
  existsb (λ pattern, bool_decide (is_Some (Re.match_ pattern citation))) patterns.

Definition _validate_apa_format : string → bool :=
  matches_any [apa_author_year; apa_author_nd; apa_in_text_year; apa_in_text_nd].

Definition _validate_mla_format : string → bool :=
  matches_any [mla_author_title_year; mla_in_text].

Definition _validate_chicago_format : string → bool :=
  matches_any [chicago_author_year_title; chicago_in_text].

Definition _validate_ieee_format : string → bool :=
  matches_any [ieee_number; ieee_author_title].

Definition validate_citation_format (self : CitationFormatter) (citation : string)
    : bool :=
  match style self with
  | APA => _validate_apa_format citation
  | MLA => _validate_mla_format citation
  | CHICAGO => _validate_chicago_format citation
  | IEEE => _validate_ieee_format citation
  end.

(** *** Sessions of in-text citations *)

(** The calls are made one after the other on the same formatter; the labels
    are collected in call order. *)
Fixpoint cite_all (self : CitationFormatter)
    (calls : list (string * option string)) : list string * CitationFormatter :=
  match calls with
  | [] => ([], self)
  | (filename, page) :: calls' =>
      let '(label, self1) := _format_ieee_in_text self filename page in
      let '(labels, self2) := cite_all self1 calls' in
      (label :: labels, self2)
  end.

(** The label that carries number [n]. *)
Definition ieee_label (n : Z) (page : option string) : string :=
  if given page then "[" +:+ Py.str_of_Z n +:+ ", p. " +:+ shown page +:+ "]"
  else "[" +:+ Py.str_of_Z n +:+ "]".

(** Filenames in order of first citation. *)
Fixpoint first_seen_go (seen fs : list string) : list string :=
  match fs with
  | [] => seen
  | f :: fs' =>
      if decide (f ∈ seen) then first_seen_go seen fs'
      else first_seen_go (seen ++ [f]) fs'
  end.

Definition first_seen (fs : list string) : list string := first_seen_go [] fs.

Fixpoint index_of (f : string) (l : list string) : option nat :=
  match l with
  | [] => None
  | x :: l' => if decide (f = x) then Some O else S <$> index_of f l'
  end.

(** The state agrees with an order of first citation: the counter is the
    number of filenames seen and each has its position, counted from 1. *)
Definition numbered (order : list string) (self : CitationFormatter) : Prop :=
  _citation_counter self = Z.of_nat (length order) ∧
  ∀ f, _citation_map self !! f = (λ k, Z.of_nat k + 1) <$> index_of f order.

(** *** Notions used to state the round trip *)

Fixpoint all_chars (p : ascii → bool) (s : string) : bool :=
  match s with
  | EmptyString => true
  | String c s' => p c && all_chars p s'
  end.

(** A string without newline. *)
Definition one_line (s : string) : bool :=
  all_chars (λ c, negb (Py.char_eqb c "010")) s.

(** Four decimal digits. *)
Definition is_year (y : string) : bool :=
  (Py.len y =? 4)%nat && all_chars Py.is_digit y.

(** [r], started in [st], can stop with [t] left to read. *)
Definition reaches (r : Re.regex) (st : Re.mstate) (t : string) : Prop :=
  ∃ st', st' ∈ Re.run r st ∧ Re.rest st' = t.

(** The author and year combinations that the validator of a style
    accepts: every one for APA, an author for IEEE, an author and a year
    for MLA and Chicago. *)
Definition accepted_combination (s : CitationStyle) (author : string)
    (year : option string) : bool :=
  match s with
  | APA => true
  | IEEE => nonempty author
  | MLA | CHICAGO => nonempty author && given year
  end.

(** The title is put between quotes by the style, or brings none. *)
Definition title_quotable (s : CitationStyle) (title : string) : bool :=
  match s with
  | MLA | IEEE => negb (Py.startswith (String Py.dquote EmptyString) title)
  | APA | CHICAGO => true
  end.

(** A string that starts with a character that is no space. *)
Definition starts_solid (w : string) : Prop :=
  ∃ c w', w = String c w' ∧ Py.is_space c = false.

(** *** Notions used to state the IEEE reference list *)

(** The citation is written at number [n]: its source has number [n] in
    the numbering map and its reference is formatted. *)
Definition placed (self : CitationFormatter) (n : Z) (c : Citation) : bool :=
  bool_decide (_citation_map self !! source c = Some n)
  && given (_format_full_reference self c).

(** The references of the citations whose source has no number, in the
    order of the citations. *)
Definition unmapped_in_order (self : CitationFormatter) (citations : list Citation)
    : list string :=
  omap (λ c, match _citation_map self !! source c with
             | Some _ => None
             | None =>
                 if given (_format_full_reference self c)
                 then Some (shown (_format_full_reference self c)) else None
             end) citations.

(** The reference written last at number [n], or [cur] when none is. *)
Fixpoint last_placed (self : CitationFormatter) (n : Z) (citations : list Citation)
    (cur : option string) : option string :=
  match citations with
  | [] => cur
  | c :: citations' =>
      last_placed self n citations'
        (if placed self n c then _format_full_reference self c else cur)
  end.

(** One line of the numbered list. *)
Definition numbered_line (i : Z) (ref : string) : string :=
  "[" +:+ Py.str_of_Z i +:+ "] " +:+ ref +:+ Py.nl +:+ Py.nl.

(** ** bibliography_parser.py *)

Module Bibliography.

(** An entry is a dict; [entries] is iterated, so it is kept in insertion
    order. *)
Record BibliographyParser := mkParser {
  entries : list (string * gmap string pyval);
  raw_entries : list (gmap string pyval)
}.

Definition __init__ : BibliographyParser := {| entries := []; raw_entries := [] |}.

Definition vs (s : string) : pyval := VStr s.

(** [\((\d{4})\)] *)
Definition year_pattern : Re.regex :=
  Re.cat [Re.chr "("; Re.Group 1 (Re.rep 4 Re.digit); Re.chr ")"].

(** [doi:([^\s]+)] with IGNORECASE *)
Definition doi_pattern : Re.regex :=
  Re.cat [Re.ilit "doi:"; Re.Group 1 (Re.plus Re.nonspace)].

(** [https?://[^\s]+] *)
Definition url_pattern : Re.regex :=
  Re.cat [Re.lit "http"; Re.opt (Re.chr "s"); Re.lit "://"; Re.plus Re.nonspace].

Definition upper : Re.regex := Re.Chr Py.is_upper.

(** [\(\d{4}\)\.\s*([^.]+)\.\s*[A-Z]] *)
Definition journal_title_pattern : Re.regex :=
  Re.cat [Re.chr "("; Re.rep 4 Re.digit; Re.chr ")"; Re.chr ".";
          Re.many Re.space; Re.Group 1 (Re.plus (Re.noneof "."));
          Re.chr "."; Re.many Re.space; upper].

(** [^([^(]+)\s*\(] *)
Definition author_pattern : Re.regex :=
  Re.cat [Re.Bol; Re.Group 1 (Re.plus (Re.noneof "(")); Re.many Re.space;
          Re.chr "("].

(** [([A-Z][^,]+),\s*(\d+)(?:\((\d+)\))?,\s*([^.]+)\.] *)
Definition journal_pattern : Re.regex :=
  Re.cat [Re.Group 1 (Re.Seq upper (Re.plus (Re.noneof ",")));
          Re.chr ","; Re.many Re.space;
          Re.Group 2 (Re.plus Re.digit);
          Re.opt (Re.cat [Re.chr "("; Re.Group 3 (Re.plus Re.digit); Re.chr ")"]);
          Re.chr ","; Re.many Re.space;
          Re.Group 4 (Re.plus (Re.noneof ".")); Re.chr "."].

(** [\(\d{4}\)\.\s*([^.]+)\.] *)
Definition book_title_pattern : Re.regex :=
  Re.cat [Re.chr "("; Re.rep 4 Re.digit; Re.chr ")"; Re.chr ".";
          Re.many Re.space; Re.Group 1 (Re.plus (Re.noneof ".")); Re.chr "."].

(** [\(\d{4}\)[^.]*?\.\s*([^.,]+)] *)
Definition generic_title_pattern : Re.regex :=
  Re.cat [Re.chr "("; Re.rep 4 Re.digit; Re.chr ")"; Re.lazy (Re.noneof ".");
          Re.chr "."; Re.many Re.space; Re.Group 1 (Re.plus (Re.noneof ".,"))].

Definition group_or_empty (m : Re.Match) (n : nat) : string :=
  default EmptyString (Re.group m n).

(** [[author.strip() for author in authors_text.split(',') if author.strip()]] *)
Definition split_authors (authors_text : string) : list string :=
  filter (λ a, nonempty a = true) (Py.strip <$> Py.split "," authors_text).

(** The author block shared by the three entry parsers. *)
Definition with_authors (text : string) (entry : gmap string pyval)
    : gmap string pyval :=
  match Re.search author_pattern text with
  | Some author_match =>
      let authors_text := Py.strip (group_or_empty author_match 1) in
      <["authors" := VList (split_authors authors_text)]> entry
  | None => entry
  end.

Definition _parse_journal_entry (text : string) (entry : gmap string pyval)
    : gmap string pyval :=
  let entry := <["type" := vs "journal"]> entry in
  let entry :=
    match Re.search journal_title_pattern text with
    | Some title_match =>
        <["title" := vs (Py.strip (group_or_empty title_match 1))]> entry
    | None => entry
    end in
  let entry := with_authors text entry in
  match Re.search journal_pattern text with
  | Some journal_match =>
      <["pages" := vs (Py.strip (group_or_empty journal_match 4))]>
        (<["issue" := vs (group_or_empty journal_match 3)]>
          (<["volume" := vs (group_or_empty journal_match 2)]>
            (<["journal" := vs (Py.strip (group_or_empty journal_match 1))]> entry)))
  | None => entry
  end.

Definition _parse_book_entry (text : string) (entry : gmap string pyval)
    : gmap string pyval :=
  let entry := <["type" := vs "book"]> entry in
  let entry :=
    match Re.search book_title_pattern text with
    | Some title_match =>
        <["title" := vs (Py.strip (group_or_empty title_match 1))]> entry
    | None => entry
    end in
  with_authors text entry.

Definition title_of (entry : gmap string pyval) : pyval :=
  Val.get entry "title" (vs EmptyString).

Definition _parse_generic_entry (text : string) (entry : gmap string pyval)
    : gmap string pyval :=
  let entry :=
    match Re.search generic_title_pattern text with
    | Some title_match =>
        <["title" := vs (Py.strip (group_or_empty title_match 1))]> entry
    | None => entry
    end in
  let entry :=
    if Val.truthy (title_of entry) then entry
    else match Py.find "." text with
         | Some first_period =>
             if (0 <? first_period)%nat
             then let potential_title := Py.strip (Py.take first_period text) in
                  if (10 <? Py.len potential_title)%nat
                     && negb (Py.contains "(" potential_title)
                  then <["title" := vs potential_title]> entry else entry
             else entry
         | None => entry
         end in
  with_authors text entry.

Definition blank_entry (entry_text : string) : gmap string pyval :=
  <["raw_text" := vs entry_text]> (<["title" := vs EmptyString]>
    (<["authors" := VList []]> (<["year" := vs EmptyString]>
      (<["journal" := vs EmptyString]> (<["volume" := vs EmptyString]>
        (<["issue" := vs EmptyString]> (<["pages" := vs EmptyString]>
          (<["doi" := vs EmptyString]> (<["url" := vs EmptyString]>
            (<["type" := vs "unknown"]> ∅)))))))))).

(** [None] is the returned [None]; no step of the function raises on a
    string. *)
Definition _parse_single_entry (entry_text : string)
    : option (gmap string pyval) :=
  let entry := blank_entry entry_text in
  let entry :=
    match Re.search year_pattern entry_text with
    | Some year_match => <["year" := vs (group_or_empty year_match 1)]> entry
    | None => entry
    end in
  let entry :=
    match Re.search doi_pattern entry_text with
    | Some doi_match => <["doi" := vs (group_or_empty doi_match 1)]> entry
    | None => entry
    end in
  let entry :=
    match Re.search url_pattern entry_text with
    | Some url_match => <["url" := vs (Re.m_text url_match)]> entry
    | None => entry
    end in
  let entry :=
    if Py.contains "Journal" entry_text || Py.contains "journal" (Py.lower entry_text)
    then _parse_journal_entry entry_text entry
    else if Py.contains "Book" entry_text || Py.contains "book" (Py.lower entry_text)
    then _parse_book_entry entry_text entry
    else _parse_generic_entry entry_text entry in
  if Val.truthy (title_of entry) then Some entry else None.

(** [self.entries[title] = entry]: an existing key keeps its place. *)
Fixpoint assign (title : string) (entry : gmap string pyval)
    (l : list (string * gmap string pyval)) : list (string * gmap string pyval) :=
  match l with
  | [] => [(title, entry)]
  | (k, v) :: l' =>
      if bool_decide (k = title) then (k, entry) :: l'
      else (k, v) :: assign title entry l'
  end.

(** The loop of [parse_zotero_txt] over the paragraphs. *)
Fixpoint parse_entries (raw : list string)
    (index : list (string * gmap string pyval))
    (parsed : list (gmap string pyval))
    : list (string * gmap string pyval) * list (gmap string pyval) :=
  match raw with
  | [] => (index, parsed)
  | raw_entry :: raw' =>
      match _parse_single_entry (Py.strip raw_entry) with
      | Some entry =>
          let title := Py.lower (Val.str (title_of entry)) in
          parse_entries raw'
            (if nonempty title then assign title entry index else index)
            (parsed ++ [entry])
      | None => parse_entries raw' index parsed
      end
  end.

Definition parse_zotero_txt (self : BibliographyParser) (file_content : string)
    : bool * BibliographyParser :=
  let '(index, parsed) :=
    parse_entries (Py.split (Py.nl +:+ Py.nl) (Py.strip file_content)) [] [] in
  (bool_decide (0 < length parsed)%nat,
   {| entries := index; raw_entries := parsed |}).

End Bibliography.

(** ** pdf_library.py

    The reader of PyPDF2 is seen through what the library reads of it: the
    document information, a dict of strings that may be missing, and the
    text of each page, [None] when its extraction fails.

    The metadata dict is modelled up to the merge of its two passes.  The
    last step of [_extract_metadata], the assessment that sets the keys
    is_academic_paper and confidence_score from floating-point scores,
    reads the merged dict and writes no other key; the two keys are left
    out of the modelled dict. *)

Module Library.

Record PdfReader := mkReader {
  info : option (gmap string string);
  page_texts : list (option string)
}.

Definition vs (s : string) : pyval := VStr s.
Definition empty : pyval := VStr EmptyString.

(** *** Cleaning of the document information *)

(** [^(Microsoft Word - |Adobe PDF - )] with IGNORECASE *)
Definition title_prefix : Re.regex :=
  Re.cat [Re.Bol; Re.Group 1 (Re.Alt (Re.ilit "Microsoft Word - ")
                                     (Re.ilit "Adobe PDF - "))].

(** [\.(pdf|doc|docx)$] with IGNORECASE *)
Definition title_extension : Re.regex :=
  Re.cat [Re.chr "."; Re.Group 1 (Re.Alt (Re.ilit "pdf")
                        (Re.Alt (Re.ilit "doc") (Re.ilit "docx"))); Re.Eol].

(** [\s+] *)
Definition spaces : Re.regex := Re.plus Re.space.

Definition _clean_title (title : string) : string :=
  if negb (nonempty title) then EmptyString
  else
    let title := Py.strip title in
    let title := Re.sub title_prefix EmptyString title in
    let title := Re.sub title_extension EmptyString title in
    Py.strip (Re.sub spaces " " title).

(** [[part.strip() for part in s.split(delimiter) if part.strip()]] *)
Definition split_strip (delimiter s : string) : list string :=
  filter (λ part, nonempty part = true) (Py.strip <$> Py.split delimiter s).

(** The loop over the delimiters: the first one found in the string
    splits it. *)
Fixpoint split_on_first (delimiters : list string) (s : string) : list string :=
  match delimiters with
  | [] => []
  | delimiter :: delimiters' =>
      if Py.contains delimiter s then split_strip delimiter s
      else split_on_first delimiters' s
  end.

(** [\([^)]*\)] *)
Definition parenthesised : Re.regex :=
  Re.cat [Re.chr "("; Re.many (Re.noneof ")"); Re.chr ")"].

(** [<[^>]*>] *)
Definition angle_bracketed : Re.regex :=
  Re.cat [Re.chr "<"; Re.many (Re.noneof ">"); Re.chr ">"].

Definition clean_author (author : string) : string :=
  Py.strip (Re.sub angle_bracketed EmptyString
              (Re.sub parenthesised EmptyString author)).

Definition _parse_authors (author_string : string) : list string :=
  if negb (nonempty author_string) then []
  else
    let authors :=
      split_on_first [";"; ","; " and "; " & "; Py.nl] author_string in
    let authors :=
      match authors with [] => [Py.strip author_string] | _ => authors end in
    filter (λ author, nonempty author && (2 <? Py.len author)%nat = true)
           (clean_author <$> authors).

Definition _extract_keywords (subject : string) : list string :=
  if negb (nonempty subject) then []
  else
    let keywords := split_on_first [";"; ","; "|"; Py.nl] subject in
    let keywords :=
      match keywords with [] => [Py.strip subject] | _ => keywords end in
    filter (λ kw, (2 <? Py.len kw)%nat = true) keywords.

(** The pattern [(\d{4})] is [four_digits], as in the formatter. *)
Definition _extract_year_from_date (date_string : string) : string :=
  if negb (nonempty date_string) then EmptyString
  else match Re.search four_digits date_string with
       | Some year_match =>
           match PyInt.parse (default EmptyString (Re.group year_match 1)) with
           | Some year =>
               if (1900 <=? year) && (year <=? 2030) then Py.str_of_Z year
               else EmptyString
           | None => EmptyString
           end
       | None => EmptyString
       end.

(** *** Extraction from the text of the first pages *)

(** [[10]\.\d+\/[^\s]+], the group shared by the first five patterns *)
Definition doi_body : Re.regex :=
  Re.Group 1 (Re.cat [Re.oneof "10"; Re.chr "."; Re.plus Re.digit; Re.chr "/";
                      Re.plus Re.nonspace]).

Definition http_s : Re.regex := Re.cat [Re.ilit "http"; Re.opt (Re.ichr "s")].

(** The six patterns, compiled with IGNORECASE. *)
Definition doi_patterns : list Re.regex :=
  [ Re.cat [Re.ilit "doi:"; Re.many Re.space; doi_body];
    Re.cat [Re.ilit "DOI:"; Re.many Re.space; doi_body];
    Re.cat [http_s; Re.ilit "://doi.org/"; doi_body];
    Re.cat [http_s; Re.ilit "://dx.doi.org/"; doi_body];
    Re.cat [Re.ilit "doi.org/"; doi_body];
    Re.Group 1 (Re.cat [Re.lit "10."; Re.plus Re.digit; Re.chr "/";
                        Re.plus (Re.Chr (λ c, negb (Py.is_space c
                                                    || Re.mem c ",;")))]) ].

(** [[.,;)]$] *)
Definition trailing_punctuation : Re.regex :=
  Re.cat [Re.oneof ".,;)"; Re.Eol].

Fixpoint first_doi (patterns : list Re.regex) (text : string) : string :=
  match patterns with
  | [] => EmptyString
  | pattern :: patterns' =>
      match Re.search pattern text with
      | Some m =>
          let doi := Re.sub trailing_punctuation EmptyString
                       (default EmptyString (Re.group m 1)) in
          if (7 <? Py.len doi)%nat then doi else first_doi patterns' text
      | None => first_doi patterns' text
      end
  end.

Definition _extract_doi_from_text (text : string) : string :=
  if negb (nonempty text) then EmptyString else first_doi doi_patterns text.

(** [[line.strip() for line in text.split('\n') if line.strip()]] *)
Definition stripped_lines (text : string) : list string :=
  split_strip Py.nl text.

(** [[^\w\s]] *)
Definition special_char : Re.regex :=
  Re.Chr (λ c, negb (Py.is_word c || Py.is_space c)).

Definition header_keywords : list string :=
  ["page"; "volume"; "journal"; "doi"; "abstract"; "keywords"; "introduction"].

Definition affiliation_keywords : list string :=
  ["author"; "university"; "department"; "email"].

(** The inner loop over at most two following lines. *)
Fixpoint continue_title (full_title : string) (next_lines : list string) : string :=
  match next_lines with
  | [] => full_title
  | next_line :: more =>
      if (10 <? Py.len next_line)%nat && (Py.len next_line <? 100)%nat
         && negb (Py.contains_any affiliation_keywords (Py.lower next_line))
      then continue_title (full_title +:+ " " +:+ next_line) more
      else full_title
  end.

(** The loop over [lines[:10]]; [budget] counts the lines still to try and
    [lines] is the list from the current line on. *)
Fixpoint title_in_lines (budget : nat) (lines : list string) : string :=
  match budget, lines with
  | S budget', line :: following =>
      if (Py.len line <? 10)%nat
         || PrimFloat.ltb 0.3
              (Py.ratio (length (Re.findall special_char line)) (Py.len line))
      then title_in_lines budget' following
      else if Py.contains_any header_keywords (Py.lower line)
      then title_in_lines budget' following
      else if (20 <? Py.len line)%nat && (Py.len line <? 200)%nat
      then Py.strip (continue_title line (take 2 following))
      else title_in_lines budget' following
  | _, _ => EmptyString
  end.

Definition _extract_title_from_text (text : string) : string :=
  if negb (nonempty text) then EmptyString
  else title_in_lines 10 (stripped_lines text).

(** [^.*?(author|by)\s*:?\s*] with IGNORECASE *)
Definition author_lead : Re.regex :=
  Re.cat [Re.Bol; Re.lazy Re.dot;
          Re.Group 1 (Re.Alt (Re.ilit "author") (Re.ilit "by"));
          Re.many Re.space; Re.opt (Re.chr ":"); Re.many Re.space].

(** [[A-Z][a-z]+ [A-Z][a-z]+] *)
Definition first_last : Re.regex :=
  Re.cat [Re.Chr Py.is_upper; Re.plus (Re.Chr Py.is_lower); Re.chr " ";
          Re.Chr Py.is_upper; Re.plus (Re.Chr Py.is_lower)].

(** One group: a first and last name, then any number of [,\s*] and a
    first and last name. *)
Definition name_pattern : Re.regex :=
  Re.Group 1 (Re.cat [first_last;
                      Re.many (Re.cat [Re.chr ","; Re.many Re.space; first_last])]).

(** The authors that one line contributes. *)
Definition authors_in_line (line : string) : list string :=
  if (Py.len line <? 3)%nat then []
  else
    let by_keyword :=
      if Py.contains_any ["author"; "by "] (Py.lower line)
      then let author_text := Re.sub author_lead EmptyString line in
           if nonempty author_text then _parse_authors author_text else []
      else [] in
    let by_pattern :=
      concat ((λ m, if (5 <? Py.len m)%nat && (Py.len m <? 100)%nat
                    then _parse_authors m else [])
              <$> Re.findall1 name_pattern line) in
    by_keyword ++ by_pattern.

(** The removal of duplicates, first occurrence kept. *)
Fixpoint unique_authors (authors unique : list string) : list string :=
  match authors with
  | [] => unique
  | author :: authors' =>
      if negb (bool_decide (author ∈ unique)) && (2 <? Py.len author)%nat
      then unique_authors authors' (unique ++ [author])
      else unique_authors authors' unique
  end.

Definition _extract_authors_from_text (text : string) : list string :=
  if negb (nonempty text) then []
  else
    let lines := stripped_lines text in
    let authors := concat (authors_in_line <$> take 20 lines) in
    take 10 (unique_authors authors []).

Record JournalInfo := mkInfo {
  journal : string; volume : string; issue : string; pages : string;
  publisher : string
}.

Definition journal_indicators : list string :=
  ["journal"; "proceedings"; "conference"; "international"; "ieee"; "acm";
   "springer"; "elsevier"].

Definition publishers : list string :=
  ["springer"; "elsevier"; "ieee"; "acm"; "wiley"; "taylor"; "francis"; "sage";
   "oxford"; "cambridge"].

(** [(volume|vol|issue|no|pp?\.)\s*\d+.*$] with IGNORECASE *)
Definition volume_tail : Re.regex :=
  Re.cat [Re.Group 1 (Re.Alt (Re.ilit "volume") (Re.Alt (Re.ilit "vol")
            (Re.Alt (Re.ilit "issue") (Re.Alt (Re.ilit "no")
              (Re.cat [Re.ichr "p"; Re.opt (Re.ichr "p"); Re.chr "."])))));
          Re.many Re.space; Re.plus Re.digit; Re.many Re.dot; Re.Eol].

(** [\d{4}.*$] *)
Definition year_tail : Re.regex :=
  Re.cat [Re.rep 4 Re.digit; Re.many Re.dot; Re.Eol].

(** [vol(?:ume)?\s*\.?\s*(\d+)] with IGNORECASE *)
Definition vol_pattern : Re.regex :=
  Re.cat [Re.ilit "vol"; Re.opt (Re.ilit "ume"); Re.many Re.space;
          Re.opt (Re.chr "."); Re.many Re.space; Re.Group 1 (Re.plus Re.digit)].

(** [(?:issue|no|number)\s*\.?\s*(\d+)] with IGNORECASE *)
Definition issue_pattern : Re.regex :=
  Re.cat [Re.Alt (Re.ilit "issue") (Re.Alt (Re.ilit "no") (Re.ilit "number"));
          Re.many Re.space; Re.opt (Re.chr "."); Re.many Re.space;
          Re.Group 1 (Re.plus Re.digit)].

(** [pp?\.\s*(\d+(?:-\d+)?)] with IGNORECASE *)
Definition page_pattern : Re.regex :=
  Re.cat [Re.ichr "p"; Re.opt (Re.ichr "p"); Re.chr "."; Re.many Re.space;
          Re.Group 1 (Re.cat [Re.plus Re.digit;
                              Re.opt (Re.cat [Re.chr "-"; Re.plus Re.digit])])].

(** The first publisher of the list found in the line. *)
Fixpoint first_publisher (names : list string) (line_lower : string) : string :=
  match names with
  | [] => EmptyString
  | name :: names' =>
      if Py.contains name line_lower then Py.title name
      else first_publisher names' line_lower
  end.

Definition first_group (pattern : Re.regex) (line : string) : string :=
  match Re.search pattern line with
  | Some m => default EmptyString (Re.group m 1)
  | None => EmptyString
  end.

(** A field is set once: while it is empty, a value found fills it. *)
Definition keep_or (current found : string) : string :=
  if nonempty current then current else found.

(** One line of the loop of [_extract_journal_info]. *)
Definition journal_info_line (info : JournalInfo) (raw_line : string)
    : JournalInfo :=
  let line := Py.strip raw_line in
  if (Py.len line <? 5)%nat then info
  else
    let found_journal :=
      if Py.contains_any journal_indicators (Py.lower line)
         && (Py.len line <? 150)%nat
      then let j := Py.strip (Re.sub year_tail EmptyString
                                (Re.sub volume_tail EmptyString line)) in
           if (5 <? Py.len j)%nat then j else EmptyString
      else EmptyString in
    {| journal := keep_or (journal info) found_journal;
       volume := keep_or (volume info) (first_group vol_pattern line);
       issue := keep_or (issue info) (first_group issue_pattern line);
       pages := keep_or (pages info) (first_group page_pattern line);
       publisher := keep_or (publisher info)
                      (first_publisher publishers (Py.lower line)) |}.

Definition no_info : JournalInfo :=
  {| journal := EmptyString; volume := EmptyString; issue := EmptyString;
     pages := EmptyString; publisher := EmptyString |}.

Definition _extract_journal_info (text : string) : JournalInfo :=
  if negb (nonempty text) then no_info
  else foldl journal_info_line no_info (take 30 (Py.split Py.nl text)).

Definition publication_keywords : list string :=
  ["published"; "copyright"; "journal"; "conference"; "proceedings"].

(** The loop over the four-digit runs of one line.  The copyright sign of
    the keyword list is no ASCII character and is found in no string of the
    model. *)
Fixpoint year_in_line (context : string) (year_matches : list string)
    : option string :=
  match year_matches with
  | [] => None
  | year_str :: more =>
      match PyInt.parse year_str with
      | Some year =>
          if (1900 <=? year) && (year <=? 2030)
          then if Py.contains_any publication_keywords context
               then Some year_str
               else if (1980 <=? year) && (year <=? 2030) then Some year_str
               else year_in_line context more
          else year_in_line context more
      | None => None
      end
  end.

Fixpoint year_in_lines (lines : list string) : string :=
  match lines with
  | [] => EmptyString
  | line :: lines' =>
      match year_in_line (Py.lower line) (Re.findall1 four_digits line) with
      | Some year_str => year_str
      | None => year_in_lines lines'
      end
  end.

Definition _extract_year_from_text (text : string) : string :=
  if negb (nonempty text) then EmptyString
  else year_in_lines (take 50 (Py.split Py.nl text)).

(** [abstract\s*[:\-]?\s*(.*?)(?=\n\s*(?:keywords|introduction|1\.|\d+\.|references))]
    with IGNORECASE and DOTALL *)
Definition abstract_pattern : Re.regex :=
  Re.cat [Re.ilit "abstract"; Re.many Re.space; Re.opt (Re.oneof ":-");
          Re.many Re.space; Re.Group 1 (Re.lazy Re.anychar);
          Re.Look (Re.cat [Re.chr "010"; Re.many Re.space;
            Re.Alt (Re.ilit "keywords") (Re.Alt (Re.ilit "introduction")
              (Re.Alt (Re.lit "1.") (Re.Alt (Re.cat [Re.plus Re.digit; Re.chr "."])
                (Re.ilit "references"))))])].

Definition _extract_abstract (text : string) : string :=
  if negb (nonempty text) then EmptyString
  else match Re.search abstract_pattern text with
       | Some m =>
           let abstract :=
             Re.sub spaces " " (Py.strip (default EmptyString (Re.group m 1))) in
           if (50 <? Py.len abstract)%nat && (Py.len abstract <? 2000)%nat
           then abstract else EmptyString
       | None => EmptyString
       end.

Definition blank_text_metadata : gmap string pyval :=
  <["title" := empty]> (<["authors" := VList []]> (<["abstract" := empty]>
    (<["doi" := empty]> (<["journal" := empty]> (<["year" := empty]>
      (<["volume" := empty]> (<["issue" := empty]> (<["pages" := empty]>
        (<["publisher" := empty]> (<["keywords" := VList []]> ∅)))))))))).

(** The text of the first three pages, a newline after each. *)
Fixpoint first_pages_text (pages : list (option string)) : string :=
  match pages with
  | [] => EmptyString
  | Some page_text :: pages' =>
      if nonempty page_text then page_text +:+ Py.nl +:+ first_pages_text pages'
      else first_pages_text pages'
  | None :: pages' => first_pages_text pages'
  end.

Definition _extract_text_based_metadata (pdf_reader : PdfReader)
    : gmap string pyval :=
  let metadata := blank_text_metadata in
  let text := first_pages_text (take 3 (page_texts pdf_reader)) in
  if negb (nonempty text) then metadata
  else
    let metadata := <["doi" := vs (_extract_doi_from_text text)]> metadata in
    let text_title := _extract_title_from_text text in
    let metadata :=
      if nonempty text_title then <["title" := vs text_title]> metadata
      else metadata in
    let text_authors := _extract_authors_from_text text in
    let metadata :=
      match text_authors with
      | [] => metadata
      | _ => <["authors" := VList text_authors]> metadata
      end in
    let journal_info := _extract_journal_info text in
    let metadata :=
      <["publisher" := vs (publisher journal_info)]>
        (<["pages" := vs (pages journal_info)]>
          (<["issue" := vs (issue journal_info)]>
            (<["volume" := vs (volume journal_info)]>
              (<["journal" := vs (journal journal_info)]> metadata)))) in
    let metadata :=
      if negb (Val.truthy (Val.get metadata "year" empty))
      then <["year" := vs (_extract_year_from_text text)]> metadata
      else metadata in
    <["abstract" := vs (_extract_abstract text)]> metadata.

(** *** The merge of the two passes *)

(** One turn of the first loop: the value of the text wins when the merged
    one is missing, false or shorter as a string. *)
Definition prefer_text (text_metadata merged : gmap string pyval) (key : string)
    : gmap string pyval :=
  let text_value := Val.get text_metadata key empty in
  if Val.truthy text_value
     && (negb (Val.truthy (Val.get merged key VNone))
         || (Py.len (Val.str (Val.get merged key empty))
             <? Py.len (Val.str text_value))%nat)
  then <[key := text_value]> merged else merged.

(** One turn of the second loop: the value of the text fills a hole. *)
Definition fill_from_text (text_metadata merged : gmap string pyval)
    (key : string) : gmap string pyval :=
  if Val.truthy (Val.get text_metadata key VNone)
     && negb (Val.truthy (Val.get merged key VNone))
  then <[key := Val.get text_metadata key VNone]> merged else merged.

(** [', '.join(v)]: a list of strings is joined, a string is joined
    character by character, any other object raises. *)
Fixpoint chars (s : string) : list string :=
  match s with
  | EmptyString => []
  | String c s' => String c EmptyString :: chars s'
  end.

Definition join_value (v : pyval) : option string :=
  match v with
  | VList l => Some (Py.join ", " l)
  | VStr s => Some (Py.join ", " (chars s))
  | _ => None
  end.

Definition _merge_metadata (pdf_metadata text_metadata : gmap string pyval)
    : option (gmap string pyval) :=
  let merged :=
    foldl (prefer_text text_metadata) pdf_metadata
      ["title"; "authors"; "doi"; "journal"; "year"; "abstract"] in
  let merged :=
    foldl (fill_from_text text_metadata) merged
      ["volume"; "issue"; "pages"; "publisher"; "keywords"] in
  if Val.truthy (Val.get merged "authors" VNone)
     && negb (Val.truthy (Val.get merged "author" VNone))
  then author ← join_value (Val.get merged "authors" VNone);
       Some (<["author" := vs author]> merged)
  else Some merged.

(** *** [_extract_metadata] *)

Definition blank_metadata : gmap string pyval :=
  <["title" := empty]> (<["authors" := VList []]> (<["author" := empty]>
    (<["subject" := empty]> (<["abstract" := empty]> (<["keywords" := VList []]>
      (<["doi" := empty]> (<["journal" := empty]> (<["year" := empty]>
        (<["volume" := empty]> (<["issue" := empty]> (<["pages" := empty]>
          (<["publisher" := empty]> (<["creator" := empty]>
            (<["producer" := empty]> (<["creation_date" := empty]>
              (<["modification_date" := empty]>
                (<["num_pages" := VInt 0]> ∅))))))))))))))))).

(** [pdf_reader.metadata.get(key, '')] *)
Definition info_get (document_info : gmap string string) (key : string) : string :=
  default EmptyString (document_info !! key).

(** The block under [if pdf_reader.metadata:]. *)
Definition from_document_info (document_info : gmap string string)
    (metadata : gmap string pyval) : gmap string pyval :=
  let raw_title := Py.strip (info_get document_info "/Title") in
  let raw_author := Py.strip (info_get document_info "/Author") in
  let raw_subject := Py.strip (info_get document_info "/Subject") in
  let metadata := <["title" := vs (_clean_title raw_title)]> metadata in
  let metadata :=
    if nonempty raw_author
    then <["author" := vs raw_author]>
           (<["authors" := VList (_parse_authors raw_author)]> metadata)
    else metadata in
  let metadata := <["subject" := vs raw_subject]> metadata in
  let metadata :=
    if nonempty raw_subject
    then <["keywords" := VList (_extract_keywords raw_subject)]> metadata
    else metadata in
  let metadata :=
    <["creator" := vs (Py.strip (info_get document_info "/Creator"))]> metadata in
  let metadata :=
    <["producer" := vs (Py.strip (info_get document_info "/Producer"))]> metadata in
  let metadata :=
    <["creation_date" := vs (info_get document_info "/CreationDate")]> metadata in
  let metadata :=
    <["modification_date" := vs (info_get document_info "/ModDate")]> metadata in
  if negb (Val.truthy (Val.get metadata "year" empty))
  then <["year" := vs (_extract_year_from_date
                         (Val.str (Val.get metadata "creation_date" empty)))]>
         metadata
  else metadata.

(** The document information counts when it is present and not empty. *)
Definition container_metadata (pdf_reader : PdfReader) : gmap string pyval :=
  let metadata :=
    match info pdf_reader with
    | Some document_info =>
        if bool_decide (document_info = ∅) then blank_metadata
        else from_document_info document_info blank_metadata
    | None => blank_metadata
    end in
  <["num_pages" := VInt (Z.of_nat (length (page_texts pdf_reader)))]> metadata.

(** When the merge raises, the [except] clause leaves the dict of the first
    pass. *)
Definition _extract_metadata (pdf_reader : PdfReader) : gmap string pyval :=
  let metadata := container_metadata pdf_reader in
  let text_metadata := _extract_text_based_metadata pdf_reader in
  default metadata (_merge_metadata metadata text_metadata).

(** *** The library and its chunks *)

Record PdfData := mkData {
  filename : string;
  full_text : string;
  pdf_pages : list (Z * string);          (* page number and stripped text *)
  pdf_metadata : gmap string pyval
}.

(** [self.library]: filenames in insertion order. *)
Record PDFLibrary := mkLibrary { library : list (string * PdfData) }.

(** A chunk of the searchable content. *)
Record Content := mkContent {
  c_filename : string;
  c_page : Z;
  c_text : string;
  c_metadata : gmap string pyval
}.

(** The first loop of [add_pdf], from page number [page_num] on. *)
Fixpoint read_pages (page_num : Z) (pages : list (option string))
    : list (Z * string) * string :=
  match pages with
  | [] => ([], EmptyString)
  | page :: pages' =>
      let '(content_by_page, full_text) := read_pages (page_num + 1) pages' in
      match page with
      | Some page_text =>
          if nonempty (Py.strip page_text)
          then ((page_num, Py.strip page_text) :: content_by_page,
                page_text +:+ Py.nl +:+ full_text)
          else (content_by_page, full_text)
      | None => (content_by_page, full_text)
      end
  end.

(** [self.library[name] = data]: an existing name keeps its place. *)
Fixpoint assign (name : string) (data : PdfData) (l : list (string * PdfData))
    : list (string * PdfData) :=
  match l with
  | [] => [(name, data)]
  | (k, v) :: l' =>
      if bool_decide (k = name) then (k, data) :: l'
      else (k, v) :: assign name data l'
  end.

Definition add_pdf (self : PDFLibrary) (name : string) (pdf_reader : PdfReader)
    : bool * PDFLibrary :=
  let '(content_by_page, text) := read_pages 1 (page_texts pdf_reader) in
  match content_by_page with
  | [] => (false, self)
  | _ =>
      (true,
       {| library := assign name
            {| filename := name; full_text := text;
               pdf_pages := content_by_page;
               pdf_metadata := _extract_metadata pdf_reader |}
            (library self) |})
  end.

(** [self.library.get(name)] *)
Fixpoint lookup_name (name : string) (l : list (string * PdfData))
    : option PdfData :=
  match l with
  | [] => None
  | (k, v) :: l' => if bool_decide (k = name) then Some v else lookup_name name l'
  end.

Definition get_pdf_content (self : PDFLibrary) (name : string) : option PdfData :=
  lookup_name name (library self).

(** [[.!?]+] *)
Definition sentence_end : Re.regex := Re.plus (Re.oneof ".!?").

(** The loop of [_split_into_chunks] over the sentences. *)
Fixpoint chunk_sentences (chunk_size : nat) (sentences : list string)
    (chunks : list string) (current_chunk : string) : list string :=
  match sentences with
  | [] =>
      if nonempty (Py.strip current_chunk)
      then chunks ++ [Py.strip current_chunk] else chunks
  | sentence :: sentences' =>
      let sentence := Py.strip sentence in
      if negb (nonempty sentence)
      then chunk_sentences chunk_size sentences' chunks current_chunk
      else if (chunk_size <? Py.len current_chunk + Py.len sentence)%nat
              && nonempty current_chunk
      then chunk_sentences chunk_size sentences'
             (chunks ++ [Py.strip current_chunk]) sentence
      else chunk_sentences chunk_size sentences' chunks
             (if nonempty current_chunk
              then current_chunk +:+ " " +:+ sentence else sentence)
  end.

Definition _split_into_chunks (text : string) (chunk_size : nat) : list string :=
  chunk_sentences chunk_size (Re.split sentence_end text) [] EmptyString.

(** The chunks of one page that enter the content list. *)
Definition page_content (name : string) (pdf_data : PdfData)
    (page_data : Z * string) : list Content :=
  (λ chunk, {| c_filename := name; c_page := page_data.1; c_text := chunk;
               c_metadata := pdf_metadata pdf_data |})
  <$> filter (λ chunk, (50 < Py.len (Py.strip chunk))%nat)
        (_split_into_chunks page_data.2 500).

Definition get_all_content (self : PDFLibrary) : list Content :=
  concat ((λ entry : string * PdfData,
             concat (page_content entry.1 entry.2 <$> pdf_pages entry.2))
          <$> library self).

(** *** Removal, listing and search *)

(** [if filename in self.library: del self.library[filename]] *)
Definition remove_pdf (self : PDFLibrary) (name : string) : bool * PDFLibrary :=
  match lookup_name name (library self) with
  | Some _ =>
      (true, {| library := filter (λ entry, entry.1 ≠ name) (library self) |})
  | None => (false, self)
  end.

(** [list(self.library.keys())] *)
Definition get_library_files (self : PDFLibrary) : list string :=
  (library self).*1.

(** The slice [text[start:end]] for indices that are not negative. *)
Definition slice (start end_ : nat) (text : string) : string :=
  Py.take (end_ - start) (Py.drop start text).

(** [max(0, match_pos - context_length)] is the subtraction of [nat]. *)
Definition _extract_context (text query : string) (context_length : nat)
    : string :=
  let text_lower := Py.lower text in
  let query_lower := Py.lower query in
  match Py.find query_lower text_lower with
  | None => Py.take (context_length * 2) text
  | Some match_pos =>
      let start := (match_pos - context_length)%nat in
      let end_ :=
        Nat.min (Py.len text) (match_pos + Py.len query + context_length) in
      let context := slice start end_ text in
      let context := if (0 <? start)%nat then "..." +:+ context else context in
      if (end_ <? Py.len text)%nat then context +:+ "..." else context
  end.

(** The result that [search_content] builds for a page. *)
Definition search_result (query name : string) (pdf_data : PdfData)
    (page_data : Z * string) : Content :=
  {| c_filename := name; c_page := page_data.1;
     c_text := _extract_context page_data.2 query 200;
     c_metadata := pdf_metadata pdf_data |}.

Definition page_matches (query : string) (page_data : Z * string) : bool :=
  Py.contains (Py.lower query) (Py.lower page_data.2).

(** The inner loop of [search_content]: [inl] is the [return] inside the
    loop, [inr] the end of the pages. *)
Fixpoint search_pages (query : string) (max_results : Z) (name : string)
    (pdf_data : PdfData) (pages : list (Z * string)) (results : list Content)
    : list Content + list Content :=
  match pages with
  | [] => inr results
  | page_data :: pages' =>
      if page_matches query page_data
      then
        let results := results ++ [search_result query name pdf_data page_data] in
        if max_results <=? Z.of_nat (length results) then inl results
        else search_pages query max_results name pdf_data pages' results
      else search_pages query max_results name pdf_data pages' results
  end.

Fixpoint search_files (query : string) (max_results : Z)
    (files : list (string * PdfData)) (results : list Content) : list Content :=
  match files with
  | [] => results
  | (name, pdf_data) :: files' =>
      match search_pages query max_results name pdf_data (pdf_pages pdf_data)
              results with
      | inl results => results
      | inr results => search_files query max_results files' results
      end
  end.

Definition search_content (self : PDFLibrary) (query : string) (max_results : Z)
    : list Content :=
  search_files query max_results (library self) [].

End Library.

(** *** Notions used to state the library properties *)

(** A stored year: empty, or four digits that read as a number between
    1900 and [bound]. *)
Definition stored_year_ok (bound : Z) (y : string) : Prop :=
  y = EmptyString ∨
  (is_year y = true ∧ ∃ n, PyInt.parse y = Some n ∧ 1900 ≤ n ≤ bound).

(** The author string of the document information, stripped; empty when
    there is no document information. *)
Definition raw_author (pdf_reader : Library.PdfReader) : string :=
  match Library.info pdf_reader with
  | Some document_info => Py.strip (Library.info_get document_info "/Author")
  | None => EmptyString
  end.

(** A string that [strip] leaves as it is. *)
Definition stripped (s : string) : Prop := Py.strip s = s.

(** ** Matching a bibliography entry to a document (bibliography_parser.py) *)

Module Matching.

Import Bibliography.

(** [set(title.lower().split())], each word once. *)
Definition word_set (title : string) : list string :=
  remove_dups (Py.words (Py.lower title)).

Definition _titles_similar (title1 title2 : string) (threshold : float) : bool :=
  let words1 := word_set title1 in
  let words2 := word_set title2 in
  match words1, words2 with
  | [], _ | _, [] => false
  | _, _ =>
      let intersection := filter (λ w, w ∈ words2) words1 in
      let union := words1 ++ filter (λ w, w ∉ words1) words2 in
      PrimFloat.leb threshold (Py.ratio (length intersection) (length union))
  end.

(** [self.entries[title]] *)
Fixpoint entry_of (title : string) (l : list (string * gmap string pyval))
    : option (gmap string pyval) :=
  match l with
  | [] => None
  | (k, v) :: l' => if bool_decide (k = title) then Some v else entry_of title l'
  end.

(** [self.entries.get(title.lower(), None)] *)
Definition get_entry_by_title (self : BibliographyParser) (title : string)
    : option (gmap string pyval) :=
  entry_of (Py.lower title) (entries self).

(** The loop over [self.entries.items()]. *)
Fixpoint first_similar (filename_title : string)
    (l : list (string * gmap string pyval)) : option (gmap string pyval) :=
  match l with
  | [] => None
  | (title, entry) :: l' =>
      if _titles_similar filename_title title 0.6 then Some entry
      else first_similar filename_title l'
  end.

(** The strings that [for author in v] yields; [None] when [v] is not
    iterable. *)
Definition iterate (v : pyval) : option (list string) :=
  match v with
  | VList l => Some l
  | VStr s => Some (Library.chars s)
  | _ => None
  end.

(** The loops over [self.raw_entries] and the authors of each entry: the
    outer [option] is the exception. *)
Fixpoint first_by_author (pdf_author : string) (l : list (gmap string pyval))
    : option (option (gmap string pyval)) :=
  match l with
  | [] => Some None
  | entry :: l' =>
      authors ← iterate (Val.get entry "authors" (VList []));
      if existsb (λ author, Py.contains (Py.lower author) pdf_author
                            || Py.contains pdf_author (Py.lower author)) authors
      then Some (Some entry)
      else first_by_author pdf_author l'
  end.

(** The filename and the metadata are any objects; a method that the
    object lacks raises, and the [except] clause returns [None]. *)
Definition find_matching_entry (self : BibliographyParser) (pdf_filename : pyval)
    (pdf_metadata : gmap string pyval) : option (gmap string pyval) :=
  let attempt : option (option (gmap string pyval)) :=
    filename ← Val.as_str pdf_filename;
    let filename_title :=
      Py.lower (Py.replace "-" " " (Py.replace "_" " "
                  (Py.replace ".pdf" EmptyString filename))) in
    title ← Val.as_str (Val.get pdf_metadata "title" (VStr EmptyString));
    let pdf_title := Py.strip (Py.lower title) in
    match (if nonempty pdf_title then entry_of pdf_title (entries self) else None) with
    | Some entry => Some (Some entry)
    | None =>
        match first_similar filename_title (entries self) with
        | Some entry => Some (Some entry)
        | None =>
            author ← Val.as_str (Val.get pdf_metadata "author" (VStr EmptyString));
            let pdf_author := Py.strip (Py.lower author) in
            if nonempty pdf_author then first_by_author pdf_author (raw_entries self)
            else Some None
        end
    end in
  default None attempt.

End Matching.

(** ** citation_processor.py *)

Module Processor.

(** The client of the inference service, as far as the processor looks at
    it: it is there or it is not. *)
Record AzureOpenAI := mkClient {
  azure_endpoint_ : string; api_key_ : string; api_version_ : string
}.

Record CitationProcessor := mkProcessor {
  azure_endpoint : string;
  azure_api_key : string;
  azure_deployment : string;
  client : option AzureOpenAI;
  model : option string;
  pdf_library : option Library.PDFLibrary;            (* set by process_paper *)
  bibliography_parser : option Bibliography.BibliographyParser
}.

(** The three environment variables, empty when unset. *)
Definition __init__ (endpoint api_key deployment : string) : CitationProcessor :=
  let configured := nonempty endpoint && nonempty api_key && nonempty deployment in
  {| azure_endpoint := endpoint; azure_api_key := api_key;
     azure_deployment := deployment;
     client := if configured
               then Some {| azure_endpoint_ := endpoint; api_key_ := api_key;
                            api_version_ := "2024-02-01" |}
               else None;
     model := if configured then Some deployment else None;
     pdf_library := None; bibliography_parser := None |}.

Record Stats := mkStats {
  claims_identified : Z; citations_added : Z; sources_used : Z
}.

(** What [_find_supporting_content] returns for a claim. *)
Record Support := mkSupport {
  s_source : string; s_quote : string; s_page : string; s_citation : string;
  s_authority_score : float
}.

Record Found := mkFound {
  f_claim : string; f_claim_type : string; f_claim_reasoning : string;
  f_support : Support
}.

(** The dict that [process_paper] returns; [error] is the key that only
    the unconfigured path sets. *)
Record PaperResult := mkResult {
  original_text : string;
  cited_text : string;
  citations : list Found;
  references : string;
  stats : Stats;
  error : option string
}.

(** A claim as the inference service returns it: a dict with the keys
    text, type and reasoning, or any other object, read as its text. *)
Inductive ClaimObj :=
| ClaimDict (text type reasoning : option string)
| ClaimText (text : string).

Definition claim_text (c : ClaimObj) : string :=
  match c with
  | ClaimDict text _ _ => default EmptyString text
  | ClaimText text => text
  end.

Definition claim_type (c : ClaimObj) : string :=
  match c with
  | ClaimDict _ type _ => default "FACTUAL" type
  | ClaimText _ => "FACTUAL"
  end.

Definition claim_reasoning (c : ClaimObj) : string :=
  match c with
  | ClaimDict _ _ reasoning => default EmptyString reasoning
  | ClaimText _ => EmptyString
  end.

(** What [_identify_claims] returns: the value that the reply of the
    inference service holds under the key claims, passed on unchecked.  A
    list yields its elements; a string yields its characters and a dict
    its keys, each a claim read as its text, so they are lists of
    [ClaimText].  A number, a boolean or null yields nothing: [for] raises
    on it. *)
Inductive Claims :=
| ClaimList (claims : list ClaimObj)
| ClaimScalar (truth : bool).

(** [not claims] is [negb] of this. *)
Definition claims_truthy (claims : Claims) : bool :=
  match claims with
  | ClaimList l => match l with [] => false | _ :: _ => true end
  | ClaimScalar truth => truth
  end.

(** The elements that [for claim_obj in claims] visits, which [len(claims)]
    counts; [None] when the value cannot be iterated. *)
Definition claims_iterated (claims : Claims) : option (list ClaimObj) :=
  match claims with
  | ClaimList l => Some l
  | ClaimScalar _ => None
  end.

(** The steps of the configured path that call the inference service, the
    term weighting of scikit-learn or the tokenizer of nltk.  Each catches
    its own exceptions.  [_insert_citation] may number a source in the
    formatter. *)
Record Steps := mkSteps {
  _identify_claims : string → Claims;
  _find_supporting_content :
    CitationProcessor → string → option CitationFormatter → string → option Support;
  _insert_citation :
    CitationProcessor → string → string → Support → option CitationFormatter →
    string * option CitationFormatter;
  _generate_references_list :
    CitationProcessor → list Found → option CitationFormatter → string
}.

Definition no_stats : Stats :=
  {| claims_identified := 0; citations_added := 0; sources_used := 0 |}.

(** The loop over the claims. *)
Fixpoint cite_claims (steps : Steps) (self : CitationProcessor)
    (claims : list ClaimObj) (citations_found : list Found) (text : string)
    (formatter : option CitationFormatter)
    : list Found * string * option CitationFormatter :=
  match claims with
  | [] => (citations_found, text, formatter)
  | claim_obj :: claims' =>
      match _find_supporting_content steps self (claim_text claim_obj) formatter
              (claim_type claim_obj) with
      | Some supporting_content =>
          let found :=
            {| f_claim := claim_text claim_obj;
               f_claim_type := claim_type claim_obj;
               f_claim_reasoning := claim_reasoning claim_obj;
               f_support := supporting_content |} in
          let '(text', formatter') :=
            _insert_citation steps self text (claim_text claim_obj)
              supporting_content formatter in
          cite_claims steps self claims' (citations_found ++ [found]) text'
            formatter'
      | None => cite_claims steps self claims' citations_found text formatter
      end
  end.

(** The result, the processor with the references it stored, and the
    formatter.  The result is [None] when the [except] clause is reached:
    the claims are a true value that the loop cannot iterate.  The
    references are stored and the formatter is reset before that. *)
Definition process_paper (steps : Steps) (self : CitationProcessor)
    (paper_content : string) (library : Library.PDFLibrary)
    (parser : option Bibliography.BibliographyParser)
    (citation_formatter : option CitationFormatter)
    : option PaperResult * CitationProcessor * option CitationFormatter :=
  match client self with
  | None =>
      (Some {| original_text := paper_content; cited_text := paper_content;
               citations := []; references := EmptyString; stats := no_stats;
               error := Some "OpenAI client not configured" |},
       self, citation_formatter)
  | Some _ =>
      let self :=
        {| azure_endpoint := azure_endpoint self;
           azure_api_key := azure_api_key self;
           azure_deployment := azure_deployment self;
           client := client self; model := model self;
           pdf_library := Some library; bibliography_parser := parser |} in
      let formatter := reset_state <$> citation_formatter in
      let claims := _identify_claims steps paper_content in
      if negb (claims_truthy claims) then
        (Some {| original_text := paper_content; cited_text := paper_content;
                 citations := []; references := EmptyString;
                 stats := no_stats; error := None |},
         self, formatter)
      else
        match claims_iterated claims with
        | None => (None, self, formatter)
        | Some claims =>
            let '(citations_found, text, formatter) :=
              cite_claims steps self claims [] paper_content formatter in
            let refs :=
              _generate_references_list steps self citations_found formatter in
            let unique_sources :=
              length (remove_dups ((λ f, s_source (f_support f)) <$> citations_found)) in
            (Some {| original_text := paper_content; cited_text := text;
                     citations := citations_found; references := refs;
                     stats := {| claims_identified := Z.of_nat (length claims);
                                 citations_added := Z.of_nat (length citations_found);
                                 sources_used := Z.of_nat unique_sources |};
                     error := None |},
             self, formatter)
        end
  end.

(** *** Authority of a source *)

(** [bib_entry.get(key, '')] for each key of the converted dict. *)
Definition converted_keys : list (string * string) :=
  [("title", "title"); ("creation_date", "year"); ("subject", "journal");
   ("journal", "journal"); ("volume", "volume"); ("issue", "issue");
   ("pages", "pages"); ("publisher", "publisher"); ("doi", "doi");
   ("url", "url"); ("isbn", "isbn"); ("issn", "issn"); ("editor", "editor");
   ("edition", "edition"); ("place", "place"); ("conference", "conference");
   ("book_title", "book_title"); ("series", "series")].

(** The [except] clause returns the empty dict. *)
Definition _convert_bibliography_to_metadata (bib_entry : gmap string pyval)
    : gmap string pyval :=
  let attempt : option (gmap string pyval) :=
    authors_str ←
      (if Val.truthy (Val.get bib_entry "authors" VNone)
       then Library.join_value (Val.get bib_entry "authors" VNone)
       else Some EmptyString);
    Some (foldr (λ '(key, from), <[key := Val.get bib_entry from (VStr EmptyString)]>)
            (<["author" := VStr authors_str]> ∅) converted_keys) in
  default ∅ attempt.

(** [metadata.update(other)] *)
Definition update (metadata other : gmap string pyval) : gmap string pyval :=
  other ∪ metadata.

(** [self.pdf_library.get_pdf_content(filename)]: a list is no dict key and
    raises, any other object that is no string is not found. *)
Definition library_metadata (self : CitationProcessor) (filename : pyval)
    : option (gmap string pyval) :=
  match pdf_library self with
  | None => Some ∅
  | Some library =>
      match filename with
      | VList _ => None
      | VStr name =>
          match Library.get_pdf_content library name with
          | Some pdf_content => Some (Library.pdf_metadata pdf_content)
          | None => Some ∅
          end
      | _ => Some ∅
      end
  end.

(** [int(v)] inside [try ... except (ValueError, TypeError): pass]. *)
Definition int_of (v : pyval) : option Z :=
  match v with
  | VStr s => PyInt.parse s
  | VInt z => Some z
  | VBool b => Some (if b then 1 else 0)
  | _ => None
  end.

(** [score += x] under a condition. *)
Definition add_if (condition : bool) (x : float) (score : float) : float :=
  if condition then (score + x)%float else score.

(** [any(term in filename.lower() for term in terms)]; a filename that is
    no string raises. *)
Definition filename_has (filename : pyval) (terms : list string) : option bool :=
  name ← Val.as_str filename; Some (Py.contains_any terms (Py.lower name)).

(** The year of the metadata when it is true and reads as a number. *)
Definition year_of (metadata : gmap string pyval) : option Z :=
  let year := Val.get metadata "year" VNone in
  if Val.truthy year then int_of year else None.

Definition year_test (metadata : gmap string pyval) (test : Z → bool) : bool :=
  match year_of metadata with Some year => test year | None => false end.

(** The score after the adjustments of the claim type; [None] is a raised
    exception. *)
Definition type_score (claim_type : string) (filename : pyval)
    (metadata : gmap string pyval) (score : float) : option float :=
  let has k := Val.truthy (Val.get metadata k VNone) in
  if bool_decide (claim_type = "FACTUAL") then
    let score := add_if (has "journal") 0.2 score in
    let score := add_if (has "doi") 0.1 score in
    if has "publisher"
    then publisher ← Val.as_str (Val.get metadata "publisher" (VStr EmptyString));
         Some (add_if (Py.contains "university" (Py.lower publisher)) 0.1 score)
    else Some score
  else if bool_decide (claim_type = "STATISTICAL") then
    let score := add_if (has "journal") 0.3 score in
    in_name ← filename_has filename ["data"; "study"; "survey"; "analysis"];
    let score := add_if in_name 0.2 score in
    Some (add_if (year_test metadata (λ year, 2015 <=? year)) 0.1 score)
  else if bool_decide (claim_type = "THEORETICAL") then
    let score := add_if (has "journal") 0.2 score in
    let score :=
      match year_of metadata with
      | Some year =>
          if year <=? 2000 then (score + 0.1)%float
          else if 2010 <=? year then (score + 0.05)%float
          else score
      | None => score
      end in
    in_name ← filename_has filename ["theory"; "framework"; "model"; "concept"];
    Some (add_if in_name 0.15 score)
  else if bool_decide (claim_type = "METHODOLOGICAL") then
    let score := add_if (has "journal") 0.3 score in
    in_name ← filename_has filename ["method"; "procedure"; "protocol"; "technique"];
    let score := add_if in_name 0.2 score in
    Some (add_if (has "doi") 0.1 score)
  else if bool_decide (claim_type = "OPINION_INTERPRETATION") then
    let score := add_if (year_test metadata (λ year, 2018 <=? year)) 0.15 score in
    let score := add_if (has "journal") 0.1 score in
    in_name ← filename_has filename ["analysis"; "perspective"; "discussion"; "review"];
    Some (add_if in_name 0.1 score)
  else Some score.

(** [min(score, 1.0)] *)
Definition cap (score : float) : float :=
  if PrimFloat.ltb 1.0 score then 1.0%float else score.

(** The value returned; the update of the metadata dict, which is the dict
    of the library itself, is not part of it. *)
Definition _calculate_source_authority (self : CitationProcessor)
    (source : gmap string pyval) (claim_type : string)
    (parser : option Bibliography.BibliographyParser) : float :=
  let attempt : option float :=
    let score := 0.5%float in
    let filename := Val.get source "filename" (VStr EmptyString) in
    metadata ← library_metadata self filename;
    let metadata :=
      match parser with
      | Some bibliography =>
          match Matching.find_matching_entry bibliography filename metadata with
          | Some bib_entry =>
              if bool_decide (bib_entry = ∅) then metadata
              else update metadata (_convert_bibliography_to_metadata bib_entry)
          | None => metadata
          end
      | None => metadata
      end in
    score ← type_score claim_type filename metadata score;
    let score := add_if (Val.truthy (Val.get metadata "author" VNone)) 0.05 score in
    let score := add_if (Val.truthy (Val.get metadata "title" VNone)) 0.05 score in
    Some (cap score) in
  default 0.5%float attempt.

(** [thresholds.get(claim_type, 0.5)] *)
Definition threshold_of (claim_type : string) : float :=
  if bool_decide (claim_type = "FACTUAL") then 0.6
  else if bool_decide (claim_type = "STATISTICAL") then 0.65
  else if bool_decide (claim_type = "THEORETICAL") then 0.55
  else if bool_decide (claim_type = "METHODOLOGICAL") then 0.7
  else if bool_decide (claim_type = "OPINION_INTERPRETATION") then 0.4
  else 0.5.

Definition _is_source_appropriate_for_claim_type (source : gmap string pyval)
    (claim_type : string) (authority_score : float) : bool :=
  PrimFloat.leb (threshold_of claim_type) authority_score.

(** *** Evaluation of a source against the claim type *)

(** [any(term in filename for term in terms)] decides between the three
    answers of a claim type. *)
Definition graded (filename : string) (strong_terms : list string)
    (strong : string) (good_terms : list string) (good otherwise : string)
    : string :=
  if Py.contains_any strong_terms filename then strong
  else if Py.contains_any good_terms filename then good
  else otherwise.

(** A filename that is no string raises, and the [except] clause answers. *)
Definition _evaluate_claim_type_match (source : gmap string pyval)
    (claim_type : string) : string :=
  match Val.as_str (Val.get source "filename" (VStr EmptyString)) with
  | None => "Match evaluation unavailable"
  | Some name =>
      let filename := Py.lower name in
      if bool_decide (claim_type = "FACTUAL") then
        if Py.contains_any ["report"; "study"; "research"; "data"] filename
        then "Strong match - authoritative source"
        else "Moderate match - general source"
      else if bool_decide (claim_type = "STATISTICAL") then
        graded filename ["data"; "statistics"; "survey"; "analysis"]
          "Strong match - data source"
          ["study"; "research"] "Good match - research source"
          "Weak match - limited data evidence"
      else if bool_decide (claim_type = "THEORETICAL") then
        graded filename ["theory"; "framework"; "model"]
          "Strong match - theoretical source"
          ["concept"; "principle"] "Good match - conceptual source"
          "Moderate match - general academic source"
      else if bool_decide (claim_type = "METHODOLOGICAL") then
        graded filename ["method"; "protocol"; "procedure"]
          "Strong match - methodological source"
          ["technique"; "approach"] "Good match - procedural source"
          "Weak match - limited methodological detail"
      else if bool_decide (claim_type = "OPINION_INTERPRETATION") then
        graded filename ["analysis"; "perspective"; "review"]
          "Strong match - analytical source"
          ["discussion"; "commentary"] "Good match - interpretive source"
          "Moderate match - general source"
      else "General match"
  end.

(** *** Citations of a source *)

Definition _generate_fallback_citation (filename : string) : string :=
  let title :=
    Py.replace "-" " " (Py.replace "_" " "
      (Py.replace ".pdf" EmptyString filename)) in
  title +:+ " (n.d.).".

(** The attributes pdf_library and bibliography_parser are there once
    [process_paper] has set them.  A formatter that is [None] has no method
    and raises; the [except] clause returns the fallback citation. *)
Definition _generate_citation (self : CitationProcessor) (filename : string)
    (citation_formatter : option CitationFormatter) : string :=
  let pdf_content :=
    library ← pdf_library self; Library.get_pdf_content library filename in
  let bibliography_entry :=
    match bibliography_parser self, pdf_content with
    | Some parser, Some content =>
        Matching.find_matching_entry parser (VStr filename)
          (Library.pdf_metadata content)
    | _, _ => None
    end in
  let formatted (metadata : gmap string pyval) : option string :=
    formatter ← citation_formatter;
    Some (format_citation formatter
            {| si_filename := Some filename; si_metadata := metadata |}) in
  let attempt : option string :=
    match bibliography_entry with
    | Some entry =>
        if bool_decide (entry = ∅)
        then match pdf_content with
             | Some content => formatted (Library.pdf_metadata content)
             | None => Some (_generate_fallback_citation filename)
             end
        else formatted (_convert_bibliography_to_metadata entry)
    | None =>
        match pdf_content with
        | Some content => formatted (Library.pdf_metadata content)
        | None => Some (_generate_fallback_citation filename)
        end
    end in
  default (_generate_fallback_citation filename) attempt.

(** The first loop of the fallback list: the citation text of the first
    citation of each source. *)
Fixpoint fallback_references (citations : list Found)
    (references seen_sources : list string) : list string :=
  match citations with
  | [] => references
  | citation :: citations' =>
      let source := s_source (f_support citation) in
      if bool_decide (source ∈ seen_sources)
      then fallback_references citations' references seen_sources
      else fallback_references citations'
             (references ++ [s_citation (f_support citation)])
             (source :: seen_sources)
  end.

Definition _generate_fallback_references_list (citations : list Found) : string :=
  let references := sort_strings (fallback_references citations [] []) in
  "References" +:+ Py.nl +:+ Py.nl +:+ Py.join (Py.nl +:+ Py.nl) references.

End Processor.

(** *** Notions used to state the properties of in-text citations *)

(** A page given as a number: at least one digit and nothing else. *)
Definition is_number (p : string) : bool :=
  nonempty p && all_chars Py.is_digit p.

(** The in-text shapes that the validator of a style accepts: under APA and
    IEEE the citation without page, under Chicago the citation without page
    that has an author and a year, under MLA the citation whose page is a
    number. *)
Definition in_text_accepted (s : CitationStyle) (author : string)
    (year page : option string) : bool :=
  match s with
  | APA | IEEE => negb (given page)
  | CHICAGO => negb (given page) && nonempty author && given year
  | MLA => match page with Some p => is_number p | None => false end
  end.

(** The numbers of the formatter are not negative. *)
Definition numbers_from_zero (self : CitationFormatter) : Prop :=
  0 ≤ _citation_counter self ∧
  ∀ f n, _citation_map self !! f = Some n → 0 ≤ n.

(** A metadata dict whose year is a number, not a string. *)
Definition year_as_number : gmap string pyval :=
  <["year" := VInt 2020]> (<["author" := VStr "Jane Doe"]> ∅).

(** Ascending order of [str]: each string is at most the next one. *)
Fixpoint ascending (l : list string) : Prop :=
  match l with
  | x :: ((y :: _) as l') => String.leb x y = true ∧ ascending l'
  | _ => True
  end.

(** The citation adds a reference to the list when it is met with the
    sources [seen]. *)
Definition adds (self : CitationFormatter) (seen : list string) (c : Citation)
    : bool :=
  nonempty (source c) && negb (bool_decide (source c ∈ seen))
  && given (_format_full_reference self c).

(** The year reads as a number between 1900 and the current year. *)
Definition year_between (self : CitationFormatter) (y : string) : Prop :=
  ∃ n, PyInt.parse y = Some n ∧ 1900 ≤ n ≤ current_year self.

(** A character of a title made from a filename: no underscore, no
    hyphen, and no white space but the plain space. *)
Definition title_char (c : ascii) : bool :=
  negb (Py.char_eqb c "_") && negb (Py.char_eqb c "-")
  && (negb (Py.is_space c) || Py.char_eqb c " ").

(** *** Notions used to state the properties of the library functions *)

(** The results for the pages of one document that hold the query,
    whatever the case of its letters. *)
Definition matches_of (query name : string) (data : Library.PdfData)
    (pages : list (Z * string)) : list Library.Content :=
  Library.search_result query name data
  <$> filter (λ page_data, Library.page_matches query page_data = true) pages.

(** The results for every page that holds the query, in the order of the
    library and of the pages. *)
Definition matching_pages (self : Library.PDFLibrary) (query : string)
    : list Library.Content :=
  concat ((λ entry : string * Library.PdfData,
             matches_of query entry.1 entry.2 (Library.pdf_pages entry.2))
          <$> Library.library self).

(** A page text without readable character. *)
Definition blank_page (page : option string) : bool :=
  match page with
  | Some page_text => negb (nonempty (Py.strip page_text))
  | None => true
  end.

(** A document whose first two pages give no text and whose third page
    does. *)
Definition blank_first_reader : Library.PdfReader :=
  {| Library.info := None;
     Library.page_texts := [Some "  "; None; Some " Ice melts. "] |}.

(** Metadata of the document information that gives the pages, and
    metadata of the text that gives a title and other pages. *)
Definition paged_metadata : gmap string pyval :=
  <["pages" := VStr "1-2"]> Library.blank_metadata.

Definition paged_text_metadata : gmap string pyval :=
  <["title" := VStr "Sea Ice"]>
    (<["pages" := VStr "10-20"]> Library.blank_text_metadata).

(** A chunk as [_split_into_chunks] makes it for a text: not empty,
    stripped, and either one sentence of the text or at most one character
    longer than the chunk size. *)
Definition chunk_made (text : string) (chunk_size : nat) (chunk : string) : Prop :=
  nonempty chunk = true ∧ stripped chunk ∧
  ((∃ sentence, sentence ∈ Re.split Library.sentence_end text
                ∧ chunk = Py.strip sentence)
   ∨ (Py.len chunk ≤ chunk_size + 1)%nat).

(** A DOI and an abstract as the text pass keeps them. *)
Definition doi_kept (doi : string) : Prop :=
  doi = EmptyString ∨ (7 < Py.len doi)%nat.

Definition abstract_kept (abstract : string) : Prop :=
  abstract = EmptyString ∨ (50 < Py.len abstract < 2000)%nat.

(** The chunk under construction: empty, or begun by a sentence and then
    one sentence of the text or short. *)
Definition current_made (text : string) (n : nat) (current : string) : Prop :=
  current = EmptyString ∨
  (starts_solid current ∧
   ((∃ sentence, sentence ∈ Re.split Library.sentence_end text
                 ∧ current = Py.strip sentence)
    ∨ (Py.len current ≤ n + 1)%nat)).

(** *** Notions used to state the properties of the bibliography *)

Definition no_comma (c : ascii) : bool := negb (Py.char_eqb c ",").

(** An author as the entry parsers keep it: not empty, stripped of
    surrounding white space, without comma. *)
Definition author_kept (a : string) : Prop :=
  nonempty a = true ∧ stripped a ∧ all_chars no_comma a = true.

(** The shape of a parsed entry: the text it was read from, a title, a
    year that is empty or has four digits, one of the three types, and a
    list of authors. *)
Definition entry_shape (entry_text : string) (entry : gmap string pyval) : Prop :=
  entry !! "raw_text" = Some (VStr entry_text) ∧
  (∃ title, entry !! "title" = Some (VStr title) ∧ stripped title) ∧
  (∃ y, entry !! "year" = Some (VStr y) ∧ (y = EmptyString ∨ is_year y = true)) ∧
  (∃ type, entry !! "type" = Some (VStr type) ∧
           type ∈ ["journal"; "book"; "unknown"]) ∧
  (∃ authors, entry !! "authors" = Some (VList authors) ∧
              Forall author_kept authors).

(** The key under which an entry is indexed. *)
Definition index_key (entry : gmap string pyval) : string :=
  Py.lower (Val.str (Bibliography.title_of entry)).

(** The paragraphs of a bibliography file. *)
Definition paragraphs (file_content : string) : list string :=
  Py.split (Py.nl +:+ Py.nl) (Py.strip file_content).

(** The entries with the key [k], in the order in which they were parsed. *)
Definition entries_with_key (k : string) (parsed : list (gmap string pyval))
    : list (gmap string pyval) :=
  filter (λ entry, index_key entry = k) parsed.

(** The index holds, under each key that is not empty, the last entry
    with that key, and nothing under the empty key. *)
Definition indexed (index : list (string * gmap string pyval))
    (parsed : list (gmap string pyval)) : Prop :=
  ∀ k, Matching.entry_of k index
       = if nonempty k then last (entries_with_key k parsed) else None.

(** The entries that the paragraphs of a file give. *)
Definition parsed_paragraphs (raw : list string) : list (gmap string pyval) :=
  omap (λ raw_entry, Bibliography._parse_single_entry (Py.strip raw_entry)) raw.

(** *** Notions used to state the properties of the processor *)

(** The answer names a strong or a good match. *)
Definition strong_or_good (answer : string) : bool :=
  Py.startswith "Strong match" answer || Py.startswith "Good match" answer.

(** The source of a citation found by the processor. *)
Definition source_of (citation : Processor.Found) : string :=
  Processor.s_source (Processor.f_support citation).

(** The claims identified in a paper: the elements of what
    [_identify_claims] returns, none when it cannot be iterated. *)
Definition identified (steps : Processor.Steps) (paper_content : string)
    : list Processor.ClaimObj :=
  default [] (Processor.claims_iterated (Processor._identify_claims steps paper_content)).

(** The citation text of a citation found by the processor. *)
Definition citation_text (citation : Processor.Found) : string :=
  Processor.s_citation (Processor.f_support citation).

(** The citation is in the list, and no citation before it has its
    source. *)
Definition first_of_source (citations : list Processor.Found)
    (citation : Processor.Found) : Prop :=
  ∃ i : nat,
    citations !! i = Some citation ∧
    ∀ (j : nat) earlier, (j < i)%nat → citations !! j = Some earlier →
      source_of earlier ≠ source_of citation.
(** ** Inputs of the examples *)

(** The bibliography entry of the specification. *)
Definition jones_entry_text : string :=
  "Jones, A. (2019). Deep Learning Basics. Journal of AI, 5(2), 100-110.".

(** The value that the parsed entry holds under a key; [None] when the
    text yields no entry. *)
Definition parsed_field (entry_text key : string) : option pyval :=
  Bibliography._parse_single_entry entry_text ≫= (λ entry, entry !! key).

(** A sentence of exactly 50 characters, and a document whose one page is
    that sentence with its full stop. *)
Definition fifty_characters : string :=
  "Climate change affects crop yields in many regions".

Definition one_sentence_reader : Library.PdfReader :=
  {| Library.info := None;
     Library.page_texts := [Some (fifty_characters +:+ ".")] |}.

Definition one_sentence_library : Library.PDFLibrary :=
  (Library.add_pdf {| Library.library := [] |} "paper.pdf" one_sentence_reader).2.

(** A document whose information names two authors and carries a creation
    date in 2029, with one page of text. *)
Definition future_dated_reader : Library.PdfReader :=
  {| Library.info :=
       Some (<["/CreationDate" := "D:20290101120000"]>
              (<["/Author" := "John Smith; Jane Doe"]> ∅));
     Library.page_texts := [Some "Hello world"] |}.

(** Steps that find no claim and no support; the unconfigured path calls
    none of them. *)
Definition idle_steps : Processor.Steps :=
  {| Processor._identify_claims := λ _, Processor.ClaimList [];
     Processor._find_supporting_content := λ _ _ _ _, None;
     Processor._insert_citation := λ _ text _ _ formatter, (text, formatter);
     Processor._generate_references_list := λ _ _ _, EmptyString |}.

(** Steps whose inference service answers with the number 1 under the
    key claims. *)
Definition numeric_reply_steps : Processor.Steps :=
  {| Processor._identify_claims := λ _, Processor.ClaimScalar true;
     Processor._find_supporting_content := λ _ _ _ _, None;
     Processor._insert_citation := λ _ text _ _ formatter, (text, formatter);
     Processor._generate_references_list := λ _ _ _, EmptyString |}.
(** * Properties *)

(** *** Numbering lemmas *)

Section Numbering.

Implicit Types (self : CitationFormatter) (f g : string) (order : list string).

Lemma index_of_None f order : index_of f order = None ↔ f ∉ order.
Proof.
  induction order as [|x order IH]; simpl.
  - split; [intros _; apply not_elem_of_nil | done].
  - destruct (decide (f = x)) as [->|Hne].
    + split; [done | intros H; exfalso; apply H; left].
    + rewrite not_elem_of_cons. destruct (index_of f order); simpl.
      * split; [done | intros [_ H]]. destruct IH as [_ IH]. discriminate (IH H).
      * destruct IH as [IH _]. split; [auto | done].
Qed.

Lemma index_of_app_l f order more k :
  index_of f order = Some k → index_of f (order ++ more) = Some k.
Proof.
  revert k. induction order as [|x order IH]; intros k; simpl; [done|].
  destruct (decide (f = x)); [done|].
  destruct (index_of f order) as [j|]; simpl; [|done].
  intros [= <-]. by rewrite (IH j).
Qed.

Lemma index_of_app_new f order :
  f ∉ order → index_of f (order ++ [f]) = Some (length order).
Proof.
  induction order as [|x order IH]; simpl; intros Hf.
  - by rewrite decide_True.
  - apply not_elem_of_cons in Hf as [Hne Hf].
    rewrite decide_False by done. by rewrite IH.
Qed.

Lemma index_of_lt f order k : index_of f order = Some k → (k < length order)%nat.
Proof.
  revert k. induction order as [|x order IH]; intros k; simpl; [done|].
  destruct (decide (f = x)); [intros [= <-]; lia|].
  destruct (index_of f order) as [j|]; simpl; [|done].
  intros [= <-]. specialize (IH j eq_refl). lia.
Qed.

Lemma index_of_inj f g order k :
  index_of f order = Some k → index_of g order = Some k → f = g.
Proof.
  revert k. induction order as [|x order IH]; intros k; simpl; [done|].
  destruct (decide (f = x)) as [->|Hf], (decide (g = x)) as [->|Hg]; try done.
  - intros [= <-]. destruct (index_of g order); done.
  - destruct (index_of f order); simpl; [intros [= <-]|]; done.
  - destruct (index_of f order) as [i|], (index_of g order) as [j|]; simpl; try done.
    intros [= <-] [= ->]. by apply (IH i).
Qed.

Lemma first_seen_go_extends seen fs : ∃ more, first_seen_go seen fs = seen ++ more.
Proof.
  revert seen. induction fs as [|f fs IH]; intros seen; simpl.
  - exists []. by rewrite app_nil_r.
  - destruct (decide (f ∈ seen)); [apply IH|].
    destruct (IH (seen ++ [f])) as [more ->]. exists (f :: more).
    by rewrite <- app_assoc.
Qed.

Lemma numbered_reset self : numbered [] (reset_state self).
Proof. split; [done | intros f; apply lookup_empty]. Qed.

Lemma numbered_step order self f page :
  numbered order self →
  let order' := if decide (f ∈ order) then order else order ++ [f] in
  ∃ k, index_of f order' = Some k ∧
       (_format_ieee_in_text self f page).1 = ieee_label (Z.of_nat k + 1) page ∧
       numbered order' (_format_ieee_in_text self f page).2.
Proof.
  intros [Hc Hm]. unfold _format_ieee_in_text, ieee_label.
  destruct (decide (f ∈ order)) as [Hin|Hnew]; simpl.
  - destruct (index_of f order) as [k|] eqn:Hk;
      [|by apply index_of_None in Hk].
    exists k. rewrite Hm, Hk. simpl. rewrite Hm, Hk. simpl.
    split; [done|]. split; [by destruct (given page)|].
    destruct (given page); by split.
  - pose proof Hnew as Hnone. apply index_of_None in Hnone.
    exists (length order). rewrite Hm, Hnone. simpl.
    rewrite lookup_insert_eq. simpl.
    split; [by apply index_of_app_new|]. rewrite Hc.
    split; [by destruct (given page)|].
    assert (numbered (order ++ [f])
      {| style := style self; current_year := current_year self;
         _citation_counter := Z.of_nat (length order) + 1;
         _citation_map := <[f:=Z.of_nat (length order) + 1]> (_citation_map self) |})
      as Hn.
    { split; simpl.
      - rewrite length_app. simpl. lia.
      - intros g. destruct (decide (f = g)) as [<-|Hne].
        + rewrite lookup_insert_eq. by rewrite index_of_app_new.
        + rewrite lookup_insert_ne by done. rewrite Hm.
          destruct (index_of g order) as [j|] eqn:Hj.
          * by rewrite (index_of_app_l _ _ _ _ Hj).
          * assert (index_of g (order ++ [f]) = None) as ->; [|done].
            apply index_of_None. apply index_of_None in Hj.
            rewrite elem_of_app, list_elem_of_singleton. intros [?|?]; congruence. }
    by destruct (given page).
Qed.

Lemma numbered_session calls : ∀ order self,
  numbered order self →
  numbered (first_seen_go order calls.*1) (cite_all self calls).2 ∧
  ∀ i f page, calls !! i = Some (f, page) →
    ∃ k, index_of f (first_seen_go order calls.*1) = Some k ∧
         (cite_all self calls).1 !! i = Some (ieee_label (Z.of_nat k + 1) page).
Proof.
  induction calls as [|[f0 page0] calls IH]; intros order self Hn.
  - split; [done | intros i f page H; by rewrite lookup_nil in H].
  - destruct (numbered_step order self f0 page0 Hn) as (k0 & Hk0 & Hlab & Hn').
    cbn [cite_all fmap list_fmap fst first_seen_go].
    destruct (_format_ieee_in_text self f0 page0) as [label self1] eqn:Hstep.
    simpl in Hlab, Hn'.
    set (order' := if decide (f0 ∈ order) then order else order ++ [f0]) in *.
    assert (first_seen_go order' calls.*1 =
            (if decide (f0 ∈ order) then first_seen_go order calls.*1
             else first_seen_go (order ++ [f0]) calls.*1)) as Heq
      by (unfold order'; by destruct (decide (f0 ∈ order))).
    rewrite <- Heq. destruct (IH order' self1 Hn') as [Hfin Hlabels].
    destruct (cite_all self1 calls) as [labels self2] eqn:Hrest. simpl in *.
    split; [done|]. intros [|i] f page Hi; simpl in *.
    + injection Hi as -> ->. exists k0. split; [|by rewrite Hlab].
      destruct (first_seen_go_extends order' calls.*1) as [more ->].
      by apply index_of_app_l.
    + by apply Hlabels.
Qed.

End Numbering.

(** C1. IEEE in-text numbering.  In a session that starts with
    [reset_state], whatever the formatter held before, the call for a
    filename returns the label whose number is the position, counted from 1,
    of that filename in the order of first citation; the numbering map holds
    that number for the filename at the end of the session and for no other
    filename.  So each filename has one number, numbers grow by one with
    each new filename, and a repeated citation returns the number given at
    first citation. *)
Theorem ieee_numbering_follows_first_citation :
  ∀ (self : CitationFormatter) (calls : list (string * option string))
    (i : nat) (f : string) (page : option string),
    calls !! i = Some (f, page) →
    let session := cite_all (reset_state self) calls in
    ∃ k : nat,
      index_of f (first_seen calls.*1) = Some k ∧
      session.1 !! i = Some (ieee_label (Z.of_nat k + 1) page) ∧
      _citation_map session.2 !! f = Some (Z.of_nat k + 1) ∧
      (∀ g, _citation_map session.2 !! g = Some (Z.of_nat k + 1) → g = f).
Proof.
  intros self calls i f page Hi session.
  destruct (numbered_session calls [] (reset_state self) (numbered_reset self))
    as [[_ Hmap] Hlabels].
  destruct (Hlabels i f page Hi) as (k & Hk & Hlab).
  exists k. fold (first_seen calls.*1) in *. fold session in Hmap, Hlab.
  split; [done|]. split; [done|]. split.
  - by rewrite Hmap, Hk.
  - intros g. rewrite Hmap.
    destruct (index_of g (first_seen calls.*1)) as [j|] eqn:Hj; [|done].
    simpl. intros [= Hjk]. assert (j = k) as -> by lia.
    by apply (index_of_inj g f (first_seen calls.*1) k).
Qed.

(** The session A, B, A, C of the specification, then a reset and B, A. *)
Definition spec_session : list (string * option string) :=
  [("A", None); ("B", None); ("A", None); ("C", None)].

Lemma ieee_numbering_witness :
  let session := cite_all (reset_state (__init__ IEEE 2026)) spec_session in
  ∃ k : nat,
    index_of "C" (first_seen spec_session.*1) = Some k ∧
    session.1 !! 3%nat = Some (ieee_label (Z.of_nat k + 1) None) ∧
    _citation_map session.2 !! "C" = Some (Z.of_nat k + 1) ∧
    (∀ g, _citation_map session.2 !! g = Some (Z.of_nat k + 1) → g = "C").
Proof.
  apply (ieee_numbering_follows_first_citation
           (__init__ IEEE 2026) spec_session 3 "C" None).
  reflexivity.
Defined.

Example ieee_numbering_spec_example (self : CitationFormatter) :
  let first := cite_all self spec_session in
  let second := cite_all (reset_state first.2) [("B", None); ("A", None)] in
  _citation_map self = ∅ → _citation_counter self = 0 →
  first.1 = ["[1]"; "[2]"; "[1]"; "[3]"] ∧ second.1 = ["[1]"; "[2]"].
Proof.
  destruct self as [st yr counter map]. simpl. intros -> ->.
  by vm_compute.
Qed.

(** ** Matching lemmas *)

Section Reaches.

Implicit Types (r : Re.regex) (st : Re.mstate) (s t u : string) (p : ascii → bool).

Lemma app_String c s t : String c s +:+ t = String c (s +:+ t).
Proof. reflexivity. Qed.

Lemma app_empty_l t : EmptyString +:+ t = t.
Proof. reflexivity. Qed.

Lemma app_empty_r s : s +:+ EmptyString = s.
Proof. induction s as [|c s IH]; [done|]. by rewrite app_String, IH. Qed.

Lemma app_assoc_str s t u : (s +:+ t) +:+ u = s +:+ (t +:+ u).
Proof. induction s as [|c s IH]; [done|]. by rewrite !app_String, IH. Qed.

Lemma len_app s t : Py.len (s +:+ t) = (Py.len s + Py.len t)%nat.
Proof. induction s as [|c s IH]; [done|]. rewrite app_String. simpl. by rewrite <- IH. Qed.

Lemma reaches_chr p st c t :
  Re.rest st = String c t → p c = true → reaches (Re.Chr p) st t.
Proof.
  intros Hr Hp. exists (Re.advance st t). simpl. rewrite Hr, Hp.
  split; [apply list_elem_of_singleton; done | done].
Qed.

Lemma reaches_eps st : reaches Re.Eps st (Re.rest st).
Proof. exists st. split; [by apply list_elem_of_singleton | done]. Qed.

Lemma reaches_bol st : Re.pos st = O → reaches Re.Bol st (Re.rest st).
Proof.
  intros Hp. exists st. simpl. rewrite Hp.
  split; [by apply list_elem_of_singleton | done].
Qed.

Lemma reaches_seq r1 r2 st t1 t2 :
  reaches r1 st t1 →
  (∀ st1, Re.rest st1 = t1 → reaches r2 st1 t2) →
  reaches (Re.Seq r1 r2) st t2.
Proof.
  intros (st1 & Hin1 & Hr1) H2. destruct (H2 st1 Hr1) as (st2 & Hin2 & Hr2).
  exists st2. split; [|done]. simpl.
  apply list_elem_of_In, in_flat_map. exists st1.
  split; by apply list_elem_of_In.
Qed.

Lemma reaches_lit u : ∀ st t, Re.rest st = u +:+ t → reaches (Re.lit u) st t.
Proof.
  induction u as [|c u IH]; intros st t Hr; simpl.
  - rewrite app_empty_l in Hr. rewrite <- Hr. apply reaches_eps.
  - rewrite app_String in Hr. apply (reaches_seq _ _ _ (u +:+ t)).
    + apply (reaches_chr _ _ c); [done|]. unfold Py.char_eqb. apply Ascii.eqb_refl.
    + intros st1 Hr1. by apply IH.
Qed.

Lemma reaches_star_fuel g p u : ∀ fuel st t,
  (Py.len (Re.rest st) < fuel)%nat →
  all_chars p u = true → Re.rest st = u +:+ t →
  ∃ st', st' ∈ Re.star g (Re.run (Re.Chr p)) fuel st ∧ Re.rest st' = t.
Proof.
  induction u as [|c u IH]; intros fuel st t Hfuel Hall Hr.
  - destruct fuel as [|fuel]; [lia|]. rewrite app_empty_l in Hr.
    exists st. split; [|done].
    simpl. destruct g; [apply elem_of_app; right; by apply list_elem_of_singleton
                       | by left].
  - destruct fuel as [|fuel]; [lia|]. simpl in Hall.
    apply andb_prop in Hall as [Hc Hall]. rewrite app_String in Hr.
    destruct (IH fuel (Re.advance st (u +:+ t)) t) as (st' & Hin & Hrest);
      [simpl; rewrite Hr in Hfuel; simpl in Hfuel; lia | done | done |].
    exists st'. split; [|done].
    assert (st' ∈ flat_map (λ st'0 : Re.mstate,
              if (Py.len (Re.rest st'0) <? Py.len (Re.rest st))%nat
              then Re.star g (Re.run (Re.Chr p)) fuel st'0 else [])
              (Re.run (Re.Chr p) st)) as Hmore.
    { simpl. rewrite Hr, Hc. simpl. rewrite app_nil_r.
      assert ((Py.len (u +:+ t) <? S (Py.len (u +:+ t)))%nat = true) as ->
        by (apply Nat.ltb_lt; lia).
      done. }
    simpl. destruct g; [apply elem_of_app; by left | by right].
Qed.

Lemma reaches_star g p u st t :
  all_chars p u = true → Re.rest st = u +:+ t →
  reaches (Re.Star g (Re.Chr p)) st t.
Proof. intros Hall Hr. apply (reaches_star_fuel g p u); [lia | done | done]. Qed.

Lemma reaches_plus p u st t :
  u ≠ EmptyString → all_chars p u = true → Re.rest st = u +:+ t →
  reaches (Re.plus (Re.Chr p)) st t.
Proof.
  destruct u as [|c u]; [done|]. intros _ Hall Hr. simpl in Hall.
  apply andb_prop in Hall as [Hc Hall]. rewrite app_String in Hr.
  apply (reaches_seq _ _ _ (u +:+ t)).
  - by apply (reaches_chr _ _ c).
  - intros st1 Hr1. by apply (reaches_star _ _ u).
Qed.

Lemma reaches_rep p u : ∀ st t,
  all_chars p u = true → Re.rest st = u +:+ t →
  reaches (Re.rep (Py.len u) (Re.Chr p)) st t.
Proof.
  induction u as [|c u IH]; intros st t Hall Hr; simpl.
  - rewrite app_empty_l in Hr. rewrite <- Hr. apply reaches_eps.
  - simpl in Hall. apply andb_prop in Hall as [Hc Hall]. rewrite app_String in Hr.
    apply (reaches_seq _ _ _ (u +:+ t)).
    + by apply (reaches_chr _ _ c).
    + intros st1 Hr1. by apply IH.
Qed.

Lemma reaches_year y st t :
  is_year y = true → Re.rest st = y +:+ t → reaches (Re.rep 4 Re.digit) st t.
Proof.
  unfold is_year. intros [Hlen Hall]%andb_prop Hr.
  apply Nat.eqb_eq in Hlen. rewrite <- Hlen. by apply reaches_rep.
Qed.

Lemma reaches_match r s t :
  reaches r {| Re.pos := 0; Re.rest := s; Re.caps := [] |} t →
  is_Some (Re.match_ r s).
Proof.
  intros (st' & Hin & _). unfold Re.match_, Re.match_at.
  destruct (Re.run r _) as [|st0 l]; [by apply elem_of_nil in Hin | done].
Qed.

(** A pattern that starts with [^] and goes on with [r]. *)
Lemma reaches_anchored r s t :
  (∀ st, Re.rest st = s → reaches r st t) →
  is_Some (Re.match_ (Re.Seq Re.Bol r) s).
Proof.
  intros H. apply (reaches_match _ _ t).
  apply (reaches_seq _ _ _ s); [by apply reaches_bol | done].
Qed.

End Reaches.

(** ** The validators accept what the formatter writes *)

Section Validators.

Implicit Types (a y t tail : string).

Ltac str_norm := repeat (rewrite ?app_String, ?app_empty_l).

(** One character of the pattern, then the rest of the pattern. *)
Ltac eat_chr :=
  eapply reaches_seq;
  [ eapply reaches_chr; [eassumption | reflexivity] | intros ? ? ].

(** A repetition that reads [u], then the rest of the pattern. *)
Ltac eat_star u :=
  eapply reaches_seq;
  [ eapply (reaches_star _ _ u);
    [try reflexivity; try assumption | str_norm; eassumption]
  | intros ? ? ].

Ltac eat_plus u :=
  eapply reaches_seq;
  [ eapply (reaches_plus _ u); [try done | try reflexivity; try assumption | eassumption]
  | intros ? ? ].

Ltac eat_year y :=
  eapply reaches_seq;
  [ eapply (reaches_year y); [assumption | eassumption] | intros ? ? ].

(** The last repetition of a pattern reads nothing. *)
Ltac stop_star :=
  eapply (reaches_star _ _ EmptyString); [reflexivity | str_norm; eassumption].

Lemma nonempty_ne s : nonempty s = true → s ≠ EmptyString.
Proof. by destruct s. Qed.

Lemma apa_accepts_year a y tail :
  nonempty a = true → one_line a = true → is_year y = true →
  _validate_apa_format (a +:+ " (" +:+ y +:+ ")." +:+ tail) = true.
Proof.
  intros Ha%nonempty_ne Hl Hy. unfold _validate_apa_format, matches_any.
  cbn [existsb]. apply orb_true_iff. left. apply bool_decide_eq_true.
  str_norm. eapply reaches_anchored. intros st Hr.
  eat_plus a. eat_star " ". eat_chr. eat_year y. eat_chr. eat_chr. stop_star.
Qed.

Lemma apa_accepts_nd a tail :
  nonempty a = true → one_line a = true →
  _validate_apa_format (a +:+ " (n.d.)." +:+ tail) = true.
Proof.
  intros Ha%nonempty_ne Hl. unfold _validate_apa_format, matches_any.
  cbn [existsb]. apply orb_true_iff. right. apply orb_true_iff. left.
  apply bool_decide_eq_true.
  str_norm. eapply reaches_anchored. intros st Hr.
  eat_plus a. eat_star " ".
  eapply reaches_seq;
    [eapply (reaches_lit "(n.d.)."); str_norm; eassumption | intros ? ?].
  stop_star.
Qed.

Lemma mla_accepts a t y :
  nonempty a = true → one_line a = true →
  nonempty t = true → one_line t = true → is_year y = true →
  _validate_mla_format (a +:+ ". " +:+ quoted t +:+ " " +:+ y +:+ ".") = true.
Proof.
  intros Ha%nonempty_ne Hl Ht%nonempty_ne Htl Hy.
  unfold _validate_mla_format, matches_any, quoted.
  cbn [existsb]. apply orb_true_iff. left. apply bool_decide_eq_true.
  str_norm. rewrite app_assoc_str. str_norm.
  eapply reaches_anchored. intros st Hr.
  eat_plus a. eat_chr. eat_star " ". eat_chr. eat_plus t. eat_chr.
  eat_star " ". eat_year y. eat_chr. stop_star.
Qed.

Lemma chicago_accepts a t y :
  nonempty a = true → one_line a = true →
  nonempty t = true → one_line t = true → is_year y = true →
  _validate_chicago_format (a +:+ ". " +:+ y +:+ ". " +:+ quoted t +:+ ".") = true.
Proof.
  intros Ha%nonempty_ne Hl Ht%nonempty_ne Htl Hy.
  unfold _validate_chicago_format, matches_any, quoted.
  cbn [existsb]. apply orb_true_iff. left. apply bool_decide_eq_true.
  str_norm. rewrite app_assoc_str. str_norm.
  eapply reaches_anchored. intros st Hr.
  eat_plus a. eat_chr. eat_star " ". eat_year y. eat_chr. eat_star " ".
  eat_chr. eat_plus t. eat_chr. eat_chr. stop_star.
Qed.

Lemma ieee_accepts a t tail :
  nonempty a = true → one_line a = true →
  nonempty t = true → one_line t = true →
  _validate_ieee_format (a +:+ ", " +:+ quoted t +:+ tail) = true.
Proof.
  intros Ha%nonempty_ne Hl Ht%nonempty_ne Htl.
  unfold _validate_ieee_format, matches_any, quoted.
  cbn [existsb]. apply orb_true_iff. right. apply orb_true_iff. left.
  apply bool_decide_eq_true.
  str_norm. rewrite app_assoc_str. str_norm.
  eapply reaches_anchored. intros st Hr.
  eat_plus a. eat_chr. eat_star " ". eat_chr. eat_plus t. eat_chr. stop_star.
Qed.

End Validators.

(** ** What the extraction functions return *)

Section Extraction.

Implicit Types (self : CitationFormatter) (md : gmap string pyval) (s t y : string).

Lemma words_go_solid s : ∀ cur,
  cur = EmptyString ∨ starts_solid cur → Forall starts_solid (Py.words_go cur s).
Proof.
  induction s as [|c s IH]; intros cur Hcur; simpl.
  - destruct cur; [constructor|].
    destruct Hcur as [?|?]; [done|]. by repeat constructor.
  - destruct (Py.is_space c) eqn:Hc.
    + destruct cur; [apply IH; by left|].
      destruct Hcur as [?|?]; [done|]. constructor; [done|]. apply IH; by left.
    + apply IH. right. destruct Hcur as [->|(c0 & w' & -> & Hc0)].
      * by exists c, EmptyString.
      * exists c0, (w' +:+ String c EmptyString). by rewrite app_String.
Qed.

Lemma strip_solid w : starts_solid w → nonempty (Py.strip w) = true.
Proof.
  intros (c & w' & -> & Hc). unfold Py.strip. simpl. rewrite Hc. simpl.
  destruct (Py.rstrip w'); by rewrite ?Hc.
Qed.

Lemma join_solid sep w l : starts_solid w → starts_solid (Py.join sep (w :: l)).
Proof.
  intros (c & w' & -> & Hc). destruct l as [|x l]; simpl.
  - by exists c, w'.
  - rewrite app_String. by eexists c, _.
Qed.

Lemma title_from_filename_nonempty fn : nonempty (title_from_filename fn) = true.
Proof.
  unfold title_from_filename.
  set (x := Py.replace "-" " " _).
  pose proof (words_go_solid x EmptyString (or_introl eq_refl)) as Hw.
  fold (Py.words x) in Hw. destruct (Py.words x) as [|w l]; [done|].
  apply Forall_cons in Hw as [Hw _].
  pose proof (join_solid " " w l Hw) as Hj.
  destruct (nonempty (Py.join " " (w :: l))); [|done]. by apply strip_solid.
Qed.

Lemma extract_title_nonempty self md fn t :
  _extract_title self md fn = Some t → nonempty t = true.
Proof.
  unfold _extract_title.
  destruct (Val.as_str _) as [raw|]; [|done]. simpl.
  destruct (nonempty (Py.strip raw)) eqn:Hraw; intros [= <-]; [done|].
  apply title_from_filename_nonempty.
Qed.

(** Years print as four digits. *)
Lemma str_of_Z_is_year n : 1900 ≤ n ≤ 9999 → is_year (Py.str_of_Z n) = true.
Proof.
  intros Hn.
  assert (forallb (λ k, is_year (Py.str_of_Z (1900 + Z.of_nat k)))
            (seq 0 (Z.to_nat 8100)) = true)
    as Hall by (by vm_compute).
  rewrite forallb_forall in Hall.
  specialize (Hall (Z.to_nat (n - 1900))).
  replace (1900 + Z.of_nat (Z.to_nat (n - 1900))) with n in Hall by lia.
  apply Hall, in_seq. lia.
Qed.

Lemma in_range_is_year self n :
  current_year self ≤ 9999 → year_in_range self n = true →
  is_year (Py.str_of_Z n) = true.
Proof.
  unfold year_in_range. intros Hc [H1 H2]%andb_prop.
  apply Z.leb_le in H1, H2. apply str_of_Z_is_year. lia.
Qed.

Lemma match_four_digits at_ s m :
  Re.match_at four_digits at_ s = Some m →
  ∃ y, Re.group m 1 = Some y ∧ is_year y = true ∧
       Re.m_end m = (at_ + 4)%nat.
Proof.
  unfold Re.match_at, four_digits.
  destruct s as [|a [|b [|c [|d t]]]]; cbn -[Nat.sub];
    repeat (match goal with
            | |- context [Py.is_digit ?x] =>
                destruct (Py.is_digit x) eqn:?; cbn -[Nat.sub]
            end); try done.
  intros [= <-]. unfold Re.group. cbn -[Nat.sub].
  replace (S (S (S (S at_))) - at_)%nat with 4%nat by lia.
  eexists. split; [reflexivity|]. split; [|lia].
  unfold is_year. cbn.
  by repeat match goal with
            | H : Py.is_digit _ = true |- _ => rewrite H; clear H
            end.
Qed.

Lemma finditer_four_digits fuel : ∀ at_ s,
  Forall (λ m, ∃ y, Re.group m 1 = Some y ∧ is_year y = true)
    (Re.finditer_go fuel four_digits at_ s).
Proof.
  induction fuel as [|fuel IH]; intros at_ s; simpl; [constructor|].
  assert (Forall (λ m, ∃ y, Re.group m 1 = Some y ∧ is_year y = true)
            match s with
            | EmptyString => []
            | String _ s' => Re.finditer_go fuel four_digits (S at_) s'
            end) as Hskip by (destruct s; [constructor | apply IH]).
  destruct (Re.match_at four_digits at_ s) as [m|] eqn:Hm; [|done].
  destruct (match_four_digits _ _ _ Hm) as (y & Hg & Hy & _).
  destruct (Re.m_end m =? at_)%nat; constructor; eauto.
Qed.

Lemma findall_four_digits s :
  Forall (λ y, is_year y = true) (Re.findall1 four_digits s).
Proof.
  unfold Re.findall1, Re.finditer. apply Forall_fmap.
  eapply Forall_impl; [apply finditer_four_digits|].
  intros m (y & Hg & Hy). simpl. by rewrite Hg.
Qed.

Lemma first_valid_year_is_year self l y :
  Forall (λ y, is_year y = true) l →
  first_valid_year self l = Some y → is_year y = true.
Proof.
  induction 1 as [|x l Hx Hl IH]; simpl; [done|].
  destruct (PyInt.parse x) as [n|]; [|done].
  destruct (year_in_range self n); [by intros [= <-] | done].
Qed.

(** A year that [_extract_year] returns has four digits, as long as the
    current year has. *)
Lemma extract_year_is_year self md fn y :
  current_year self ≤ 9999 →
  _extract_year self md fn = Some (Some y) → is_year y = true.
Proof.
  intros Hc. unfold _extract_year.
  destruct (Val.as_str _) as [raw|]; [|done]. simpl.
  pose proof (first_valid_year_is_year self _ y (findall_four_digits fn)) as Hfn.
  pose proof (in_range_is_year self) as Hin.
  intros [= H]. revert H.
  repeat case_match; intros [= <-] || intros ?; eauto.
Qed.

Lemma is_year_nonempty y : is_year y = true → nonempty y = true.
Proof. by destruct y. Qed.

End Extraction.

(** ** Round trip of [format_citation] and [validate_citation_format] *)

Section RoundTrip.

Lemma format_citation_extracted self source_info author year title :
  _extract_author self (si_metadata source_info)
    (default EmptyString (si_filename source_info)) false = Some author →
  _extract_year self (si_metadata source_info)
    (default EmptyString (si_filename source_info)) = Some year →
  _extract_title self (si_metadata source_info)
    (default EmptyString (si_filename source_info)) = Some title →
  format_citation self source_info =
    match style self with
    | APA => _format_apa_citation author year title
    | MLA => _format_mla_citation author year title
    | CHICAGO => _format_chicago_citation author year title
    | IEEE => _format_ieee_citation author year title
                (default EmptyString (si_filename source_info))
    end.
Proof. intros Ha Hy Ht. unfold format_citation. by rewrite Ha, Hy, Ht. Qed.

(** C2, as the code has it.  Formatting a citation and validating it under
    the same style returns true for the author and year combinations that
    the style's validator knows: all four under APA, the two with an author
    under IEEE, the one with author and year under MLA and Chicago.  The
    extracted author and title are on one line, and under MLA and IEEE the
    title does not start with a double quote. *)
Theorem round_trip_accepted_combinations :
  ∀ (self : CitationFormatter) (source_info : SourceInfo)
    (author title : string) (year : option string),
    current_year self ≤ 9999 →
    _extract_author self (si_metadata source_info)
      (default EmptyString (si_filename source_info)) false = Some author →
    _extract_year self (si_metadata source_info)
      (default EmptyString (si_filename source_info)) = Some year →
    _extract_title self (si_metadata source_info)
      (default EmptyString (si_filename source_info)) = Some title →
    one_line author = true → one_line title = true →
    title_quotable (style self) title = true →
    accepted_combination (style self) author year = true →
    validate_citation_format self (format_citation self source_info) = true.
Proof.
  intros self source_info author title year Hcur Ha Hy Ht Hla Hlt Hq Hcomb.
  rewrite (format_citation_extracted _ _ _ _ _ Ha Hy Ht).
  pose proof (extract_title_nonempty _ _ _ _ Ht) as Htn.
  assert (∀ y, year = Some y → is_year y = true) as Hyear.
  { intros y ->. by apply (extract_year_is_year self _ _ y Hcur Hy). }
  unfold validate_citation_format.
  unfold title_quotable, accepted_combination in Hq, Hcomb.
  destruct (style self).
  - (* APA *)
    unfold _format_apa_citation.
    destruct (nonempty author) eqn:Hna, year as [y|]; simpl.
    + rewrite (is_year_nonempty y) by auto. simpl.
      apply (apa_accepts_year author y (" " +:+ title +:+ ".")); auto.
    + by apply (apa_accepts_nd author (" " +:+ title +:+ ".")).
    + rewrite (is_year_nonempty y) by auto.
      apply (apa_accepts_year title y EmptyString); auto.
    + by apply (apa_accepts_nd title EmptyString).
  - (* MLA *)
    apply andb_prop in Hcomb as [Hna Hgy]. destruct year as [y|]; [|done].
    unfold _format_mla_citation, formatted_title. rewrite Hna, Hgy.
    apply negb_true_iff in Hq. rewrite Hq. simpl.
    apply mla_accepts; auto.
  - (* Chicago *)
    apply andb_prop in Hcomb as [Hna Hgy]. destruct year as [y|]; [|done].
    unfold _format_chicago_citation. rewrite Hna, Hgy. simpl.
    apply chicago_accepts; auto.
  - (* IEEE *)
    unfold _format_ieee_citation, formatted_title. rewrite Hcomb.
    apply negb_true_iff in Hq. rewrite Hq. simpl.
    destruct (given year).
    + by apply (ieee_accepts author title (" " +:+ shown year +:+ ".")).
    + rewrite <- (app_empty_r (quoted title)).
      by apply (ieee_accepts author title EmptyString).
Qed.

Definition mla_full_source : SourceInfo :=
  {| si_filename := Some "doe.pdf";
     si_metadata := <["author" := VStr "Jane Doe"]>
                      (<["year" := VStr "2020"]>
                        (<["title" := VStr "Deep Nets"]> ∅)) |}.

Lemma round_trip_witness :
  validate_citation_format (__init__ MLA 2026)
    (format_citation (__init__ MLA 2026) mla_full_source) = true.
Proof.
  apply (round_trip_accepted_combinations (__init__ MLA 2026) mla_full_source
           "Jane Doe" "Deep Nets" (Some "2020"));
    first [ by vm_compute | simpl; lia ].
Defined.

(** An MLA citation with an author and no year is not accepted by the MLA
    validator. *)
Definition mla_undated_source : SourceInfo :=
  {| si_filename := Some "doe.pdf";
     si_metadata := <["author" := VStr "Jane Doe"]>
                      (<["title" := VStr "Deep Nets"]> ∅) |}.

Lemma round_trip_fails_without_year :
  format_citation (__init__ MLA 2026) mla_undated_source
    = "Jane Doe. " +:+ quoted "Deep Nets" ∧
  validate_citation_format (__init__ MLA 2026)
    (format_citation (__init__ MLA 2026) mla_undated_source) = false.
Proof. by vm_compute. Qed.

End RoundTrip.

(** ** The filename example of the specification *)

Section FilenameExample.

Let fn : string := "Smith_2020_ClimateData.pdf".

Lemma example_author self : _extract_author self ∅ fn false = Some "Smith".
Proof. destruct self as [[] ? ? ?]; by vm_compute. Qed.

Lemma example_title self : _extract_title self ∅ fn = Some "2020 ClimateData".
Proof. by vm_compute. Qed.

Lemma example_year self :
  2020 ≤ current_year self → _extract_year self ∅ fn = Some (Some "2020").
Proof.
  intros Hy. unfold _extract_year.
  replace (Val.get ∅ "year" (VStr EmptyString)) with (VStr EmptyString)
    by (by vm_compute).
  replace (Val.get ∅ "creation_date" (VStr EmptyString)) with (VStr EmptyString)
    by (by vm_compute).
  replace (Re.findall1 four_digits fn) with ["2020"] by (by vm_compute).
  cbn -[Z.leb]. unfold year_in_range.
  replace (PyInt.parse "2020") with (Some 2020) by (by vm_compute).
  cbn -[Z.leb]. by rewrite (proj2 (Z.leb_le 2020 (current_year self)) Hy).
Qed.

(** C3, as the code has it.  For the filename Smith_2020_ClimateData.pdf
    with empty metadata, in a year from 2020 on, the extracted author is
    Smith, the year is 2020 and the title is 2020 ClimateData: the leading
    author and underscore are removed, the bare year stays in the title.
    The APA full reference is Smith (2020). 2020 ClimateData. *)
Theorem filename_example_apa_reference :
  ∀ self : CitationFormatter,
    2020 ≤ current_year self → style self = APA →
    _extract_author self ∅ "Smith_2020_ClimateData.pdf" false = Some "Smith" ∧
    _extract_year self ∅ "Smith_2020_ClimateData.pdf" = Some (Some "2020") ∧
    _extract_title self ∅ "Smith_2020_ClimateData.pdf" = Some "2020 ClimateData" ∧
    _format_apa_full_reference ∅ "Smith" (Some "2020") "2020 ClimateData"
      = Some "Smith (2020). 2020 ClimateData." ∧
    _format_full_reference self (mkCitation "Smith_2020_ClimateData.pdf" ∅)
      = Some "Smith (2020). 2020 ClimateData.".
Proof.
  intros self Hy Hstyle.
  pose proof (example_author self) as Ha.
  pose proof (example_year self Hy) as Hyr.
  pose proof (example_title self) as Ht. fold fn.
  split; [done|]. split; [done|]. split; [done|].
  split; [by vm_compute|].
  unfold _format_full_reference. cbn [metadata source].
  fold fn. rewrite Ha, Hyr, Ht, Hstyle. by vm_compute.
Qed.

Lemma filename_example_witness :
  _extract_author (__init__ APA 2026) ∅ "Smith_2020_ClimateData.pdf" false
    = Some "Smith" ∧
  _extract_year (__init__ APA 2026) ∅ "Smith_2020_ClimateData.pdf"
    = Some (Some "2020") ∧
  _extract_title (__init__ APA 2026) ∅ "Smith_2020_ClimateData.pdf"
    = Some "2020 ClimateData" ∧
  _format_apa_full_reference ∅ "Smith" (Some "2020") "2020 ClimateData"
    = Some "Smith (2020). 2020 ClimateData." ∧
  _format_full_reference (__init__ APA 2026)
      (mkCitation "Smith_2020_ClimateData.pdf" ∅)
    = Some "Smith (2020). 2020 ClimateData.".
Proof.
  apply (filename_example_apa_reference (__init__ APA 2026)); [simpl; lia | reflexivity].
Defined.

(** The example as the specification words it does not hold: the title is
    not ClimateData and the reference is not Smith (2020). ClimateData. *)
Lemma filename_example_as_specified_fails :
  ¬ (_extract_author (__init__ APA 2026) ∅ "Smith_2020_ClimateData.pdf" false
       = Some "Smith" ∧
     _extract_year (__init__ APA 2026) ∅ "Smith_2020_ClimateData.pdf"
       = Some (Some "2020") ∧
     _extract_title (__init__ APA 2026) ∅ "Smith_2020_ClimateData.pdf"
       = Some "ClimateData" ∧
     _format_full_reference (__init__ APA 2026)
         (mkCitation "Smith_2020_ClimateData.pdf" ∅)
       = Some "Smith (2020). ClimateData.").
Proof. intros (_ & _ & Ht & _). vm_compute in Ht. discriminate Ht. Qed.

End FilenameExample.

(** ** The IEEE reference list *)

Section ReferenceList.

Variable self : CitationFormatter.

Implicit Types (c : Citation) (cs : list Citation) (n : Z) (i : nat)
  (ordered : list (option string)) (unmapped : list string).

Lemma placed_number c n :
  placed self n c = true → _citation_map self !! source c = Some n.
Proof. unfold placed. intros [H _]%andb_prop. by apply bool_decide_eq_true in H. Qed.

Lemma placed_given c n :
  placed self n c = true → given (_format_full_reference self c) = true.
Proof. unfold placed. by intros [_ H]%andb_prop. Qed.

Lemma placed_intro c n :
  _citation_map self !! source c = Some n →
  given (_format_full_reference self c) = true → placed self n c = true.
Proof.
  intros Hn Hg. unfold placed. rewrite Hg, andb_true_r.
  by apply bool_decide_eq_true.
Qed.

Lemma placed_unmapped c n :
  _citation_map self !! source c = None → placed self n c = false.
Proof. intros H. unfold placed. rewrite H. by rewrite bool_decide_eq_false_2. Qed.

Lemma placed_other c n m :
  _citation_map self !! source c = Some m → m ≠ n → placed self n c = false.
Proof.
  intros H Hne. unfold placed. rewrite H.
  rewrite bool_decide_eq_false_2; [done | congruence].
Qed.

(** The loop writes, at each index in range, the reference placed last at
    that index plus one, and appends the unmapped references in order. *)
Lemma place_references_spec cs : ∀ ordered unmapped,
  let result := place_references self cs ordered unmapped in
  length result.1 = length ordered ∧
  result.2 = unmapped ++ unmapped_in_order self cs ∧
  ∀ i cur, ordered !! i = Some cur →
    result.1 !! i = Some (last_placed self (Z.of_nat i + 1) cs cur).
Proof.
  induction cs as [|c cs IH]; intros ordered unmapped; simpl.
  - split; [done|]. split; [by rewrite app_nil_r | done].
  - unfold unmapped_in_order. cbn [omap list_omap].
    fold (unmapped_in_order self cs).
    destruct (_citation_map self !! source c) as [number|] eqn:Hmap.
    + destruct (given (_format_full_reference self c) && (0 <=? number - 1)
                && (number - 1 <? Z.of_nat (length ordered))) eqn:Hwrite.
      * apply andb_prop in Hwrite as [[Hg Hlo]%andb_prop Hhi].
        apply Z.leb_le in Hlo. apply Z.ltb_lt in Hhi.
        destruct (IH (<[Z.to_nat (number - 1) := _format_full_reference self c]>
                        ordered) unmapped) as (Hlen & Hun & Hslots).
        split; [by rewrite Hlen, length_insert|]. split; [done|].
        intros i cur Hi. destruct (decide (i = Z.to_nat (number - 1))) as [->|Hne].
        -- assert (Z.of_nat (Z.to_nat (number - 1)) + 1 = number) as Heq by lia.
           erewrite Hslots by (apply list_lookup_insert_eq; lia).
           rewrite Heq. by rewrite (placed_intro c number Hmap Hg).
        -- rewrite (placed_other c _ number Hmap) by lia.
           apply Hslots. by rewrite list_lookup_insert_ne.
      * destruct (IH ordered unmapped) as (Hlen & Hun & Hslots).
        split; [done|]. split; [done|]. intros i cur Hi.
        assert (placed self (Z.of_nat i + 1) c = false) as ->; [|by apply Hslots].
        destruct (decide (number = Z.of_nat i + 1)) as [->|Hne];
          [|by apply (placed_other c _ number)].
        apply lookup_lt_Some in Hi. unfold placed.
        destruct (given (_format_full_reference self c)); [|by rewrite andb_false_r].
        simpl in Hwrite. apply andb_false_iff in Hwrite as [H|H].
        -- apply Z.leb_gt in H. lia.
        -- apply Z.ltb_ge in H. lia.
    + destruct (given (_format_full_reference self c)) eqn:Hg.
      * destruct (IH ordered (unmapped ++ [shown (_format_full_reference self c)]))
          as (Hlen & Hun & Hslots).
        split; [done|]. split; [by rewrite Hun, <- app_assoc|].
        intros i cur Hi. rewrite (placed_unmapped c _ Hmap). by apply Hslots.
      * destruct (IH ordered unmapped) as (Hlen & Hun & Hslots).
        split; [done|]. split; [done|].
        intros i cur Hi. rewrite (placed_unmapped c _ Hmap). by apply Hslots.
Qed.

(** [last_placed] is the reference of a citation of the list, when one is
    placed at the number. *)
Lemma last_placed_some n cs : ∀ cur,
  (∃ c, c ∈ cs ∧ placed self n c = true) →
  ∃ c r, c ∈ cs ∧ placed self n c = true ∧
         _format_full_reference self c = Some r ∧
         last_placed self n cs cur = Some r.
Proof.
  induction cs as [|c cs IH]; intros cur (c0 & Hin & Hp).
  - by apply elem_of_nil in Hin.
  - simpl.
    assert ((∃ c1, c1 ∈ cs ∧ placed self n c1 = true)
            ∨ ¬ (∃ c1, c1 ∈ cs ∧ placed self n c1 = true)) as [Hlater|Hlast].
    { destruct (existsb (placed self n) cs) eqn:Hex.
      - left. apply existsb_exists in Hex as (c1 & Hin1 & Hp1).
        exists c1. split; [by apply list_elem_of_In | done].
      - right. intros (c1 & Hin1 & Hp1).
        assert (existsb (placed self n) cs = true) as Htrue; [|congruence].
        apply existsb_exists. exists c1. split; [by apply list_elem_of_In | done]. }
    + destruct (IH (if placed self n c then _format_full_reference self c else cur)
                  Hlater) as (c1 & r & Hin1 & Hp1 & Hr1 & Hl1).
      exists c1, r. split; [by right | done].
    + assert (placed self n c = true) as Hpc.
      { apply elem_of_cons in Hin as [<-|Hin]; [done|].
        exfalso. apply Hlast. by exists c0. }
      rewrite Hpc. pose proof (placed_given c n Hpc) as Hg.
      destruct (_format_full_reference self c) as [r|] eqn:Hr; [|done].
      exists c, r. split; [by left|]. split; [done|]. split; [done|].
      clear IH Hin Hp. revert Hlast.
      generalize (Some r). induction cs as [|c1 cs IH]; intros o Hlast; [done|].
      simpl. assert (placed self n c1 = false) as ->.
      { destruct (placed self n c1) eqn:H1; [|done].
        exfalso. apply Hlast. exists c1. split; [by left | done]. }
      apply IH. intros (c2 & Hin2 & Hp2). apply Hlast. exists c2. split; [by right | done].
Qed.

Lemma last_placed_none n cs :
  (∀ c, c ∈ cs → placed self n c = false) → last_placed self n cs None = None.
Proof.
  induction cs as [|c cs IH]; intros H; simpl; [done|].
  rewrite (H c) by by left. apply IH. intros c' Hc'. apply H. by right.
Qed.

(** Dropping the [None] of a list whose filled slots come first keeps
    every filled slot at its index. *)
Lemma not_none_lookup (l : list (option string)) : ∀ i r,
  (∀ j k, (j < k)%nat → is_Some (mjoin (l !! k)) → is_Some (mjoin (l !! j))) →
  l !! i = Some (Some r) → not_none l !! i = Some r.
Proof.
  unfold not_none. induction l as [|o l IH]; intros i r Hclosed Hi; [done|].
  assert (is_Some o) as [x ->].
  { destruct i as [|i]; [by injection Hi as ->|].
    apply (Hclosed O (S i)); [lia|]. simpl in *. by rewrite Hi. }
  simpl. destruct i as [|i]; [by injection Hi as ->|]. simpl in *.
  apply IH; [|done]. intros j k Hjk Hk. apply (Hclosed (S j) (S k)); [lia | done].
Qed.

Lemma numbered_lines_line refs : ∀ k i r,
  refs !! i = Some r →
  ∃ before after,
    numbered_lines k refs
      = before +:+ numbered_line (k + Z.of_nat i) r +:+ after.
Proof.
  induction refs as [|x refs IH]; intros k i r Hi; [done|].
  destruct i as [|i]; simpl in Hi.
  - injection Hi as ->. exists EmptyString, (numbered_lines (k + 1) refs).
    rewrite Z.add_0_r. simpl. unfold numbered_line.
    by rewrite !app_empty_l, !app_assoc_str.
  - destruct (IH (k + 1) i r Hi) as (before & after & Heq).
    exists (numbered_line k x +:+ before), after.
    simpl. rewrite Heq. unfold numbered_line at 2.
    replace (k + 1 + Z.of_nat i) with (k + Z.of_nat (S i)) by lia.
    by rewrite !app_assoc_str.
Qed.

Lemma not_none_all_none (l : list (option string)) :
  (∀ k, ¬ is_Some (mjoin (l !! k))) → not_none l = [].
Proof.
  unfold not_none. induction l as [|o l IH]; intros H; [done|].
  destruct o as [x|]; [exfalso; by apply (H O) |]. simpl.
  apply IH. intros k. apply (H (S k)).
Qed.

Lemma not_none_lookup_inv (l : list (option string)) : ∀ i r,
  (∀ j k, (j < k)%nat → is_Some (mjoin (l !! k)) → is_Some (mjoin (l !! j))) →
  not_none l !! i = Some r → l !! i = Some (Some r).
Proof.
  induction l as [|o l IH]; intros i r Hclosed Hi; [done|].
  destruct o as [x|].
  - unfold not_none in Hi. simpl in Hi. destruct i as [|i]; [by injection Hi as ->|].
    simpl in *. apply IH; [|done].
    intros j k Hjk Hk. apply (Hclosed (S j) (S k)); [lia | done].
  - rewrite (not_none_all_none (None :: l)) in Hi; [done|].
    intros [|k] Hk; [by destruct Hk|].
    destruct (Hclosed O (S k)) as [? ?]; [lia | done | done].
Qed.

Lemma placed_or_none n cs :
  (∃ c, c ∈ cs ∧ placed self n c = true) ∨ last_placed self n cs None = None.
Proof.
  destruct (existsb (placed self n) cs) eqn:Hex.
  - left. apply existsb_exists in Hex as (c1 & Hin1 & Hp1).
    exists c1. split; [by apply list_elem_of_In | done].
  - right. apply last_placed_none. intros c Hc.
    destruct (placed self n c) eqn:Hp; [|done].
    assert (existsb (placed self n) cs = true) as Htrue; [|congruence].
    apply existsb_exists. exists c. split; [by apply list_elem_of_In | done].
Qed.

End ReferenceList.

(** C7, as the code has it.  Under IEEE, when the numbers of the listed
    sources are within the count of distinct references and leave no gap
    below them, the list is a numbered part followed by the references of
    the citations whose source has no number, in the order of the
    citations; each citation whose source has number n finds at position n
    the reference of a citation of that number; every entry of the numbered
    part is such a reference at its number.  The text is empty when the
    first loop collects no reference, whatever the list then holds;
    otherwise it is the header followed by one line per entry, the entry at
    position i on the line that starts with i between brackets. *)
Theorem ieee_reference_list_without_gaps :
  ∀ (self : CitationFormatter) (citations : list Citation),
    style self = IEEE →
    (∀ c n, c ∈ citations → placed self n c = true →
       1 ≤ n ≤ Z.of_nat (length (collect_references self citations [] []))) →
    (∀ c n j, c ∈ citations → placed self n c = true → 1 ≤ j < n →
       ∃ c', c' ∈ citations ∧ placed self j c' = true) →
    ∃ numbered_part : list string,
      ieee_final_refs self citations
        = numbered_part ++ unmapped_in_order self citations ∧
      (∀ c n, c ∈ citations → placed self n c = true →
         ∃ c' r, c' ∈ citations ∧ placed self n c' = true ∧
                 _format_full_reference self c' = Some r ∧
                 numbered_part !! Z.to_nat (n - 1) = Some r) ∧
      (∀ i r, numbered_part !! i = Some r →
         ∃ c', c' ∈ citations ∧ placed self (Z.of_nat i + 1) c' = true ∧
               _format_full_reference self c' = Some r) ∧
      format_reference_list self citations
        = match collect_references self citations [] [] with
          | [] => EmptyString
          | _ :: _ =>
              Py.strip ("References" +:+ Py.nl +:+ Py.nl +:+
                        numbered_lines 1 (ieee_final_refs self citations))
          end ∧
      (∀ i r, ieee_final_refs self citations !! i = Some r →
         ∃ before after,
           numbered_lines 1 (ieee_final_refs self citations)
             = before +:+ numbered_line (1 + Z.of_nat i) r +:+ after).
Proof.
  intros self cs Hstyle Hrange Hdense.
  set (L := length (collect_references self cs [] [])) in *.
  destruct (place_references_spec self cs (replicate L None) [])
    as (Hlen & Hun & Hslots).
  unfold ieee_final_refs. fold L.
  destruct (place_references self cs (replicate L None) [])
    as [ordered unmapped] eqn:Hplace.
  simpl in Hlen, Hun, Hslots. rewrite length_replicate in Hlen.
  assert (∀ i, (i < L)%nat →
            ordered !! i = Some (last_placed self (Z.of_nat i + 1) cs None))
    as Hslot.
  { intros i Hi. apply Hslots. by apply lookup_replicate_2. }
  assert (∀ j k, (j < k)%nat → is_Some (mjoin (ordered !! k)) →
            is_Some (mjoin (ordered !! j))) as Hclosed.
  { intros j k Hjk [x Hx].
    destruct (ordered !! k) as [o|] eqn:Hk; [|done]. simpl in Hx. subst o.
    pose proof (lookup_lt_Some _ _ _ Hk) as Hkl. rewrite Hlen in Hkl.
    rewrite (Hslot k Hkl) in Hk. injection Hk as Hk.
    destruct (placed_or_none self (Z.of_nat k + 1) cs) as [(c & Hc & Hp)|Hnone];
      [|congruence].
    destruct (Hdense c _ (Z.of_nat j + 1) Hc Hp) as (c' & Hc' & Hp'); [lia|].
    destruct (last_placed_some self (Z.of_nat j + 1) cs None) as (c2 & r & _ & _ & _ & Hl);
      [by exists c'|].
    rewrite (Hslot j) by lia. rewrite Hl. by eexists. }
  exists (not_none ordered). split; [by rewrite Hun|]. split; [|split; [|split]].
  - intros c n Hc Hp. destruct (Hrange c n Hc Hp) as [Hlo Hhi].
    destruct (last_placed_some self n cs None) as (c' & r & Hc' & Hp' & Hr & Hl);
      [by exists c|].
    exists c', r. split; [done|]. split; [done|]. split; [done|].
    apply not_none_lookup; [done|]. rewrite Hslot by lia.
    replace (Z.of_nat (Z.to_nat (n - 1)) + 1) with n by lia. by rewrite Hl.
  - intros i r Hi. apply not_none_lookup_inv in Hi; [|done].
    pose proof (lookup_lt_Some _ _ _ Hi) as Hil. rewrite Hlen in Hil.
    rewrite (Hslot i Hil) in Hi. injection Hi as Hi.
    destruct (placed_or_none self (Z.of_nat i + 1) cs) as [Hex|Hnone]; [|congruence].
    destruct (last_placed_some self (Z.of_nat i + 1) cs None Hex)
      as (c' & r' & Hc' & Hp' & Hr' & Hl').
    exists c'. split; [done|]. split; [done|]. congruence.
  - unfold format_reference_list, ieee_final_refs. fold L. rewrite Hplace, Hstyle.
    simpl. by destruct (collect_references self cs [] []).
  - intros i r Hi. by apply numbered_lines_line.
Qed.

(** A formatter that has cited A.pdf then B.pdf in the text. *)
Definition cited_a_b : CitationFormatter :=
  (cite_all (__init__ IEEE 2026) [("A.pdf", None); ("B.pdf", None)]).2.

Definition cite (filename : string) : Citation :=
  {| source := filename; metadata := ∅ |}.

Lemma ieee_reference_list_witness :
  ∃ numbered_part : list string,
    ieee_final_refs cited_a_b [cite "B.pdf"; cite "A.pdf"; cite "C.pdf"; cite "C.pdf"]
      = numbered_part
        ++ unmapped_in_order cited_a_b
             [cite "B.pdf"; cite "A.pdf"; cite "C.pdf"; cite "C.pdf"] ∧
    numbered_part !! 1%nat = Some (quoted "B" +:+ " .").
Proof.
  destruct (ieee_reference_list_without_gaps cited_a_b
              [cite "B.pdf"; cite "A.pdf"; cite "C.pdf"; cite "C.pdf"])
    as (numbered_part & Hfinal & Hnumbered & _).
  - reflexivity.
  - intros c n Hc Hp. apply placed_number in Hp.
    repeat (apply elem_of_cons in Hc as [->|Hc]); try (by apply elem_of_nil in Hc);
      vm_compute in Hp; try discriminate Hp; injection Hp as <-; by vm_compute.
  - intros c n j Hc Hp Hj. apply placed_number in Hp.
    repeat (apply elem_of_cons in Hc as [->|Hc]); try (by apply elem_of_nil in Hc);
      vm_compute in Hp; try discriminate Hp; injection Hp as <-;
      [|lia].
    assert (j = 1) as -> by lia. exists (cite "A.pdf").
    split; [right; left | by vm_compute].
  - exists numbered_part. split; [done|].
    destruct (Hnumbered (cite "B.pdf") 2) as (c' & r & Hc' & Hp' & Hr & Hl);
      [left | by vm_compute |].
    change (Z.to_nat (2 - 1)) with 1%nat in Hl.
    rewrite Hl. f_equal. apply placed_number in Hp'.
    repeat (apply elem_of_cons in Hc' as [->|Hc']); try (by apply elem_of_nil in Hc');
      vm_compute in Hp'; try discriminate Hp'; vm_compute in Hr; by injection Hr as <-.
Defined.

(** With A.pdf and B.pdf numbered 1 and 2, a list that cites B.pdf alone has
    one reference; number 2 is out of its range, and the reference of B.pdf
    is left out of the list. *)
Lemma ieee_reference_list_drops_entry :
  placed cited_a_b 2 (cite "B.pdf") = true ∧
  _format_full_reference cited_a_b (cite "B.pdf") = Some (quoted "B" +:+ " .") ∧
  ieee_final_refs cited_a_b [cite "B.pdf"] = [] ∧
  format_reference_list cited_a_b [cite "B.pdf"] = "References".
Proof. by vm_compute. Qed.

(** ** The bibliography entry of the specification *)

(** C4, as the code has it.  The entry text of Jones parses to an entry of
    type journal with year 2019, title Deep Learning Basics, volume 5,
    issue 2 and pages 100-110; the authors are the text before the first
    parenthesis split at its commas, Jones and A. *)
Theorem jones_entry_parsed :
  parsed_field jones_entry_text "authors" = Some (VList ["Jones"; "A."]) ∧
  parsed_field jones_entry_text "year" = Some (VStr "2019") ∧
  parsed_field jones_entry_text "title" = Some (VStr "Deep Learning Basics") ∧
  parsed_field jones_entry_text "volume" = Some (VStr "5") ∧
  parsed_field jones_entry_text "issue" = Some (VStr "2") ∧
  parsed_field jones_entry_text "pages" = Some (VStr "100-110") ∧
  parsed_field jones_entry_text "type" = Some (VStr "journal").
Proof. vm_compute. by repeat split. Qed.

(** The journal pattern starts at the first capital letter from which it
    can match, which is the initial of the author. *)
Example jones_entry_journal :
  parsed_field jones_entry_text "journal"
    = Some (VStr "A. (2019). Deep Learning Basics. Journal of AI").
Proof. vm_compute. reflexivity. Qed.

(** The entry as the specification words it is not what the parser
    returns. *)
Lemma jones_entry_as_specified_fails :
  ¬ (parsed_field jones_entry_text "authors" = Some (VList ["Jones, A."]) ∧
     parsed_field jones_entry_text "year" = Some (VStr "2019") ∧
     parsed_field jones_entry_text "title" = Some (VStr "Deep Learning Basics") ∧
     parsed_field jones_entry_text "journal" = Some (VStr "Journal of AI") ∧
     parsed_field jones_entry_text "volume" = Some (VStr "5") ∧
     parsed_field jones_entry_text "issue" = Some (VStr "2") ∧
     parsed_field jones_entry_text "pages" = Some (VStr "100-110") ∧
     parsed_field jones_entry_text "type" = Some (VStr "journal")).
Proof. intros [Hauthors _]. vm_compute in Hauthors. discriminate Hauthors. Qed.

(** ** The source library *)

Section Chunks.

Implicit Types (s t : string).

Lemma lstrip_solid s : Py.lstrip s = EmptyString ∨ starts_solid (Py.lstrip s).
Proof.
  induction s as [|c s IH]; simpl; [by left|].
  destruct (Py.is_space c) eqn:Hc; [done|]. right. by exists c, s.
Qed.

Lemma rstrip_idem s : Py.rstrip (Py.rstrip s) = Py.rstrip s.
Proof.
  induction s as [|c s IH]; [done|]. simpl.
  destruct (Py.rstrip s) as [|d t] eqn:Hr.
  - destruct (Py.is_space c) eqn:Hc; [done|]. simpl. by rewrite Hc.
  - simpl. simpl in IH. by rewrite IH.
Qed.

Lemma rstrip_solid s : starts_solid s → starts_solid (Py.rstrip s).
Proof.
  intros (c & w & -> & Hc). simpl.
  destruct (Py.rstrip w); [rewrite Hc|]; by eexists c, _.
Qed.

Lemma lstrip_of_solid s : starts_solid s → Py.lstrip s = s.
Proof. intros (c & w & -> & Hc). simpl. by rewrite Hc. Qed.

Lemma strip_stripped s : stripped (Py.strip s).
Proof.
  unfold stripped, Py.strip.
  destruct (lstrip_solid s) as [->|Hs]; [done|].
  rewrite (lstrip_of_solid _ (rstrip_solid _ Hs)). apply rstrip_idem.
Qed.

Lemma chunk_sentences_stripped n sentences : ∀ chunks current,
  Forall stripped chunks →
  Forall stripped (Library.chunk_sentences n sentences chunks current).
Proof.
  induction sentences as [|x sentences IH]; intros chunks current Hc; simpl.
  - destruct (nonempty (Py.strip current)); [|done].
    apply Forall_app. split; [done|]. repeat constructor. apply strip_stripped.
  - repeat case_match; apply IH; try done.
    apply Forall_app. split; [done|]. repeat constructor. apply strip_stripped.
Qed.

Lemma chunks_stripped text n chunk :
  chunk ∈ Library._split_into_chunks text n → Py.strip chunk = chunk.
Proof.
  intros Hin. unfold Library._split_into_chunks in Hin.
  pose proof (chunk_sentences_stripped n (Re.split Library.sentence_end text)
                [] EmptyString (Forall_nil_2 _)) as Hall.
  rewrite Forall_forall in Hall. by apply Hall.
Qed.

Lemma elem_of_concat {A} (x : A) (ls : list (list A)) :
  x ∈ concat ls ↔ ∃ l, x ∈ l ∧ l ∈ ls.
Proof.
  rewrite list_elem_of_In, in_concat. split.
  - intros (l & Hl & Hx). exists l. by rewrite !list_elem_of_In.
  - intros (l & Hx & Hl). exists l. by rewrite <- !list_elem_of_In.
Qed.

End Chunks.

(** C8, as the code has it.  The content list holds exactly the chunks of
    the pages of the library whose text is longer than 50 characters, each
    with its filename, page number and the metadata of its document; a
    chunk of 50 characters or fewer is not in the list. *)
Theorem searchable_chunks_longer_than_50 :
  ∀ (self : Library.PDFLibrary) (item : Library.Content),
    item ∈ Library.get_all_content self ↔
    ∃ (name : string) (pdf_data : Library.PdfData) (page_num : Z) (text : string),
      (name, pdf_data) ∈ Library.library self ∧
      (page_num, text) ∈ Library.pdf_pages pdf_data ∧
      Library.c_text item ∈ Library._split_into_chunks text 500 ∧
      (50 < Py.len (Library.c_text item))%nat ∧
      item = {| Library.c_filename := name; Library.c_page := page_num;
                Library.c_text := Library.c_text item;
                Library.c_metadata := Library.pdf_metadata pdf_data |}.
Proof.
  intros self item. unfold Library.get_all_content. split.
  - intros Hin. apply elem_of_concat in Hin as (l & Hitem & Hl).
    apply list_elem_of_fmap in Hl as ([name pdf_data] & -> & Hentry).
    simpl in Hitem. apply elem_of_concat in Hitem as (l & Hitem & Hl).
    apply list_elem_of_fmap in Hl as ([page_num text] & -> & Hpage).
    unfold Library.page_content in Hitem. simpl in Hitem.
    apply list_elem_of_fmap in Hitem as (chunk & -> & Hchunk).
    apply list_elem_of_filter in Hchunk as [Hlen Hchunk].
    rewrite (chunks_stripped _ _ _ Hchunk) in Hlen.
    by exists name, pdf_data, page_num, text.
  - intros (name & pdf_data & page_num & text & Hentry & Hpage & Hchunk & Hlen & ->).
    simpl in *.
    apply elem_of_concat.
    exists (concat (Library.page_content name pdf_data <$> Library.pdf_pages pdf_data)).
    split; [|apply list_elem_of_fmap; by exists (name, pdf_data)].
    apply elem_of_concat.
    exists (Library.page_content name pdf_data (page_num, text)).
    split; [|apply list_elem_of_fmap; by exists (page_num, text)].
    unfold Library.page_content. simpl.
    apply list_elem_of_fmap. exists (Library.c_text item). split; [done|].
    apply list_elem_of_filter. split; [|done].
    by rewrite (chunks_stripped _ _ _ Hchunk).
Qed.

(** A chunk of exactly 50 characters is left out of the content list. *)
Lemma chunk_of_50_characters_excluded :
  (Library.add_pdf {| Library.library := [] |} "paper.pdf" one_sentence_reader).1
    = true ∧
  Library._split_into_chunks (fifty_characters +:+ ".") 500 = [fifty_characters] ∧
  Py.len fifty_characters = 50%nat ∧
  Library.get_all_content one_sentence_library = [].
Proof. by vm_compute. Qed.

Section Metadata.

Import Library.

Implicit Types (md text_md : gmap string pyval) (k key : string).

Lemma parse_str_of_Z_year n :
  1900 ≤ n ≤ 2030 → PyInt.parse (Py.str_of_Z n) = Some n.
Proof.
  intros Hn.
  assert (forallb (λ i : nat, bool_decide
            (PyInt.parse (Py.str_of_Z (1900 + Z.of_nat i)) = Some (1900 + Z.of_nat i)))
            (seq 0 (Z.to_nat 131)) = true) as Hall by (by vm_compute).
  rewrite forallb_forall in Hall.
  specialize (Hall (Z.to_nat (n - 1900))).
  replace (1900 + Z.of_nat (Z.to_nat (n - 1900))) with n in Hall by lia.
  eapply bool_decide_eq_true_1, Hall. apply in_seq. lia.
Qed.

Lemma year_from_date_ok date_string :
  stored_year_ok 2030 (_extract_year_from_date date_string).
Proof.
  unfold _extract_year_from_date.
  destruct (negb (nonempty date_string)); [by left|].
  destruct (Re.search four_digits date_string) as [m|]; [|by left].
  destruct (PyInt.parse _) as [year|]; [|by left].
  destruct ((1900 <=? year) && (year <=? 2030)) eqn:Hr; [|by left].
  apply andb_prop in Hr as [H1%Z.leb_le H2%Z.leb_le]. right. split.
  - apply str_of_Z_is_year. lia.
  - exists year. split; [by apply parse_str_of_Z_year | lia].
Qed.

Lemma year_in_line_ok context l y :
  Forall (λ y, is_year y = true) l →
  year_in_line context l = Some y → stored_year_ok 2030 y.
Proof.
  induction 1 as [|x l Hx Hl IH]; cbn [year_in_line]; [done|].
  destruct (PyInt.parse x) as [n|] eqn:Hp; [|done].
  destruct ((1900 <=? n) && (n <=? 2030)) eqn:Hr; [|done].
  apply andb_prop in Hr as [H1%Z.leb_le H2%Z.leb_le].
  assert (stored_year_ok 2030 x) as Hok by (right; eauto).
  destruct (Py.contains_any publication_keywords context);
    [intros [= Heq]; by rewrite <- Heq|].
  destruct ((1980 <=? n) && (n <=? 2030)); [intros [= Heq]; by rewrite <- Heq | done].
Qed.

Lemma year_in_lines_ok lines : stored_year_ok 2030 (year_in_lines lines).
Proof.
  induction lines as [|line lines IH]; cbn [year_in_lines]; [by left|].
  destruct (year_in_line _ _) as [y|] eqn:Hy; [|done].
  eapply year_in_line_ok; [apply findall_four_digits | done].
Qed.

Lemma year_from_text_ok text : stored_year_ok 2030 (_extract_year_from_text text).
Proof.
  unfold _extract_year_from_text.
  destruct (negb (nonempty text)); [by left | apply year_in_lines_ok].
Qed.

(** The year and the authors of the text pass. *)
Lemma text_metadata_year pdf_reader :
  ∃ y, _extract_text_based_metadata pdf_reader !! "year" = Some (VStr y) ∧
       stored_year_ok 2030 y.
Proof.
  unfold _extract_text_based_metadata.
  destruct (negb (nonempty _)); [exists EmptyString; split; [done | by left]|].
  match goal with
  | |- context [_extract_year_from_text ?t] =>
      exists (_extract_year_from_text t); split; [|apply year_from_text_ok]
  end.
  rewrite lookup_insert_ne by done.
  assert (∀ m : gmap string pyval, m !! "year" = Some empty →
            (if negb (Val.truthy (Val.get m "year" empty))
             then <["year" := vs (_extract_year_from_text
                    (first_pages_text (take 3 (page_texts pdf_reader))))]> m
             else m) !! "year"
            = Some (vs (_extract_year_from_text
                    (first_pages_text (take 3 (page_texts pdf_reader)))))) as Hset.
  { intros m Hm. unfold Val.get. rewrite Hm. simpl. apply lookup_insert_eq. }
  apply Hset. rewrite !lookup_insert_ne by done.
  destruct (_extract_authors_from_text _);
    destruct (nonempty (_extract_title_from_text _));
    rewrite ?lookup_insert_ne by done; done.
Qed.

Lemma text_metadata_authors pdf_reader :
  ∃ l, _extract_text_based_metadata pdf_reader !! "authors" = Some (VList l).
Proof.
  unfold _extract_text_based_metadata.
  destruct (negb (nonempty _)); [by exists []|].
  rewrite lookup_insert_ne by done.
  match goal with
  | |- context [if ?c then <["year" := ?v]> ?m else ?m] =>
      assert ((if c then <["year" := v]> m else m) !! "authors" = m !! "authors")
        as -> by (destruct c; [by rewrite lookup_insert_ne | done])
  end.
  rewrite !lookup_insert_ne by done.
  destruct (_extract_authors_from_text _) as [|a l] eqn:Ha.
  - exists []. by destruct (nonempty (_extract_title_from_text _));
                  rewrite ?lookup_insert_ne by done.
  - exists (a :: l). by rewrite lookup_insert_eq.
Qed.

(** The first pass. *)
Lemma container_lookup pdf_reader k :
  k ≠ "num_pages" →
  container_metadata pdf_reader !! k =
    match info pdf_reader with
    | Some document_info =>
        if bool_decide (document_info = ∅) then blank_metadata !! k
        else from_document_info document_info blank_metadata !! k
    | None => blank_metadata !! k
    end.
Proof.
  intros Hk. unfold container_metadata. rewrite lookup_insert_ne by done.
  destruct (info pdf_reader) as [di|]; [|done]. by destruct (bool_decide _).
Qed.

Lemma set_when_unset md k (v : pyval) :
  md !! k = Some empty →
  (if negb (Val.truthy (Val.get md k empty)) then <[k := v]> md else md) !! k
    = Some v.
Proof. intros Hm. unfold Val.get. rewrite Hm. apply lookup_insert_eq. Qed.

Lemma set_when_unset_ne md k k' (v : pyval) :
  k ≠ k' →
  (if negb (Val.truthy (Val.get md k empty)) then <[k := v]> md else md) !! k'
    = md !! k'.
Proof. intros Hk. destruct (negb _); [by rewrite lookup_insert_ne | done]. Qed.

Lemma if_insert_ne (c : bool) md k k' (v : pyval) :
  k ≠ k' → (if c then <[k := v]> md else md) !! k' = md !! k'.
Proof. intros Hk. destruct c; [by rewrite lookup_insert_ne | done]. Qed.

Lemma blank_year : blank_metadata !! "year" = Some empty.
Proof. vm_compute. reflexivity. Qed.

Lemma blank_author : blank_metadata !! "author" = Some empty.
Proof. vm_compute. reflexivity. Qed.

Lemma blank_authors : blank_metadata !! "authors" = Some (VList []).
Proof. vm_compute. reflexivity. Qed.

Lemma document_info_year di :
  ∃ y, from_document_info di blank_metadata !! "year" = Some (VStr y) ∧
       stored_year_ok 2030 y.
Proof.
  unfold from_document_info. cbv zeta.
  eexists. split; [|apply year_from_date_ok].
  apply set_when_unset.
  rewrite !lookup_insert_ne by discriminate.
  rewrite if_insert_ne by discriminate.
  rewrite lookup_insert_ne by discriminate.
  destruct (nonempty (Py.strip (info_get di "/Author")));
    rewrite ?lookup_insert_ne by discriminate; apply blank_year.
Qed.

Lemma container_year pdf_reader :
  ∃ y, container_metadata pdf_reader !! "year" = Some (VStr y) ∧
       stored_year_ok 2030 y.
Proof.
  rewrite container_lookup by done.
  destruct (info pdf_reader) as [di|];
    [destruct (bool_decide _)|]; try apply document_info_year;
    exists EmptyString; (split; [done | by left]).
Qed.

Lemma nonempty_false s : nonempty s = false → s = EmptyString.
Proof. by destruct s. Qed.

Lemma document_info_author di :
  from_document_info di blank_metadata !! "author"
    = Some (VStr (Py.strip (info_get di "/Author"))) ∧
  ∃ l, from_document_info di blank_metadata !! "authors" = Some (VList l).
Proof.
  unfold from_document_info. cbv zeta.
  rewrite !set_when_unset_ne by discriminate.
  rewrite !lookup_insert_ne by discriminate.
  rewrite !if_insert_ne by discriminate.
  rewrite !lookup_insert_ne by discriminate.
  destruct (nonempty (Py.strip (info_get di "/Author"))) eqn:Hraw.
  - rewrite lookup_insert_eq. rewrite lookup_insert_ne by discriminate.
    rewrite lookup_insert_eq. split; [done | by eexists].
  - rewrite !lookup_insert_ne by discriminate.
    rewrite blank_author, blank_authors, (nonempty_false _ Hraw).
    split; [done | by eexists].
Qed.

Lemma container_author pdf_reader :
  container_metadata pdf_reader !! "author" = Some (VStr (raw_author pdf_reader)) ∧
  ∃ l, container_metadata pdf_reader !! "authors" = Some (VList l).
Proof.
  rewrite !container_lookup by done. unfold raw_author.
  destruct (info pdf_reader) as [di|]; [|split; [done | by exists []]].
  destruct (bool_decide (di = ∅)) eqn:Hdi; [|apply document_info_author].
  apply bool_decide_eq_true in Hdi as ->. split; [done | by exists []].
Qed.

(** The two loops of the merge. *)
Lemma prefer_text_ne text_md md key k :
  key ≠ k → prefer_text text_md md key !! k = md !! k.
Proof.
  intros Hk. unfold prefer_text.
  destruct (_ && _); [by rewrite lookup_insert_ne | done].
Qed.

Lemma prefer_text_eq text_md md key :
  prefer_text text_md md key !! key = md !! key ∨
  (prefer_text text_md md key !! key = Some (Val.get text_md key empty)).
Proof.
  unfold prefer_text. destruct (_ && _); [right; apply lookup_insert_eq | by left].
Qed.

Lemma fill_from_text_ne text_md md key k :
  key ≠ k → fill_from_text text_md md key !! k = md !! k.
Proof.
  intros Hk. unfold fill_from_text.
  destruct (_ && _); [by rewrite lookup_insert_ne | done].
Qed.

(** What the loops leave under a key of the first loop and under the key
    author. *)
Definition after_loops (pdf_md text_md : gmap string pyval) : gmap string pyval :=
  foldl (fill_from_text text_md)
    (foldl (prefer_text text_md) pdf_md
       ["title"; "authors"; "doi"; "journal"; "year"; "abstract"])
    ["volume"; "issue"; "pages"; "publisher"; "keywords"].

Lemma after_loops_year pdf_md text_md :
  after_loops pdf_md text_md !! "year" = pdf_md !! "year" ∨
  after_loops pdf_md text_md !! "year" = Some (Val.get text_md "year" empty).
Proof.
  unfold after_loops. cbn [foldl].
  rewrite !fill_from_text_ne by done. rewrite prefer_text_ne by done.
  destruct (prefer_text_eq text_md
              (prefer_text text_md (prefer_text text_md (prefer_text text_md
                 (prefer_text text_md pdf_md "title") "authors") "doi") "journal")
              "year") as [H|H]; [left | by right].
  rewrite H. by rewrite !prefer_text_ne by done.
Qed.

Lemma after_loops_authors pdf_md text_md :
  after_loops pdf_md text_md !! "authors" = pdf_md !! "authors" ∨
  after_loops pdf_md text_md !! "authors" = Some (Val.get text_md "authors" empty).
Proof.
  unfold after_loops. cbn [foldl].
  rewrite !fill_from_text_ne by done. rewrite !prefer_text_ne by done.
  destruct (prefer_text_eq text_md (prefer_text text_md pdf_md "title") "authors")
    as [H|H]; [left | by right].
  rewrite H. by rewrite !prefer_text_ne by done.
Qed.

Lemma after_loops_author pdf_md text_md :
  after_loops pdf_md text_md !! "author" = pdf_md !! "author".
Proof.
  unfold after_loops. cbn [foldl].
  rewrite !fill_from_text_ne by done. by rewrite !prefer_text_ne by done.
Qed.

Lemma merge_unfold pdf_md text_md :
  _merge_metadata pdf_md text_md =
    let merged := after_loops pdf_md text_md in
    if Val.truthy (Val.get merged "authors" VNone)
       && negb (Val.truthy (Val.get merged "author" VNone))
    then author ← join_value (Val.get merged "authors" VNone);
         Some (<["author" := vs author]> merged)
    else Some merged.
Proof. reflexivity. Qed.

Lemma merged_year pdf_reader :
  _extract_metadata pdf_reader !! "year" = container_metadata pdf_reader !! "year" ∨
  _extract_metadata pdf_reader !! "year"
    = _extract_text_based_metadata pdf_reader !! "year".
Proof.
  unfold _extract_metadata. rewrite merge_unfold. cbv zeta.
  set (pdf_md := container_metadata pdf_reader).
  set (text_md := _extract_text_based_metadata pdf_reader).
  assert (after_loops pdf_md text_md !! "year" = pdf_md !! "year" ∨
          after_loops pdf_md text_md !! "year" = text_md !! "year") as Hloops.
  { destruct (after_loops_year pdf_md text_md) as [H|H]; [by left | right].
    rewrite H. destruct (text_metadata_year pdf_reader) as (y & Hy & _).
    fold text_md in Hy. unfold Val.get. by rewrite Hy. }
  destruct (_ && _); [|done].
  destruct (join_value _); simpl; [|by left].
  by rewrite lookup_insert_ne by done.
Qed.

End Metadata.

(** C5, as the code has it.  The year stored in the metadata of a document
    is empty or has four digits that read as a number between 1900 and
    2030, the bound written in the extraction passes. *)
Theorem stored_year_between_1900_and_2030 :
  ∀ pdf_reader : Library.PdfReader,
    ∃ y : string,
      Library._extract_metadata pdf_reader !! "year" = Some (VStr y) ∧
      stored_year_ok 2030 y.
Proof.
  intros pdf_reader.
  destruct (merged_year pdf_reader) as [H|H]; rewrite H.
  - apply container_year.
  - apply text_metadata_year.
Qed.

(** With the year 2026 as the current year, a document dated 2029 by its
    creation date is stored with the year 2029. *)
Lemma stored_year_after_current_year :
  (Library.add_pdf {| Library.library := [] |} "future.pdf" future_dated_reader).1
    = true ∧
  Library._extract_metadata future_dated_reader !! "year" = Some (VStr "2029") ∧
  ¬ stored_year_ok 2026 "2029".
Proof.
  split; [by vm_compute|]. split; [by vm_compute|].
  intros [H|(_ & n & Hn & Hr)]; [done|].
  vm_compute in Hn. injection Hn as <-. lia.
Qed.

(** C6, as the code has it.  When the document information gives an author
    string, the field author is that string as given, whatever the list
    authors holds; when it gives none, the field author is the list authors
    joined by a comma and a space as soon as that list is not empty. *)
Theorem author_field_from_container_or_authors :
  ∀ pdf_reader : Library.PdfReader,
    let md := Library._extract_metadata pdf_reader in
    (nonempty (raw_author pdf_reader) = true →
       md !! "author" = Some (VStr (raw_author pdf_reader))) ∧
    (nonempty (raw_author pdf_reader) = false →
       ∀ l, md !! "authors" = Some (VList l) → l ≠ [] →
            md !! "author" = Some (VStr (Py.join ", " l))).
Proof.
  intros pdf_reader md. subst md.
  unfold Library._extract_metadata. rewrite merge_unfold. cbv zeta.
  set (pdf_md := Library.container_metadata pdf_reader).
  set (text_md := Library._extract_text_based_metadata pdf_reader).
  destruct (container_author pdf_reader) as [Hauthor [l0 Hauthors]].
  fold pdf_md in Hauthor, Hauthors.
  pose proof (after_loops_author pdf_md text_md) as Ha. rewrite Hauthor in Ha.
  assert (∃ l1, after_loops pdf_md text_md !! "authors" = Some (VList l1))
    as [l1 Hl1].
  { destruct (after_loops_authors pdf_md text_md) as [H|H]; rewrite H.
    - by exists l0.
    - destruct (text_metadata_authors pdf_reader) as [l Hl]. fold text_md in Hl.
      exists l. unfold Val.get. by rewrite Hl. }
  unfold Val.get. rewrite Ha, Hl1. simpl. split.
  - intros Hraw. destruct (raw_author pdf_reader) as [|c a]; [done|]. simpl.
    rewrite andb_false_r. simpl. done.
  - intros Hraw l Hl Hne. destruct (raw_author pdf_reader) as [|c a]; [|done].
    simpl in *. destruct l1 as [|x l1]; simpl in *.
    + rewrite Hl1 in Hl. by injection Hl as <-.
    + rewrite lookup_insert_ne in Hl by done. rewrite Hl1 in Hl.
      injection Hl as <-. apply lookup_insert_eq.
Qed.

(** The document information names two authors separated by a semicolon:
    the list authors holds the two names and the field author keeps the
    string with its semicolon, which is not the list joined by commas. *)
Lemma author_field_diverges_from_authors :
  Library._extract_metadata future_dated_reader !! "authors"
    = Some (VList ["John Smith"; "Jane Doe"]) ∧
  Library._extract_metadata future_dated_reader !! "author"
    = Some (VStr "John Smith; Jane Doe") ∧
  Py.join ", " ["John Smith"; "Jane Doe"] ≠ "John Smith; Jane Doe".
Proof. split; [by vm_compute|]. split; [by vm_compute|]. by vm_compute. Qed.

(** ** The citation processor *)

(** C9.  When the processor has no client, [process_paper] returns a
    result, whatever the paper, the library, the bibliography, the
    formatter and the steps of the configured path: the original and the
    cited text are the paper unchanged, the list of citations is empty, the
    statistics are zero and the key error is set.  The processor and the
    formatter are left as they were. *)
Theorem unconfigured_client_passes_text_through :
  ∀ (steps : Processor.Steps) (self : Processor.CitationProcessor)
    (paper_content : string) (library : Library.PDFLibrary)
    (parser : option Bibliography.BibliographyParser)
    (formatter : option CitationFormatter),
    Processor.client self = None →
    Processor.process_paper steps self paper_content library parser formatter
      = (Some {| Processor.original_text := paper_content;
                 Processor.cited_text := paper_content;
                 Processor.citations := [];
                 Processor.references := EmptyString;
                 Processor.stats := Processor.no_stats;
                 Processor.error := Some "OpenAI client not configured" |},
         self, formatter).
Proof.
  intros steps self paper_content library parser formatter Hclient.
  unfold Processor.process_paper. by rewrite Hclient.
Qed.

(** A processor built while one of the three settings is missing has no
    client. *)
Lemma init_without_setting endpoint api_key deployment :
  nonempty endpoint && nonempty api_key && nonempty deployment = false →
  Processor.client (Processor.__init__ endpoint api_key deployment) = None.
Proof. intros H. unfold Processor.__init__. simpl. by rewrite H. Qed.

Lemma unconfigured_client_witness :
  Processor.process_paper idle_steps (Processor.__init__ "https://x" EmptyString "gpt")
    "Ice melts." {| Library.library := [] |} None None
  = (Some {| Processor.original_text := "Ice melts.";
             Processor.cited_text := "Ice melts.";
             Processor.citations := [];
             Processor.references := EmptyString;
             Processor.stats := Processor.no_stats;
             Processor.error := Some "OpenAI client not configured" |},
     Processor.__init__ "https://x" EmptyString "gpt", None).
Proof.
  apply (unconfigured_client_passes_text_through idle_steps
           (Processor.__init__ "https://x" EmptyString "gpt")).
  by apply init_without_setting.
Defined.

Section Authority.

Import Processor.

Ltac float_leaf := vm_compute; repeat split; reflexivity.

Lemma capped_score_bounds (claim_type : string) (filename : pyval)
    (metadata : gmap string pyval) :
  let result :=
    default 0.5%float
      (score ← type_score claim_type filename metadata 0.5%float;
       let score := add_if (Val.truthy (Val.get metadata "author" VNone)) 0.05 score in
       let score := add_if (Val.truthy (Val.get metadata "title" VNone)) 0.05 score in
       Some (cap score)) in
  PrimFloat.leb 0.5 result = true ∧ PrimFloat.leb result 1.0 = true ∧
  PrimFloat.leb 0.4 result = true.
Proof.
  unfold type_score, year_test, filename_has.
  generalize (Val.truthy (Val.get metadata "author" VNone)).
  generalize (Val.truthy (Val.get metadata "title" VNone)).
  generalize (Val.truthy (Val.get metadata "journal" VNone)).
  generalize (Val.truthy (Val.get metadata "doi" VNone)).
  generalize (Val.truthy (Val.get metadata "publisher" VNone)).
  generalize (Val.as_str (Val.get metadata "publisher" (VStr EmptyString))).
  generalize (year_of metadata).
  generalize (Val.as_str filename).
  intros name year publisher has_publisher has_doi has_journal has_title has_author.
  repeat match goal with
         | |- context [bool_decide ?P] => destruct (bool_decide P)
         end;
    destruct has_publisher, has_doi, has_journal, has_title, has_author;
    destruct name as [name|], year as [year|], publisher as [publisher|];
    cbn [mbind option_bind default add_if];
    repeat match goal with
           | |- context [Py.contains_any ?l ?s] => destruct (Py.contains_any l s)
           | |- context [Py.contains ?l ?s] => destruct (Py.contains l s)
           | |- context [Z.leb ?a ?b] => destruct (Z.leb a b)
           end;
    float_leaf.
Qed.

End Authority.

(** C10.  The authority of a source is between 0.5 and 1.0, whatever the
    source, the claim type, the processor and the bibliography; it is 0.5
    when an exception is raised inside; so it is never below the threshold
    0.4 of the claim type OPINION_INTERPRETATION, and every source is
    appropriate for that type. *)
Theorem authority_between_half_and_one :
  ∀ (self : Processor.CitationProcessor) (source : gmap string pyval)
    (claim_type : string) (parser : option Bibliography.BibliographyParser),
    let score :=
      Processor._calculate_source_authority self source claim_type parser in
    PrimFloat.leb 0.5 score = true ∧ PrimFloat.leb score 1.0 = true ∧
    Processor._is_source_appropriate_for_claim_type source
      "OPINION_INTERPRETATION" score = true.
Proof.
  intros self source claim_type parser.
  unfold Processor._calculate_source_authority,
    Processor._is_source_appropriate_for_claim_type.
  change (Processor.threshold_of "OPINION_INTERPRETATION") with 0.4%float.
  destruct (Processor.library_metadata self _) as [metadata|];
    [|by vm_compute].
  cbn [mbind option_bind].
  match goal with
  | |- context [Processor.type_score claim_type ?f ?m] =>
      exact (capped_score_bounds claim_type f m)
  end.
Qed.
(** ** More on the formatter *)

Section InText.

Implicit Types (self : CitationFormatter) (a y p : string).

Ltac str_norm := repeat (rewrite ?app_String, ?app_empty_l).
Ltac eat_chr :=
  eapply reaches_seq;
  [ eapply reaches_chr; [eassumption | reflexivity] | intros ? ? ].
Ltac eat_star u :=
  eapply reaches_seq;
  [ eapply (reaches_star _ _ u);
    [try reflexivity; try assumption | str_norm; eassumption]
  | intros ? ? ].
Ltac eat_plus u :=
  eapply reaches_seq;
  [ eapply (reaches_plus _ u); [try done | try reflexivity; try assumption | str_norm; eassumption]
  | intros ? ? ].
Ltac eat_year y :=
  eapply reaches_seq;
  [ eapply (reaches_year y); [assumption | eassumption] | intros ? ? ].
Ltac last_chr := eapply reaches_chr; [eassumption | reflexivity].

Lemma apa_in_text_accepts_year a y :
  nonempty a = true → one_line a = true → is_year y = true →
  _validate_apa_format ("(" +:+ a +:+ ", " +:+ y +:+ ")") = true.
Proof.
  intros Ha%nonempty_ne Hl Hy. unfold _validate_apa_format, matches_any.
  cbn [existsb]. rewrite !orb_true_iff. right. right. left.
  apply bool_decide_eq_true.
  str_norm. eapply reaches_anchored. intros st Hr.
  eat_chr. eat_plus a. eat_chr. eat_star " ". eat_year y. last_chr.
Qed.

Lemma apa_in_text_accepts_nd a :
  nonempty a = true → one_line a = true →
  _validate_apa_format ("(" +:+ a +:+ ", n.d." +:+ ")") = true.
Proof.
  intros Ha%nonempty_ne Hl. unfold _validate_apa_format, matches_any.
  cbn [existsb]. rewrite !orb_true_iff. right. right. right. left.
  apply bool_decide_eq_true.
  str_norm. eapply reaches_anchored. intros st Hr.
  eat_chr. eat_plus a. eat_chr. eat_star " ".
  eapply (reaches_lit "n.d.)" _ EmptyString). eassumption.
Qed.

Lemma chicago_in_text_accepts a y :
  nonempty a = true → one_line a = true → is_year y = true →
  _validate_chicago_format ("(" +:+ a +:+ " " +:+ y +:+ ")") = true.
Proof.
  intros Ha%nonempty_ne Hl Hy. unfold _validate_chicago_format, matches_any.
  cbn [existsb]. rewrite !orb_true_iff. right. left.
  apply bool_decide_eq_true.
  str_norm. eapply reaches_anchored. intros st Hr.
  eat_chr. eat_plus a. eat_plus " ". eat_year y. last_chr.
Qed.

Lemma mla_in_text_accepts a p :
  nonempty a = true → one_line a = true → is_number p = true →
  _validate_mla_format ("(" +:+ a +:+ " " +:+ p +:+ ")") = true.
Proof.
  intros Ha%nonempty_ne Hl [Hp%nonempty_ne Hd]%andb_prop.
  unfold _validate_mla_format, matches_any.
  cbn [existsb]. rewrite !orb_true_iff. right. left.
  apply bool_decide_eq_true.
  str_norm. eapply reaches_anchored. intros st Hr.
  eat_chr. eat_plus a. eat_plus " ". eat_plus p. last_chr.
Qed.

Lemma ieee_in_text_accepts p :
  is_number p = true → _validate_ieee_format ("[" +:+ p +:+ "]") = true.
Proof.
  intros [Hp%nonempty_ne Hd]%andb_prop.
  unfold _validate_ieee_format, matches_any.
  cbn [existsb]. rewrite !orb_true_iff. left.
  apply bool_decide_eq_true.
  str_norm. eapply reaches_anchored. intros st Hr.
  eat_chr. eat_plus p. last_chr.
Qed.

Lemma uint_digits d :
  all_chars Py.is_digit (NilEmpty.string_of_uint d) = true.
Proof. induction d; simpl; try done. Qed.

Lemma str_of_Z_is_number n : 0 ≤ n → is_number (Py.str_of_Z n) = true.
Proof.
  intros Hn. destruct n as [|q|q]; [done| |lia].
  unfold Py.str_of_Z, is_number. simpl.
  destruct (Pos.to_uint q) eqn:Hq; try done;
    simpl; apply uint_digits.
Qed.

End InText.

Section FormatterState.

Implicit Types (self : CitationFormatter).

Lemma ieee_in_text_label self f page :
  (_format_ieee_in_text self f page).1
    = ieee_label (default (_citation_counter self + 1) (_citation_map self !! f)) page.
Proof.
  unfold _format_ieee_in_text, ieee_label.
  destruct (_citation_map self !! f) as [n|] eqn:Hf; simpl.
  - rewrite Hf. simpl. by destruct (given page).
  - rewrite lookup_insert_eq. simpl. by destruct (given page).
Qed.

End FormatterState.

(** Switching to IEEE restarts the numbering, whatever the formatter held:
    the next in-text citation carries number 1.  Switching to another style
    keeps the counter and the map. *)
Theorem set_style_restarts_ieee_numbering :
  ∀ (self : CitationFormatter) (filename : string) (page : option string),
    (_format_ieee_in_text (set_style self IEEE) filename page).1
      = ieee_label 1 page ∧
    ∀ new_style, new_style ≠ IEEE →
      _citation_counter (set_style self new_style) = _citation_counter self ∧
      _citation_map (set_style self new_style) = _citation_map self.
Proof.
  intros self filename page. split.
  - rewrite ieee_in_text_label. simpl. by rewrite lookup_empty.
  - intros new_style Hs. by destruct new_style.
Qed.

(** An in-text citation changes the formatter under IEEE only; under any
    style it keeps the style and the year, raises the counter by one at
    most, and leaves every number of the map as it was. *)
Theorem in_text_citation_keeps_numbers :
  ∀ (self : CitationFormatter) (source_info : SourceInfo) (page : option string),
    let after := (format_in_text_citation self source_info page).2 in
    (style self ≠ IEEE → after = self) ∧
    style after = style self ∧ current_year after = current_year self ∧
    _citation_counter self ≤ _citation_counter after ≤ _citation_counter self + 1 ∧
    ∀ f n, _citation_map self !! f = Some n → _citation_map after !! f = Some n.
Proof.
  intros self source_info page. unfold format_in_text_citation.
  destruct (_extract_author self _ _ true) as [author|]; simpl;
    [|repeat split; (done || lia)].
  destruct (_extract_year self _ _) as [year|]; simpl;
    [|repeat split; (done || lia)].
  destruct (style self) eqn:Hs; simpl; try (repeat split; (done || lia)).
  unfold _format_ieee_in_text.
  destruct (_citation_map self !! default EmptyString (si_filename source_info))
    as [n|] eqn:Hf; destruct (given page); simpl;
    repeat split; try done; try lia;
    intros f n Hn; (destruct (decide (default EmptyString (si_filename source_info) = f))
      as [<-|Hne]; [congruence | by rewrite lookup_insert_ne]).
Qed.

(** A year that is no string makes both formatting functions fall back:
    the citation is the filename, or the words Unknown source when the
    source has none, and the in-text citation is (Unknown, n.d.) under
    every style, with the formatter untouched. *)
Theorem formatting_falls_back_on_error :
  ∀ (self : CitationFormatter) (source_info : SourceInfo) (page : option string),
    Val.as_str (Val.get (si_metadata source_info) "year" (VStr EmptyString)) = None →
    format_citation self source_info
      = default "Unknown source" (si_filename source_info) ∧
    format_in_text_citation self source_info page = ("(Unknown, n.d.)", self).
Proof.
  intros self source_info page Hyear.
  unfold format_citation, format_in_text_citation, _extract_year.
  rewrite Hyear. simpl.
  split; by destruct (_extract_author self _ _ _).
Qed.

Lemma formatting_falls_back_witness :
  format_citation (__init__ MLA 2026)
    {| si_filename := Some "doe.pdf"; si_metadata := year_as_number |} = "doe.pdf" ∧
  format_in_text_citation (__init__ MLA 2026)
    {| si_filename := Some "doe.pdf"; si_metadata := year_as_number |} (Some "4")
    = ("(Unknown, n.d.)", __init__ MLA 2026).
Proof.
  apply (formatting_falls_back_on_error (__init__ MLA 2026)
           {| si_filename := Some "doe.pdf"; si_metadata := year_as_number |}
           (Some "4")).
  reflexivity.
Defined.

(** The in-text citation that the formatter writes is accepted by the
    validator of its style in the shapes the validator knows: without page
    under APA and IEEE, without page and with author and year under
    Chicago, with a numeric page under MLA. *)
Theorem in_text_round_trip :
  ∀ (self : CitationFormatter) (source_info : SourceInfo)
    (author : string) (year page : option string),
    current_year self ≤ 9999 →
    numbers_from_zero self →
    _extract_author self (si_metadata source_info)
      (default EmptyString (si_filename source_info)) true = Some author →
    _extract_year self (si_metadata source_info)
      (default EmptyString (si_filename source_info)) = Some year →
    one_line author = true →
    in_text_accepted (style self) author year page = true →
    validate_citation_format self
      (format_in_text_citation self source_info page).1 = true.
Proof.
  intros self source_info author year page Hcur [Hc Hm] Ha Hy Hl Hacc.
  unfold format_in_text_citation. rewrite Ha, Hy. simpl.
  assert (∀ y, year = Some y → is_year y = true) as Hyear.
  { intros y ->. by apply (extract_year_is_year self _ _ y Hcur Hy). }
  unfold validate_citation_format. unfold in_text_accepted in Hacc.
  destruct (style self) eqn:Hs; simpl.
  - (* APA *)
    apply negb_true_iff in Hacc. unfold _format_apa_in_text, with_page_p.
    rewrite Hacc.
    destruct (nonempty author) eqn:Hna; [|by vm_compute].
    destruct year as [y|]; simpl.
    + rewrite (is_year_nonempty y) by auto. simpl.
      rewrite !app_assoc_str. by apply apa_in_text_accepts_year; auto.
    + rewrite !app_assoc_str. by apply apa_in_text_accepts_nd.
  - (* MLA *)
    destruct page as [p|]; [|done]. unfold _format_mla_in_text. simpl.
    assert (nonempty p = true) as Hp by (by apply andb_prop in Hacc as [? _]).
    rewrite Hp.
    destruct (nonempty author) eqn:Hna.
    + by apply mla_in_text_accepts.
    + by apply (mla_in_text_accepts "Unknown").
  - (* Chicago *)
    apply andb_prop in Hacc as [[Hpage%negb_true_iff Hna]%andb_prop Hgy].
    destruct year as [y|]; [|done].
    unfold _format_chicago_in_text. rewrite Hna, Hgy, Hpage. simpl.
    rewrite !app_assoc_str. by apply chicago_in_text_accepts; auto.
  - (* IEEE *)
    apply negb_true_iff in Hacc.
    rewrite ieee_in_text_label. unfold ieee_label. rewrite Hacc.
    apply ieee_in_text_accepts, str_of_Z_is_number.
    destruct (_citation_map self !! _) as [n|] eqn:Hn; simpl; [by eapply Hm | lia].
Qed.

Lemma in_text_round_trip_witness :
  validate_citation_format (__init__ CHICAGO 2026)
    (format_in_text_citation (__init__ CHICAGO 2026) mla_full_source None).1 = true.
Proof.
  apply (in_text_round_trip (__init__ CHICAGO 2026) mla_full_source
           "Doe" (Some "2020") None).
  - simpl. lia.
  - split; [simpl; lia | intros f n H; simpl in H; by rewrite lookup_empty in H].
  - by vm_compute.
  - by vm_compute.
  - reflexivity.
  - reflexivity.
Defined.

Section ReferenceListMore.

Variable self : CitationFormatter.

Implicit Types (c : Citation) (cs : list Citation) (refs seen : list string).

Lemma collect_step c cs refs seen :
  collect_references self (c :: cs) refs seen =
    if adds self seen c
    then collect_references self cs
           (refs ++ [shown (_format_full_reference self c)]) (source c :: seen)
    else collect_references self cs refs seen.
Proof.
  unfold adds. cbn [collect_references].
  destruct (nonempty (source c) && negb (bool_decide (source c ∈ seen))); [|done].
  destruct (_format_full_reference self c) as [ref|]; [|done]. simpl.
  by destruct (nonempty ref).
Qed.

Lemma collect_nothing cs : ∀ refs seen,
  (∀ c, c ∈ cs → nonempty (source c) = false
                 ∨ given (_format_full_reference self c) = false) →
  collect_references self cs refs seen = refs.
Proof.
  induction cs as [|c cs IH]; intros refs seen Hall; [done|].
  rewrite collect_step.
  assert (adds self seen c = false) as ->.
  { unfold adds. destruct (Hall c) as [-> | ->]; [left | done |].
    by rewrite andb_false_r. }
  apply IH. intros c' Hc'. apply Hall. by right.
Qed.


End ReferenceListMore.

(** The reference list is the empty string, under every style and whatever
    the numbering map holds, when each citation has an empty source or no
    reference. *)
Theorem reference_list_empty_without_references :
  ∀ (self : CitationFormatter) (citations : list Citation),
    (∀ c, c ∈ citations →
       nonempty (source c) = false
       ∨ given (_format_full_reference self c) = false) →
    format_reference_list self citations = EmptyString.
Proof.
  intros self citations Hall. unfold format_reference_list.
  by rewrite (collect_nothing self citations [] [] Hall).
Qed.

Lemma reference_list_empty_witness :
  format_reference_list cited_a_b [cite EmptyString; cite EmptyString] = EmptyString.
Proof.
  apply (reference_list_empty_without_references cited_a_b
           [cite EmptyString; cite EmptyString]).
  intros c Hc. left.
  repeat (apply elem_of_cons in Hc as [->|Hc]); try reflexivity.
  by apply elem_of_nil in Hc.
Defined.



Section Sorting.

Implicit Types (x y : string) (l : list string).

Lemma insert_sorted_perm x l : insert_sorted x l ≡ₚ x :: l.
Proof.
  induction l as [|y l IH]; simpl; [done|].
  destruct (String.leb x y); [done|]. rewrite IH. apply Permutation_swap.
Qed.

Lemma sort_strings_perm l : sort_strings l ≡ₚ l.
Proof.
  induction l as [|x l IH]; simpl; [done|].
  unfold sort_strings in *. simpl. rewrite insert_sorted_perm. by rewrite IH.
Qed.

Lemma insert_sorted_ascending x l : ascending l → ascending (insert_sorted x l).
Proof.
  induction l as [|y l IH]; intros Hl; [done|]. simpl.
  destruct (String.leb x y) eqn:Hxy; [by split|].
  assert (String.leb y x = true) as Hyx
    by (destruct (String.leb_total x y); congruence).
  destruct l as [|z l]; [by split|].
  destruct Hl as [Hyz Hl]. specialize (IH Hl). simpl in *.
  destruct (String.leb x z); by split.
Qed.

Lemma sort_strings_ascending l : ascending (sort_strings l).
Proof.
  induction l as [|x l IH]; [done|]. by apply insert_sorted_ascending.
Qed.

End Sorting.

(** Under APA, MLA and Chicago the reference list is the header of the
    style, then the collected references, each once, in ascending order. *)
Theorem reference_list_in_ascending_order :
  ∀ (self : CitationFormatter) (citations : list Citation),
    style self ≠ IEEE →
    collect_references self citations [] [] ≠ [] →
    ∃ listed : list string,
      ascending listed ∧
      listed ≡ₚ collect_references self citations [] [] ∧
      format_reference_list self citations
        = Py.strip (_get_reference_header self +:+ Py.nl +:+ Py.nl
                    +:+ plain_lines listed).
Proof.
  intros self citations Hs Hrefs.
  exists (sort_strings (collect_references self citations [] [])).
  split; [apply sort_strings_ascending|]. split; [apply sort_strings_perm|].
  unfold format_reference_list.
  destruct (collect_references self citations [] []); [done|].
  by destruct (style self).
Qed.

Lemma reference_list_in_order_witness :
  ∃ listed : list string,
    ascending listed ∧
    listed ≡ₚ collect_references (__init__ MLA 2026) [cite "B.pdf"; cite "A.pdf"] [] [] ∧
    format_reference_list (__init__ MLA 2026) [cite "B.pdf"; cite "A.pdf"]
      = Py.strip (_get_reference_header (__init__ MLA 2026) +:+ Py.nl +:+ Py.nl
                  +:+ plain_lines listed).
Proof.
  apply (reference_list_in_ascending_order (__init__ MLA 2026)
           [cite "B.pdf"; cite "A.pdf"]).
  - by vm_compute.
  - by vm_compute.
Defined.

Section YearRange.

Implicit Types (d : Decimal.uint) (acc : positive) (s : string).

Lemma digits_of_uint_acc d : ∀ acc,
  PyInt.digits (Z.pos acc) true (NilEmpty.string_of_uint d)
    = Some (Z.pos (Pos.of_uint_acc d acc)).
Proof.
  induction d; intros acc; [done|..];
    cbn [NilEmpty.string_of_uint PyInt.digits Pos.of_uint_acc];
    match goal with
    | |- context [Py.is_digit ?c] => change (Py.is_digit c) with true
    end; cbv iota;
    match goal with
    | |- PyInt.digits ?z true _ = Some (Z.pos (Pos.of_uint_acc _ ?q)) =>
        replace z with (Z.pos q) by (unfold PyInt.digit_val; simpl; lia)
    end; apply IHd.
Qed.

Lemma digits_of_uint d : ∀ prev_digit,
  d ≠ Decimal.Nil ∨ prev_digit = true →
  PyInt.digits 0 prev_digit (NilEmpty.string_of_uint d)
    = Some (Z.of_N (Pos.of_uint d)).
Proof.
  induction d; intros prev_digit Hd;
    [by destruct Hd as [?| ->] | ..];
    cbn [NilEmpty.string_of_uint PyInt.digits Pos.of_uint];
    match goal with
    | |- context [Py.is_digit ?c] => change (Py.is_digit c) with true
    end; cbv iota;
    [ apply IHd; by right | ..];
    match goal with
    | |- PyInt.digits ?z true _ = Some (Z.of_N (N.pos (Pos.of_uint_acc _ ?q))) =>
        change z with (Z.pos q)
    end; apply digits_of_uint_acc.
Qed.

Lemma digit_not_space (c : ascii) : Py.is_digit c = true → Py.is_space c = false.
Proof. by destruct c as [[] [] [] [] [] [] [] []]. Qed.

Lemma rstrip_digits s : all_chars Py.is_digit s = true → Py.rstrip s = s.
Proof.
  induction s as [|c s IH]; [done|]. simpl. intros [Hc Hs]%andb_prop.
  rewrite (IH Hs). destruct s; [|done].
  by rewrite (digit_not_space c Hc).
Qed.

Lemma parse_digits s :
  nonempty s = true → all_chars Py.is_digit s = true →
  PyInt.parse s = PyInt.digits 0 false s.
Proof.
  intros Hne Hall. unfold PyInt.parse, Py.strip.
  destruct s as [|c s]; [done|].
  pose proof Hall as Hall'. simpl in Hall'. apply andb_prop in Hall' as [Hc _].
  cbn [Py.lstrip]. rewrite (digit_not_space c Hc), (rstrip_digits _ Hall).
  by destruct c as [[] [] [] [] [] [] [] []].
Qed.

Lemma parse_str_of_Z n : 0 ≤ n → PyInt.parse (Py.str_of_Z n) = Some n.
Proof.
  intros Hn. destruct n as [|q|q]; [done| |lia].
  pose proof (str_of_Z_is_number (Z.pos q) Hn) as [Hne Hall]%andb_prop.
  rewrite parse_digits by done.
  unfold Py.str_of_Z. cbn [Z.to_int NilZero.string_of_int].
  pose proof (Unsigned.to_uint_nonnil q) as Hnil.
  pose proof (Unsigned.of_to q) as Hof.
  destruct (Pos.to_uint q) as [|d|d|d|d|d|d|d|d|d|d] eqn:Hq; [done|..];
    cbn [NilZero.string_of_uint];
    (rewrite digits_of_uint by (by left)); by rewrite Hof.
Qed.


Lemma in_range_between self n :
  year_in_range self n = true → year_between self (Py.str_of_Z n).
Proof.
  unfold year_in_range. intros [H1 H2]%andb_prop.
  apply Z.leb_le in H1, H2. exists n. split; [|lia].
  apply parse_str_of_Z. lia.
Qed.

Lemma first_valid_year_between self l y :
  first_valid_year self l = Some y → year_between self y.
Proof.
  induction l as [|x l IH]; simpl; [done|].
  destruct (PyInt.parse x) as [n|] eqn:Hx; [|done].
  destruct (year_in_range self n) eqn:Hn; [|done].
  intros [= <-]. exists n. split; [done|].
  unfold year_in_range in Hn. apply andb_prop in Hn as [H1 H2].
  apply Z.leb_le in H1, H2. lia.
Qed.

End YearRange.

(** A year that [_extract_year] returns reads as a number between 1900 and
    the current year of the formatter, wherever it was found: in the year
    of the metadata, in the creation date or in the filename. *)
Theorem extracted_year_not_after_current_year :
  ∀ (self : CitationFormatter) (metadata : gmap string pyval)
    (filename y : string),
    _extract_year self metadata filename = Some (Some y) →
    ∃ n, PyInt.parse y = Some n ∧ 1900 ≤ n ≤ current_year self.
Proof.
  intros self metadata filename y Hy.
  cut (year_between self y); [done|]. revert Hy. unfold _extract_year.
  destruct (Val.as_str _) as [raw|]; [|done]. simpl.
  pose proof (first_valid_year_between self (Re.findall1 four_digits filename) y) as Hfn.
  pose proof (in_range_between self) as Hin.
  intros [= H]. revert H.
  repeat case_match; intros [= <-] || intros ?; eauto.
Qed.

Lemma extracted_year_witness :
  ∃ n, PyInt.parse "2020" = Some n ∧ 1900 ≤ n ≤ current_year (__init__ APA 2026).
Proof.
  apply (extracted_year_not_after_current_year (__init__ APA 2026) ∅
           "Smith_2020_2031.pdf" "2020").
  by vm_compute.
Defined.
(** ** More on the source library *)

Section LibraryStore.

Import Library.

Implicit Types (self : PDFLibrary) (l : list (string * PdfData)) (name : string)
  (data : PdfData).

Lemma lookup_assign_eq name data l :
  lookup_name name (assign name data l) = Some data.
Proof.
  induction l as [|[k v] l IH]; simpl.
  - by rewrite bool_decide_eq_true_2.
  - destruct (bool_decide (k = name)) eqn:Hk; simpl; by rewrite Hk.
Qed.

Lemma lookup_assign_ne name other data l :
  other ≠ name → lookup_name other (assign name data l) = lookup_name other l.
Proof.
  intros Hne. induction l as [|[k v] l IH]; simpl.
  - by rewrite bool_decide_eq_false_2.
  - destruct (bool_decide (k = name)) eqn:Hk; simpl.
    + apply bool_decide_eq_true in Hk as ->.
      by rewrite (bool_decide_eq_false_2 (name = other)) by done.
    + by rewrite IH.
Qed.

Lemma assign_names name data l :
  (assign name data l).*1 = if bool_decide (name ∈ l.*1) then l.*1 else l.*1 ++ [name].
Proof.
  induction l as [|[k v] l IH]; [done|]. cbn [assign].
  rewrite (fmap_cons fst (k, v) l). cbn [fst].
  destruct (bool_decide (k = name)) eqn:Hk.
  - apply bool_decide_eq_true in Hk as ->. rewrite fmap_cons. cbn [fst].
    by rewrite bool_decide_eq_true_2 by left.
  - apply bool_decide_eq_false in Hk. rewrite fmap_cons. cbn [fst]. rewrite IH.
    destruct (bool_decide (name ∈ l.*1)) eqn:Hin.
    + apply bool_decide_eq_true in Hin.
      by rewrite bool_decide_eq_true_2 by (by right).
    + apply bool_decide_eq_false in Hin.
      rewrite bool_decide_eq_false_2; [done|].
      intros [?|?]%elem_of_cons; congruence.
Qed.

Lemma lookup_name_filter_eq name l :
  lookup_name name (filter (λ entry, entry.1 ≠ name) l) = None.
Proof.
  induction l as [|[k v] l IH]; [done|].
  rewrite filter_cons. simpl. destruct (decide (k ≠ name)) as [Hk|Hk]; [|done].
  simpl. by rewrite bool_decide_eq_false_2.
Qed.

Lemma lookup_name_filter_ne name other l :
  other ≠ name →
  lookup_name other (filter (λ entry, entry.1 ≠ name) l) = lookup_name other l.
Proof.
  intros Hne. induction l as [|[k v] l IH]; [done|].
  rewrite filter_cons. simpl. destruct (decide (k ≠ name)) as [Hk|Hk]; simpl.
  - by rewrite IH.
  - apply dec_stable in Hk as ->.
    by rewrite (bool_decide_eq_false_2 (name = other)) by done.
Qed.

Lemma filter_names name l :
  (filter (λ entry : string * PdfData, entry.1 ≠ name) l).*1
    = filter (λ k, k ≠ name) l.*1.
Proof.
  induction l as [|[k v] l IH]; [done|].
  rewrite (fmap_cons fst (k, v) l). cbn [fst]. rewrite !filter_cons. cbn [fst].
  destruct (decide (k ≠ name)); [|done].
  rewrite fmap_cons. cbn [fst]. by rewrite IH.
Qed.

Lemma lookup_name_None name l : lookup_name name l = None ↔ name ∉ l.*1.
Proof.
  induction l as [|[k v] l IH]; simpl.
  - split; [intros _; apply not_elem_of_nil | done].
  - rewrite not_elem_of_cons. destruct (bool_decide (k = name)) eqn:Hk.
    + apply bool_decide_eq_true in Hk. split; [done | intros [? _]; congruence].
    + apply bool_decide_eq_false in Hk. rewrite IH. split; [|tauto].
      intros ?. split; [congruence | done].
Qed.

Lemma read_pages_blank pages : ∀ n,
  (read_pages n pages).1 = [] ↔ forallb blank_page pages = true.
Proof.
  induction pages as [|page pages IH]; intros n; [done|].
  cbn [read_pages forallb]. specialize (IH (n + 1)).
  destruct (read_pages (n + 1) pages) as [content text] eqn:Hr. simpl in IH.
  destruct page as [page_text|]; simpl.
  - destruct (nonempty (Py.strip page_text)); simpl; [split; done | done].
  - done.
Qed.

Lemma read_pages_numbers pages : ∀ first n text,
  (n, text) ∈ (read_pages first pages).1 ↔
  first ≤ n ∧ ∃ raw, pages !! Z.to_nat (n - first) = Some (Some raw) ∧
                     text = Py.strip raw ∧ nonempty text = true.
Proof.
  induction pages as [|page pages IH]; intros first n text.
  - simpl. split; [by intros ?%elem_of_nil | by intros (_ & raw & ? & _)].
  - cbn [read_pages]. specialize (IH (first + 1) n text).
    destruct (read_pages (first + 1) pages) as [content full] eqn:Hr.
    cbn [fst] in IH.
    assert (first < n → Z.to_nat (n - first) = S (Z.to_nat (n - (first + 1))))
      as Hlater by lia.
    assert ((n, text) ∈ content ↔
            first < n ∧ ∃ raw, (page :: pages) !! Z.to_nat (n - first)
                                 = Some (Some raw) ∧
                               text = Py.strip raw ∧ nonempty text = true) as Hin.
    { rewrite IH. split; intros (Hn & raw & Hl & Ht);
        (split; [lia|]); exists raw; (split; [|done]).
      - by rewrite Hlater by lia.
      - by rewrite Hlater in Hl by lia. }
    clear IH. split.
    + intros H.
      assert ((n, text) ∈ content ∨
              ∃ raw, page = Some raw ∧ n = first ∧ text = Py.strip raw
                     ∧ nonempty text = true) as [Hc | (raw & -> & -> & -> & Hne)].
      { destruct page as [page_text|]; [|by left].
        destruct (nonempty (Py.strip page_text)) eqn:Hne; [|by left].
        cbn [fst] in H. apply elem_of_cons in H as [[= -> ->] | H]; [right | by left].
        by exists page_text. }
      * apply Hin in Hc as (Hn & Hraw). split; [lia | done].
      * split; [lia|]. exists raw. by replace (Z.to_nat (first - first)) with O by lia.
    + intros (Hn & raw & Hl & -> & Hne).
      destruct (decide (n = first)) as [-> | Hnf].
      * replace (Z.to_nat (first - first)) with O in Hl by lia.
        injection Hl as ->. rewrite Hne. cbn [fst]. by left.
      * assert ((n, Py.strip raw) ∈ content) as Hc
          by (apply Hin; split; [lia | by exists raw]).
        destruct page as [page_text|]; [|done].
        destruct (nonempty (Py.strip page_text)); [by right | done].
Qed.

End LibraryStore.

(** A document that [add_pdf] accepts is found under its name, with the
    metadata extracted from it; the documents of other names are found as
    before. *)
Theorem added_document_is_found :
  ∀ (self : Library.PDFLibrary) (name : string) (pdf_reader : Library.PdfReader),
    (Library.add_pdf self name pdf_reader).1 = true →
    (∃ data,
       Library.get_pdf_content (Library.add_pdf self name pdf_reader).2 name
         = Some data ∧
       Library.filename data = name ∧
       Library.pdf_metadata data = Library._extract_metadata pdf_reader) ∧
    ∀ other, other ≠ name →
      Library.get_pdf_content (Library.add_pdf self name pdf_reader).2 other
        = Library.get_pdf_content self other.
Proof.
  intros self name pdf_reader. unfold Library.add_pdf, Library.get_pdf_content.
  destruct (Library.read_pages 1 _) as [[|page content] text]; [done|].
  intros _. cbn [snd Library.library]. split.
  - eexists. split; [apply lookup_assign_eq | done].
  - intros other Hne. by apply lookup_assign_ne.
Qed.

Lemma added_document_witness :
  (∃ data,
     Library.get_pdf_content
       (Library.add_pdf {| Library.library := [] |} "paper.pdf" one_sentence_reader).2
       "paper.pdf" = Some data ∧
     Library.filename data = "paper.pdf" ∧
     Library.pdf_metadata data = Library._extract_metadata one_sentence_reader) ∧
  ∀ other, other ≠ "paper.pdf" →
    Library.get_pdf_content
      (Library.add_pdf {| Library.library := [] |} "paper.pdf" one_sentence_reader).2
      other
    = Library.get_pdf_content {| Library.library := [] |} other.
Proof.
  apply (added_document_is_found {| Library.library := [] |} "paper.pdf"
           one_sentence_reader).
  reflexivity.
Defined.

(** [add_pdf] refuses a document exactly when no page of it has readable
    text, and then leaves the library as it was. *)
Theorem add_pdf_needs_readable_text :
  ∀ (self : Library.PDFLibrary) (name : string) (pdf_reader : Library.PdfReader),
    (Library.add_pdf self name pdf_reader).1
      = negb (forallb blank_page (Library.page_texts pdf_reader)) ∧
    ((Library.add_pdf self name pdf_reader).1 = false →
     (Library.add_pdf self name pdf_reader).2 = self).
Proof.
  intros self name pdf_reader. unfold Library.add_pdf.
  pose proof (read_pages_blank (Library.page_texts pdf_reader) 1) as Hblank.
  destruct (Library.read_pages 1 _) as [[|page content] text]; cbn [fst snd] in *.
  - split; [|done]. destruct Hblank as [-> _]; done.
  - split; [|done].
    destruct (forallb blank_page _); [|done]. destruct Hblank as [_ H]. by specialize (H eq_refl).
Qed.

(** After [remove_pdf] the name is not found, whether it was there or not;
    the flag tells whether it was; the other documents are found as
    before. *)
Theorem removed_document_is_gone :
  ∀ (self : Library.PDFLibrary) (name : string),
    Library.get_pdf_content (Library.remove_pdf self name).2 name = None ∧
    (Library.remove_pdf self name).1
      = bool_decide (is_Some (Library.get_pdf_content self name)) ∧
    ∀ other, other ≠ name →
      Library.get_pdf_content (Library.remove_pdf self name).2 other
        = Library.get_pdf_content self other.
Proof.
  intros self name. unfold Library.remove_pdf, Library.get_pdf_content.
  destruct (Library.lookup_name name (Library.library self)) as [data|] eqn:Hl;
    cbn [fst snd Library.library].
  - split; [apply lookup_name_filter_eq|]. split; [done|].
    intros other Hne. by apply lookup_name_filter_ne.
  - split; [done|]. split; [|done].
    symmetry. apply bool_decide_eq_false. by intros [? ?].
Qed.

(** The names of the library stay distinct: [add_pdf] puts a new name at
    the end and keeps the place of a name that is there, [remove_pdf] takes
    the name out. *)
Theorem library_names_stay_distinct :
  ∀ (self : Library.PDFLibrary) (name : string) (pdf_reader : Library.PdfReader),
    NoDup (Library.get_library_files self) →
    NoDup (Library.get_library_files (Library.add_pdf self name pdf_reader).2) ∧
    NoDup (Library.get_library_files (Library.remove_pdf self name).2) ∧
    (∀ f, f ∈ Library.get_library_files (Library.remove_pdf self name).2 ↔
          f ∈ Library.get_library_files self ∧ f ≠ name) ∧
    (∀ f, f ∈ Library.get_library_files (Library.add_pdf self name pdf_reader).2 ↔
          f ∈ Library.get_library_files self ∨
          (f = name ∧ (Library.add_pdf self name pdf_reader).1 = true)).
Proof.
  intros self name pdf_reader Hnd. unfold Library.get_library_files in *.
  assert (∀ f, f ∈ (Library.library (Library.remove_pdf self name).2).*1 ↔
               f ∈ (Library.library self).*1 ∧ f ≠ name) as Hrem.
  { intros f. unfold Library.remove_pdf.
    destruct (Library.lookup_name name (Library.library self)) as [data|] eqn:Hl;
      cbn [snd Library.library].
    - rewrite filter_names, list_elem_of_filter. tauto.
    - apply lookup_name_None in Hl. split; [|tauto].
      intros Hf. split; [done|]. congruence. }
  split; [|split; [|split; [done|]]].
  - unfold Library.add_pdf.
    destruct (Library.read_pages 1 _) as [[|page content] text]; [done|].
    cbn [snd Library.library]. rewrite assign_names.
    destruct (bool_decide (name ∈ (Library.library self).*1)) eqn:Hin; [done|].
    apply bool_decide_eq_false in Hin. apply NoDup_app. split; [done|].
    split; [|apply NoDup_singleton].
    intros x Hx ->%list_elem_of_singleton. done.
  - unfold Library.remove_pdf.
    destruct (Library.lookup_name name (Library.library self)); [|done].
    cbn [snd Library.library]. rewrite filter_names. by apply NoDup_filter.
  - intros f. unfold Library.add_pdf.
    destruct (Library.read_pages 1 _) as [[|page content] text];
      cbn [fst snd Library.library].
    + split; [by left | by intros [? | [_ ?]]].
    + rewrite assign_names.
      destruct (bool_decide (name ∈ (Library.library self).*1)) eqn:Hin.
      * apply bool_decide_eq_true in Hin. split; [by left|].
        intros [? | [-> _]]; done.
      * rewrite elem_of_app, list_elem_of_singleton. split; [|tauto].
        intros [?|?]; [by left | by right].
Qed.

Lemma library_names_witness :
  NoDup (Library.get_library_files
           (Library.add_pdf one_sentence_library "paper.pdf" one_sentence_reader).2) ∧
  NoDup (Library.get_library_files
           (Library.remove_pdf one_sentence_library "paper.pdf").2) ∧
  (∀ f, f ∈ Library.get_library_files
              (Library.remove_pdf one_sentence_library "paper.pdf").2 ↔
        f ∈ Library.get_library_files one_sentence_library ∧ f ≠ "paper.pdf") ∧
  (∀ f, f ∈ Library.get_library_files
              (Library.add_pdf one_sentence_library "paper.pdf" one_sentence_reader).2 ↔
        f ∈ Library.get_library_files one_sentence_library ∨
        (f = "paper.pdf" ∧
         (Library.add_pdf one_sentence_library "paper.pdf" one_sentence_reader).1
           = true)).
Proof.
  apply (library_names_stay_distinct one_sentence_library "paper.pdf"
           one_sentence_reader).
  vm_compute. apply NoDup_singleton.
Defined.

(** The pages stored for a document keep the number they have in the
    document, counted from 1, also after pages without text: the stored
    pages are the pages whose stripped text is not empty, each with that
    text. *)
Theorem stored_pages_keep_document_numbers :
  ∀ (self : Library.PDFLibrary) (name : string) (pdf_reader : Library.PdfReader)
    (data : Library.PdfData),
    (Library.add_pdf self name pdf_reader).1 = true →
    Library.get_pdf_content (Library.add_pdf self name pdf_reader).2 name
      = Some data →
    ∀ n text,
      (n, text) ∈ Library.pdf_pages data ↔
      1 ≤ n ∧ ∃ raw, Library.page_texts pdf_reader !! Z.to_nat (n - 1)
                       = Some (Some raw) ∧
                     text = Py.strip raw ∧ nonempty text = true.
Proof.
  intros self name pdf_reader data. unfold Library.add_pdf, Library.get_pdf_content.
  pose proof (read_pages_numbers (Library.page_texts pdf_reader) 1) as Hnum.
  destruct (Library.read_pages 1 _) as [[|page content] text0]; [done|].
  intros _. cbn [snd Library.library]. rewrite lookup_assign_eq.
  intros [= <-]. apply Hnum.
Qed.

Lemma stored_pages_witness :
  (3, "Ice melts.") ∈ [(3, "Ice melts.")] ↔
  1 ≤ 3 ∧ ∃ raw, Library.page_texts blank_first_reader !! Z.to_nat (3 - 1)
                   = Some (Some raw) ∧
                 "Ice melts." = Py.strip raw ∧ nonempty "Ice melts." = true.
Proof.
  apply (stored_pages_keep_document_numbers {| Library.library := [] |} "ice.pdf"
           blank_first_reader
           {| Library.filename := "ice.pdf";
              Library.full_text := " Ice melts. " +:+ Py.nl;
              Library.pdf_pages := [(3, "Ice melts.")];
              Library.pdf_metadata := Library._extract_metadata blank_first_reader |}).
  - reflexivity.
  - reflexivity.
Defined.

Section Search.

Import Library.

Implicit Types (s t text query : string) (n : nat).

Lemma len_take n s : (Py.len (Py.take n s) ≤ n)%nat.
Proof.
  unfold Py.len. revert s. induction n as [|n IH]; intros [|c s]; simpl; try lia.
  specialize (IH s). lia.
Qed.

Lemma search_pages_spec query max_results name data pages : ∀ results,
  (length results < Z.to_nat (Z.max 1 max_results))%nat →
  match search_pages query max_results name data pages results with
  | inl found =>
      found = take (Z.to_nat (Z.max 1 max_results))
                (results ++ matches_of query name data pages)
      ∧ (Z.to_nat (Z.max 1 max_results)
         ≤ length (results ++ matches_of query name data pages))%nat
  | inr found =>
      found = results ++ matches_of query name data pages
      ∧ (length found < Z.to_nat (Z.max 1 max_results))%nat
  end.
Proof.
  induction pages as [|page_data pages IH]; intros results Hlen.
  - simpl. unfold matches_of. simpl. by rewrite app_nil_r.
  - cbn [search_pages]. unfold matches_of. rewrite filter_cons.
    destruct (page_matches query page_data) eqn:Hm.
    + rewrite decide_True by done. rewrite fmap_cons.
      fold (matches_of query name data pages).
      destruct (max_results <=? Z.of_nat (length (results ++ [search_result query name data page_data])))
        eqn:Hmax.
      * apply Z.leb_le in Hmax. rewrite length_app in Hmax. simpl in Hmax.
        replace (results ++ search_result query name data page_data
                            :: matches_of query name data pages)
          with ((results ++ [search_result query name data page_data])
                ++ matches_of query name data pages)
          by (by rewrite <- app_assoc).
        split.
        -- rewrite take_app_le by (rewrite length_app; simpl; lia).
           rewrite take_ge; [done|]. rewrite length_app. simpl. lia.
        -- rewrite !length_app. simpl. lia.
      * apply Z.leb_gt in Hmax. rewrite length_app in Hmax. simpl in Hmax.
        specialize (IH (results ++ [search_result query name data page_data])).
        rewrite <- app_assoc in IH. simpl in IH. apply IH.
        rewrite length_app. simpl. lia.
    + rewrite decide_False by done. by apply IH.
Qed.

Lemma search_files_spec query max_results files : ∀ results,
  (length results < Z.to_nat (Z.max 1 max_results))%nat →
  search_files query max_results files results
    = take (Z.to_nat (Z.max 1 max_results))
        (results ++ concat ((λ entry : string * PdfData,
                               matches_of query entry.1 entry.2 (pdf_pages entry.2))
                            <$> files)).
Proof.
  induction files as [|[name data] files IH]; intros results Hlen.
  - simpl. rewrite app_nil_r. rewrite take_ge; [done | lia].
  - cbn [search_files]. rewrite fmap_cons. cbn [concat fst snd].
    pose proof (search_pages_spec query max_results name data (pdf_pages data)
                  results Hlen) as Hp.
    destruct (search_pages query max_results name data (pdf_pages data) results)
      as [found|found].
    + destruct Hp as [-> Hge]. rewrite app_assoc.
      symmetry. by apply take_app_le.
    + destruct Hp as [-> Hlt]. rewrite IH by done. by rewrite app_assoc.
Qed.

End Search.

(** The text that [search_content] shows for a match is short: at most
    the context on both sides, the query and the two ellipses. *)
Theorem search_context_is_bounded :
  ∀ (text query : string) (context_length : nat),
    (Py.len (Library._extract_context text query context_length)
     ≤ 2 * context_length + Py.len query + 6)%nat.
Proof.
  intros text query n. unfold Library._extract_context, Library.slice.
  destruct (Py.find _ _) as [match_pos|].
  - set (start := (match_pos - n)%nat).
    set (end_ := Nat.min (Py.len text) (match_pos + Py.len query + n)).
    pose proof (len_take (end_ - start) (Py.drop start text)) as Hlen.
    assert (end_ - start ≤ 2 * n + Py.len query)%nat by lia.
    destruct (0 <? start)%nat, (end_ <? Py.len text)%nat;
      rewrite ?len_app; change (Py.len "...") with 3%nat; lia.
  - pose proof (len_take (n * 2) text). lia.
Qed.

(** [search_content] returns the first matching pages, in the order of the
    library and of the pages: [max_results] of them, and one when
    [max_results] is zero or negative, since the limit is tested after a
    result is added. *)
Theorem search_returns_first_matches :
  ∀ (self : Library.PDFLibrary) (query : string) (max_results : Z),
    Library.search_content self query max_results
      = take (Z.to_nat (Z.max 1 max_results)) (matching_pages self query).
Proof.
  intros self query max_results. unfold Library.search_content, matching_pages.
  rewrite search_files_spec by (simpl; lia). done.
Qed.

Section Cleaning.

Import Library.

Implicit Types (s a k : string).

Lemma split_strip_stripped delimiter s a :
  a ∈ split_strip delimiter s → Py.strip a = a.
Proof.
  unfold split_strip. intros [_ Hin]%list_elem_of_filter.
  apply list_elem_of_fmap in Hin as (part & -> & _). apply strip_stripped.
Qed.

Lemma split_on_first_stripped delimiters s a :
  a ∈ split_on_first delimiters s → Py.strip a = a.
Proof.
  induction delimiters as [|d delimiters IH]; simpl; [by intros ?%elem_of_nil|].
  destruct (Py.contains d s); [apply split_strip_stripped | done].
Qed.

End Cleaning.

(** The authors and the keywords read from the document information are
    stripped of surrounding white space and longer than two characters;
    shorter fragments are dropped. *)
Theorem parsed_names_are_stripped_and_long :
  ∀ (field entry : string),
    (entry ∈ Library._parse_authors field →
       (2 < Py.len entry)%nat ∧ Py.strip entry = entry) ∧
    (entry ∈ Library._extract_keywords field →
       (2 < Py.len entry)%nat ∧ Py.strip entry = entry).
Proof.
  intros field entry. split.
  - unfold Library._parse_authors.
    destruct (negb (nonempty field)); [by intros ?%elem_of_nil|].
    intros [Hlen Hin]%list_elem_of_filter.
    apply andb_prop in Hlen as [_ Hlen]. apply Nat.ltb_lt in Hlen.
    split; [done|].
    apply list_elem_of_fmap in Hin as (author & -> & _).
    apply strip_stripped.
  - unfold Library._extract_keywords.
    destruct (negb (nonempty field)); [by intros ?%elem_of_nil|].
    intros [Hlen Hin]%list_elem_of_filter. apply Nat.ltb_lt in Hlen.
    split; [done|].
    destruct (Library.split_on_first _ field) as [|kw kws] eqn:Hs.
    + apply list_elem_of_singleton in Hin as ->. apply strip_stripped.
    + rewrite <- Hs in Hin. by apply split_on_first_stripped in Hin.
Qed.

Section Merge.

Import Library.

(** A string that is none of the listed ones. *)
Ltac not_listed :=
  let H := fresh in
  intros H; repeat (apply elem_of_cons in H as [H|H]; [discriminate H|]);
  by apply elem_of_nil in H.

Implicit Types (md text_md : gmap string pyval) (k key : string).

Lemma fill_from_text_keep text_md md key :
  Val.truthy (Val.get md key VNone) = true → fill_from_text text_md md key = md.
Proof. intros H. unfold fill_from_text. by rewrite H, andb_false_r. Qed.

Lemma foldl_fill_ne text_md keys k : ∀ md,
  k ∉ keys → foldl (fill_from_text text_md) md keys !! k = md !! k.
Proof.
  induction keys as [|key keys IH]; intros md Hk; [done|].
  apply not_elem_of_cons in Hk as [Hne Hk]. simpl.
  rewrite IH by done. by apply fill_from_text_ne.
Qed.

Lemma foldl_prefer_ne text_md keys k : ∀ md,
  k ∉ keys → foldl (prefer_text text_md) md keys !! k = md !! k.
Proof.
  induction keys as [|key keys IH]; intros md Hk; [done|].
  apply not_elem_of_cons in Hk as [Hne Hk]. simpl.
  rewrite IH by done. by apply prefer_text_ne.
Qed.

Lemma foldl_fill_keep text_md keys k : ∀ md,
  Val.truthy (Val.get md k VNone) = true →
  foldl (fill_from_text text_md) md keys !! k = md !! k.
Proof.
  induction keys as [|key keys IH]; intros md Hk; [done|]. simpl.
  destruct (decide (key = k)) as [->|Hne].
  - rewrite fill_from_text_keep by done. by apply IH.
  - rewrite IH.
    + by apply fill_from_text_ne.
    + unfold Val.get. by rewrite fill_from_text_ne.
Qed.

Lemma after_loops_keep pdf_md text_md k :
  k ∉ ["title"; "authors"; "doi"; "journal"; "year"; "abstract"] →
  (Val.truthy (Val.get pdf_md k VNone) = true
   ∨ k ∉ ["volume"; "issue"; "pages"; "publisher"; "keywords"; "author"]) →
  after_loops pdf_md text_md !! k = pdf_md !! k.
Proof.
  intros Hfirst Hk. unfold after_loops. destruct Hk as [Hk|Hk].
  - rewrite foldl_fill_keep; [by apply foldl_prefer_ne|].
    unfold Val.get. by rewrite foldl_prefer_ne.
  - rewrite foldl_fill_ne; [by apply foldl_prefer_ne|].
    intros Hin. apply Hk.
    repeat (apply elem_of_cons in Hin as [->|Hin]; [by repeat constructor|]).
    by apply elem_of_nil in Hin.
Qed.

(** The merge of the two passes fills holes only, outside the six keys on
    which the text may win: under volume, issue, pages, publisher and
    keywords a value of the document information that is true stays; the
    author string stays when it is not empty; every other key keeps what
    the first pass gave.  So it is in the dict that [_extract_metadata]
    goes on with, which is the dict of the first pass when the merge
    raises. *)
Theorem merge_fills_only_holes :
  ∀ (pdf_metadata text_metadata : gmap string pyval) (k : string),
    k ∉ ["title"; "authors"; "doi"; "journal"; "year"; "abstract"] →
    (Val.truthy (Val.get pdf_metadata k VNone) = true
     ∨ k ∉ ["volume"; "issue"; "pages"; "publisher"; "keywords"; "author"]) →
    default pdf_metadata (_merge_metadata pdf_metadata text_metadata) !! k
      = pdf_metadata !! k.
Proof.
  intros pdf_metadata text_metadata k Hfirst Hk.
  rewrite merge_unfold. cbv zeta.
  pose proof (after_loops_keep pdf_metadata text_metadata k Hfirst Hk) as Hloops.
  destruct (Val.truthy (Val.get (after_loops _ _) "authors" VNone)
            && negb (Val.truthy (Val.get (after_loops _ _) "author" VNone))) eqn:Hc;
    [|done].
  destruct (join_value _) as [author|]; [|done]. simpl.
  destruct (decide (k = "author")) as [->|Hne]; [|by rewrite lookup_insert_ne].
  exfalso. destruct Hk as [Hk|Hk]; [|apply Hk; by repeat constructor].
  apply andb_prop in Hc as [_ Hc]. apply negb_true_iff in Hc.
  unfold Val.get in Hc, Hk. rewrite Hloops in Hc. congruence.
Qed.

Lemma merge_fills_only_holes_witness :
  default paged_metadata (_merge_metadata paged_metadata paged_text_metadata)
    !! "pages" = paged_metadata !! "pages".
Proof.
  apply (merge_fills_only_holes paged_metadata paged_text_metadata "pages").
  - not_listed.
  - left. reflexivity.
Defined.

(** The key num_pages of the stored metadata is the number of pages of the
    document, with or without text: the merge does not touch it. *)
Theorem num_pages_counts_every_page :
  ∀ pdf_reader : PdfReader,
    _extract_metadata pdf_reader !! "num_pages"
      = Some (VInt (Z.of_nat (length (page_texts pdf_reader)))).
Proof.
  intros pdf_reader. unfold _extract_metadata.
  assert (container_metadata pdf_reader !! "num_pages"
          = Some (VInt (Z.of_nat (length (page_texts pdf_reader))))) as Hc
    by apply lookup_insert_eq.
  rewrite merge_unfold. cbv zeta.
  pose proof (after_loops_keep (container_metadata pdf_reader)
                (_extract_text_based_metadata pdf_reader) "num_pages") as Hk.
  rewrite Hc in Hk.
  destruct (_ && _); [|simpl; apply Hk; [not_listed | right; not_listed]].
  destruct (join_value _) as [author|]; simpl; [|done].
  rewrite lookup_insert_ne by done. apply Hk; [not_listed | right; not_listed].
Qed.

End Merge.

Section ChunkSize.

Import Library.

Implicit Types (s t text current : string) (n : nat).

Lemma len_lstrip s : (Py.len (Py.lstrip s) ≤ Py.len s)%nat.
Proof.
  unfold Py.len. induction s as [|c s IH]; simpl; [lia|].
  destruct (Py.is_space c); simpl; lia.
Qed.

Lemma len_rstrip s : (Py.len (Py.rstrip s) ≤ Py.len s)%nat.
Proof.
  unfold Py.len. induction s as [|c s IH]; simpl; [lia|].
  destruct (Py.rstrip s); [destruct (Py.is_space c)|]; simpl in *; lia.
Qed.

Lemma len_strip s : (Py.len (Py.strip s) ≤ Py.len s)%nat.
Proof.
  unfold Py.strip. pose proof (len_rstrip (Py.lstrip s)). pose proof (len_lstrip s). lia.
Qed.

Lemma strip_nonempty_solid s :
  nonempty (Py.strip s) = true → starts_solid (Py.strip s).
Proof.
  unfold Py.strip. destruct (lstrip_solid s) as [->|Hs]; [done|].
  intros _. by apply rstrip_solid.
Qed.

Lemma flushed_made text n current :
  current_made text n current → nonempty current = true →
  chunk_made text n (Py.strip current).
Proof.
  intros [->|[Hsolid Hsize]] Hne; [done|].
  split; [by apply strip_solid|]. split; [apply strip_stripped|].
  destruct Hsize as [(sentence & Hin & ->)|Hlen].
  - left. exists sentence. split; [done|]. apply strip_stripped.
  - right. pose proof (len_strip current). lia.
Qed.

Lemma chunk_sentences_made text n sentences : ∀ chunks current,
  (∀ sentence, sentence ∈ sentences → sentence ∈ Re.split sentence_end text) →
  Forall (chunk_made text n) chunks → current_made text n current →
  Forall (chunk_made text n) (chunk_sentences n sentences chunks current).
Proof.
  induction sentences as [|x sentences IH]; intros chunks current Hall Hchunks Hcur.
  - cbn [chunk_sentences]. destruct (nonempty (Py.strip current)) eqn:Hne; [|done].
    apply Forall_app. split; [done|]. apply Forall_singleton.
    apply flushed_made; [done|]. by destruct current.
  - assert (∀ sentence, sentence ∈ sentences → sentence ∈ Re.split sentence_end text)
      as Hall' by (intros sentence Hin; apply Hall; by right).
    assert (x ∈ Re.split sentence_end text) as Hx by (apply Hall; by left).
    cbn [chunk_sentences].
    destruct (nonempty (Py.strip x)) eqn:Hne; cbn [negb]; [|by apply IH].
    pose proof (strip_nonempty_solid x Hne) as Hsolid.
    destruct (nonempty current) eqn:Hcurrent.
    + destruct (n <? Py.len current + Py.len (Py.strip x))%nat eqn:Hfull; cbn [andb].
      * apply IH; [done| |].
        -- apply Forall_app. split; [done|]. apply Forall_singleton.
           by apply flushed_made.
        -- right. split; [done|]. left. by exists x.
      * apply IH; [done | done |]. right.
        destruct Hcur as [->|[Hcs _]]; [done|]. split.
        -- destruct Hcs as (c & w & -> & Hc). exists c. eexists.
           by rewrite app_String.
        -- right. apply Nat.ltb_ge in Hfull. rewrite !len_app.
           change (Py.len " ") with 1%nat. lia.
    + rewrite andb_false_r. apply IH; [done | done |].
      right. split; [done|]. left. by exists x.
Qed.

End ChunkSize.

(** Every chunk of a text is not empty and stripped, and it is one
    sentence of the text or at most one character longer than the chunk
    size: the size is tested without the space that joins two sentences. *)
Theorem chunks_are_sentences_or_short :
  ∀ (text : string) (chunk_size : nat),
    Forall (chunk_made text chunk_size) (Library._split_into_chunks text chunk_size).
Proof.
  intros text chunk_size. unfold Library._split_into_chunks.
  apply chunk_sentences_made; [done | constructor | by left].
Qed.

Section TextFields.

Import Library.

Implicit Types (pdf_reader : PdfReader) (md text_md : gmap string pyval).

Lemma first_doi_kept patterns text : doi_kept (first_doi patterns text).
Proof.
  induction patterns as [|pattern patterns IH]; simpl; [by left|].
  destruct (Re.search pattern text) as [m|]; [|done].
  destruct (7 <? Py.len _)%nat eqn:Hlen; [|done].
  right. by apply Nat.ltb_lt.
Qed.

Lemma extracted_doi_kept text : doi_kept (_extract_doi_from_text text).
Proof.
  unfold _extract_doi_from_text. destruct (negb _); [by left | apply first_doi_kept].
Qed.

Lemma extracted_abstract_kept text : abstract_kept (_extract_abstract text).
Proof.
  unfold _extract_abstract. destruct (negb _); [by left|].
  destruct (Re.search abstract_pattern text) as [m|]; [|by left].
  cbv zeta. destruct (_ && _) eqn:Hlen; [|by left].
  apply andb_prop in Hlen as [H1 H2]. apply Nat.ltb_lt in H1, H2. by right.
Qed.

Lemma text_metadata_doi pdf_reader :
  ∃ doi, _extract_text_based_metadata pdf_reader !! "doi" = Some (VStr doi) ∧
         doi_kept doi.
Proof.
  unfold _extract_text_based_metadata.
  destruct (negb (nonempty _)); [exists EmptyString; split; [done | by left]|].
  eexists. split; [|apply extracted_doi_kept].
  rewrite lookup_insert_ne by done. rewrite set_when_unset_ne by done.
  rewrite !lookup_insert_ne by done.
  destruct (_extract_authors_from_text _);
    destruct (nonempty (_extract_title_from_text _));
    rewrite ?lookup_insert_ne by done; apply lookup_insert_eq.
Qed.

Lemma text_metadata_abstract pdf_reader :
  ∃ abstract,
    _extract_text_based_metadata pdf_reader !! "abstract" = Some (VStr abstract) ∧
    abstract_kept abstract.
Proof.
  unfold _extract_text_based_metadata.
  destruct (negb (nonempty _)); [exists EmptyString; split; [done | by left]|].
  eexists. split; [apply lookup_insert_eq | apply extracted_abstract_kept].
Qed.

Lemma document_info_untouched di k :
  k ∉ ["title"; "author"; "authors"; "subject"; "keywords"; "creator"; "producer";
       "creation_date"; "modification_date"; "year"] →
  from_document_info di blank_metadata !! k = blank_metadata !! k.
Proof.
  intros Hk. unfold from_document_info. cbv zeta.
  assert (∀ k', k' ∈ ["title"; "author"; "authors"; "subject"; "keywords"; "creator";
                      "producer"; "creation_date"; "modification_date"; "year"] →
                k' ≠ k) as Hne by (intros k' Hin ->; done).
  rewrite set_when_unset_ne by (apply Hne; by repeat constructor).
  rewrite !lookup_insert_ne by (apply Hne; by repeat constructor).
  rewrite if_insert_ne by (apply Hne; by repeat constructor).
  rewrite lookup_insert_ne by (apply Hne; by repeat constructor).
  destruct (nonempty (Py.strip (info_get di "/Author")));
    rewrite ?lookup_insert_ne by (apply Hne; by repeat constructor); done.
Qed.

Lemma container_blank pdf_reader k :
  k ∉ ["title"; "author"; "authors"; "subject"; "keywords"; "creator"; "producer";
       "creation_date"; "modification_date"; "year"] →
  k ≠ "num_pages" →
  container_metadata pdf_reader !! k = blank_metadata !! k.
Proof.
  intros Hk Hn. rewrite container_lookup by done.
  destruct (info pdf_reader) as [di|]; [|done].
  destruct (bool_decide (di = ∅)); [done|]. by apply document_info_untouched.
Qed.

Lemma after_loops_doi pdf_md text_md :
  after_loops pdf_md text_md !! "doi" = pdf_md !! "doi" ∨
  after_loops pdf_md text_md !! "doi" = Some (Val.get text_md "doi" empty).
Proof.
  unfold after_loops. cbn [foldl].
  rewrite !fill_from_text_ne by done. rewrite !prefer_text_ne by done.
  destruct (prefer_text_eq text_md
              (prefer_text text_md (prefer_text text_md pdf_md "title") "authors")
              "doi") as [H|H]; [left | by right].
  rewrite H. by rewrite !prefer_text_ne by done.
Qed.

Lemma after_loops_abstract pdf_md text_md :
  after_loops pdf_md text_md !! "abstract" = pdf_md !! "abstract" ∨
  after_loops pdf_md text_md !! "abstract" = Some (Val.get text_md "abstract" empty).
Proof.
  unfold after_loops. cbn [foldl].
  rewrite !fill_from_text_ne by done.
  destruct (prefer_text_eq text_md
              (prefer_text text_md (prefer_text text_md (prefer_text text_md
                 (prefer_text text_md (prefer_text text_md pdf_md "title") "authors")
                 "doi") "journal") "year")
              "abstract") as [H|H]; [left | by right].
  rewrite H. by rewrite !prefer_text_ne by done.
Qed.

Lemma extracted_first_pass_or_loops pdf_reader k :
  k ≠ "author" →
  _extract_metadata pdf_reader !! k = container_metadata pdf_reader !! k ∨
  _extract_metadata pdf_reader !! k
    = after_loops (container_metadata pdf_reader)
        (_extract_text_based_metadata pdf_reader) !! k.
Proof.
  intros Hk. unfold _extract_metadata. rewrite merge_unfold. cbv zeta.
  destruct (_ && _); [|by right].
  destruct (join_value _); simpl; [right; by rewrite lookup_insert_ne | by left].
Qed.

End TextFields.

(** The DOI stored for a document is empty or longer than seven
    characters, and the abstract stored is empty or between 51 and 1999
    characters long: the document information gives neither, and the merge
    keeps what the text pass found or nothing. *)
Theorem stored_doi_and_abstract_lengths :
  ∀ pdf_reader : Library.PdfReader,
    (∃ doi, Library._extract_metadata pdf_reader !! "doi" = Some (VStr doi) ∧
            doi_kept doi) ∧
    (∃ abstract,
       Library._extract_metadata pdf_reader !! "abstract" = Some (VStr abstract) ∧
       abstract_kept abstract).
Proof.
  intros pdf_reader.
  assert (Library.container_metadata pdf_reader !! "doi" = Some Library.empty) as Hd.
  { rewrite container_blank; [done | | done].
    intros H. repeat (apply elem_of_cons in H as [H|H]; [discriminate H|]).
    by apply elem_of_nil in H. }
  assert (Library.container_metadata pdf_reader !! "abstract" = Some Library.empty)
    as Ha.
  { rewrite container_blank; [done | | done].
    intros H. repeat (apply elem_of_cons in H as [H|H]; [discriminate H|]).
    by apply elem_of_nil in H. }
  destruct (text_metadata_doi pdf_reader) as (doi & Htd & Hdoi).
  destruct (text_metadata_abstract pdf_reader) as (abstract & Hta & Habstract).
  split.
  - destruct (extracted_first_pass_or_loops pdf_reader "doi") as [H|H]; [done| |].
    + exists EmptyString. rewrite H, Hd. split; [done | by left].
    + destruct (after_loops_doi (Library.container_metadata pdf_reader)
                  (Library._extract_text_based_metadata pdf_reader)) as [H'|H'].
      * exists EmptyString. rewrite H, H', Hd. split; [done | by left].
      * exists doi. rewrite H, H'. unfold Val.get. rewrite Htd. by split.
  - destruct (extracted_first_pass_or_loops pdf_reader "abstract") as [H|H]; [done| |].
    + exists EmptyString. rewrite H, Ha. split; [done | by left].
    + destruct (after_loops_abstract (Library.container_metadata pdf_reader)
                  (Library._extract_text_based_metadata pdf_reader)) as [H'|H'].
      * exists EmptyString. rewrite H, H', Ha. split; [done | by left].
      * exists abstract. rewrite H, H'. unfold Val.get. rewrite Hta. by split.
Qed.
(** ** More on the bibliography *)

Section EntryShape.

Import Bibliography.

Implicit Types (entry : gmap string pyval) (text s : string).

Lemma stripped_empty : stripped EmptyString.
Proof. reflexivity. Qed.

Lemma shape_blank text : entry_shape text (blank_entry text).
Proof.
  unfold entry_shape, blank_entry. split; [by vm_compute|].
  split; [exists EmptyString; split; [by vm_compute | apply stripped_empty]|].
  split; [exists EmptyString; split; [by vm_compute | by left]|].
  split; [exists "unknown"; split; [by vm_compute | by repeat constructor]|].
  exists []. split; [by vm_compute | constructor].
Qed.

Lemma run_chr p st st' :
  st' ∈ Re.run (Re.Chr p) st →
  ∃ c, Re.rest st = String c (Re.rest st') ∧ p c = true ∧
       Re.pos st' = S (Re.pos st) ∧ Re.caps st' = Re.caps st.
Proof.
  simpl. destruct (Re.rest st) as [|c s'] eqn:Hr; [by intros ?%elem_of_nil|].
  destruct (p c) eqn:Hp; [|by intros ?%elem_of_nil].
  intros ->%list_elem_of_singleton. by exists c.
Qed.

Lemma run_seq r1 r2 st st' :
  st' ∈ Re.run (Re.Seq r1 r2) st →
  ∃ st1, st1 ∈ Re.run r1 st ∧ st' ∈ Re.run r2 st1.
Proof.
  simpl. rewrite list_elem_of_In, in_flat_map. intros (st1 & H1 & H2).
  exists st1. by rewrite !list_elem_of_In.
Qed.

Lemma run_rep p n : ∀ st st',
  st' ∈ Re.run (Re.rep n (Re.Chr p)) st →
  ∃ u, Re.rest st = u +:+ Re.rest st' ∧ Py.len u = n ∧ all_chars p u = true ∧
       Re.pos st' = (Re.pos st + n)%nat ∧ Re.caps st' = Re.caps st.
Proof.
  induction n as [|n IH]; intros st st'.
  - simpl. intros ->%list_elem_of_singleton. exists EmptyString.
    repeat split; (done || lia).
  - cbn [Re.rep]. intros (st1 & H1 & H2)%run_seq.
    apply run_chr in H1 as (c & Hr & Hp & Hpos & Hcaps).
    apply IH in H2 as (u & Hr' & Hlen & Hall & Hpos' & Hcaps').
    exists (String c u). rewrite app_String, Hr, Hr'. simpl. rewrite Hp, Hall.
    unfold Py.len in *. repeat split; try done; try congruence; lia.
Qed.

Lemma take_app_len u t : Py.take (Py.len u) (u +:+ t) = u.
Proof. induction u as [|c u IH]; [by destruct t|]. simpl. by rewrite IH. Qed.

Lemma match_at_run r at_ s m :
  Re.match_at r at_ s = Some m →
  ∃ st', st' ∈ Re.run r {| Re.pos := at_; Re.rest := s; Re.caps := [] |} ∧
         Re.m_caps m = Re.caps st'.
Proof.
  unfold Re.match_at. destruct (Re.run r _) as [|st' l]; [done|].
  intros [= <-]. exists st'. split; [by left | done].
Qed.

Lemma match_year_pattern at_ s m :
  Re.match_at year_pattern at_ s = Some m →
  ∃ y, Re.group m 1 = Some y ∧ is_year y = true.
Proof.
  intros (st' & Hrun & Hcaps)%match_at_run. unfold year_pattern in Hrun.
  cbn [Re.cat] in Hrun.
  apply run_seq in Hrun as (st1 & H1 & Hrun).
  apply run_seq in Hrun as (st2 & H2 & H3).
  apply run_chr in H3 as (_ & _ & _ & _ & Hc3).
  cbn [Re.run] in H2. apply list_elem_of_fmap in H2 as (st2' & -> & H2).
  apply (run_rep _ 4) in H2 as (y & Hr & Hlen & Hall & Hpos & _).
  exists y. unfold Re.group. rewrite Hcaps, Hc3. cbn [Re.caps Re.close_group Re.assoc].
  cbn [Nat.eqb Re.pos Re.rest].
  replace (Re.pos st2' - Re.pos st1)%nat with (Py.len y) by lia.
  rewrite Hr, take_app_len. split; [done|].
  unfold is_year. rewrite Hall, Hlen. done.
Qed.

Lemma search_year_pattern s : ∀ at_ m,
  Re.search_from year_pattern at_ s = Some m →
  ∃ y, Re.group m 1 = Some y ∧ is_year y = true.
Proof.
  induction s as [|c s IH]; intros at_ m; cbn [Re.search_from].
  - destruct (Re.match_at year_pattern at_ EmptyString) as [m'|] eqn:Hm; [|done].
    intros [= <-]. by eapply match_year_pattern.
  - destruct (Re.match_at year_pattern at_ (String c s)) as [m'|] eqn:Hm.
    + intros [= <-]. by eapply match_year_pattern.
    + apply IH.
Qed.

Section Inserts.

Variables (text : string) (entry : gmap string pyval).
Hypothesis shaped : entry_shape text entry.

Lemma shape_insert_other k v :
  k ∉ ["raw_text"; "title"; "year"; "type"; "authors"] →
  entry_shape text (<[k := v]> entry).
Proof.
  intros Hk. destruct shaped as (Hr & Ht & Hy & Hty & Ha).
  unfold entry_shape.
  rewrite !lookup_insert_ne
    by (intros ->; apply Hk; by repeat constructor).
  done.
Qed.

Lemma shape_insert_title s :
  entry_shape text (<["title" := vs (Py.strip s)]> entry).
Proof.
  destruct shaped as (Hr & Ht & Hy & Hty & Ha). unfold entry_shape.
  rewrite lookup_insert_eq. rewrite !lookup_insert_ne by done.
  repeat split; try done. exists (Py.strip s). split; [done | apply strip_stripped].
Qed.

Lemma shape_insert_year y :
  is_year y = true → entry_shape text (<["year" := vs y]> entry).
Proof.
  intros Hyear. destruct shaped as (Hr & Ht & Hy & Hty & Ha). unfold entry_shape.
  rewrite lookup_insert_eq. rewrite !lookup_insert_ne by done.
  repeat split; try done. exists y. split; [done | by right].
Qed.

Lemma shape_insert_type type :
  type ∈ ["journal"; "book"; "unknown"] →
  entry_shape text (<["type" := vs type]> entry).
Proof.
  intros Htype. destruct shaped as (Hr & Ht & Hy & Hty & Ha). unfold entry_shape.
  rewrite lookup_insert_eq. rewrite !lookup_insert_ne by done.
  repeat split; try done. by exists type.
Qed.

Lemma shape_insert_authors authors :
  Forall author_kept authors →
  entry_shape text (<["authors" := VList authors]> entry).
Proof.
  intros Hauthors. destruct shaped as (Hr & Ht & Hy & Hty & Ha). unfold entry_shape.
  rewrite lookup_insert_eq. rewrite !lookup_insert_ne by done.
  repeat split; try done. by exists authors.
Qed.

End Inserts.

Lemma all_chars_app p s t :
  all_chars p (s +:+ t) = all_chars p s && all_chars p t.
Proof.
  induction s as [|c s IH]; [done|]. rewrite app_String. simpl.
  by rewrite IH, andb_assoc.
Qed.

Lemma all_chars_lstrip p s : all_chars p s = true → all_chars p (Py.lstrip s) = true.
Proof.
  induction s as [|c s IH]; [done|]. simpl. intros [Hc Hs]%andb_prop.
  destruct (Py.is_space c); [by apply IH|]. simpl. by rewrite Hc, Hs.
Qed.

Lemma all_chars_rstrip p s : all_chars p s = true → all_chars p (Py.rstrip s) = true.
Proof.
  induction s as [|c s IH]; [done|]. simpl. intros [Hc Hs]%andb_prop.
  specialize (IH Hs). destruct (Py.rstrip s) as [|d t].
  - destruct (Py.is_space c); [done|]. simpl. by rewrite Hc.
  - simpl in *. by rewrite Hc, IH.
Qed.

Lemma all_chars_strip p s : all_chars p s = true → all_chars p (Py.strip s) = true.
Proof. intros H. by apply all_chars_rstrip, all_chars_lstrip. Qed.

Lemma split_comma_go fuel : ∀ s cur,
  all_chars no_comma cur = true →
  Forall (λ part, all_chars no_comma part = true) (Py.split_go fuel "," s cur).
Proof.
  induction fuel as [|fuel IH]; intros s cur Hcur; [by repeat constructor|].
  destruct s as [|c s]; [by repeat constructor|].
  cbn [Py.split_go Py.startswith].
  destruct (Py.char_eqb "," c) eqn:Hc; cbn [andb].
  - constructor; [done|]. by apply IH.
  - apply IH. rewrite all_chars_app, Hcur. simpl. unfold no_comma, Py.char_eqb in *.
    by rewrite Ascii.eqb_sym, Hc.
Qed.

Lemma split_authors_kept authors_text :
  Forall author_kept (split_authors authors_text).
Proof.
  unfold split_authors. apply Forall_forall. intros a [Hne Hin]%list_elem_of_filter.
  apply list_elem_of_fmap in Hin as (part & -> & Hin).
  split; [done|]. split; [apply strip_stripped|].
  apply all_chars_strip.
  pose proof (split_comma_go (S (Py.len authors_text)) authors_text EmptyString eq_refl)
    as Hall.
  rewrite Forall_forall in Hall. by apply Hall.
Qed.

Lemma shape_with_authors text s entry :
  entry_shape text entry → entry_shape text (with_authors s entry).
Proof.
  intros H. unfold with_authors. destruct (Re.search author_pattern s); [|done].
  apply shape_insert_authors; [done | apply split_authors_kept].
Qed.

Ltac other_key :=
  let H := fresh in
  intros H; repeat (apply elem_of_cons in H as [H|H]; [discriminate H|]);
  by apply elem_of_nil in H.

Lemma shape_journal text s entry :
  entry_shape text entry → entry_shape text (_parse_journal_entry s entry).
Proof.
  intros H. unfold _parse_journal_entry.
  assert (entry_shape text (<["type" := vs "journal"]> entry)) as H1
    by (apply shape_insert_type; [done | by repeat constructor]).
  assert (entry_shape text
            match Re.search journal_title_pattern s with
            | Some title_match =>
                <["title" := vs (Py.strip (group_or_empty title_match 1))]>
                  (<["type" := vs "journal"]> entry)
            | None => <["type" := vs "journal"]> entry
            end) as H2
    by (destruct (Re.search journal_title_pattern s); [by apply shape_insert_title | done]).
  apply (shape_with_authors text s) in H2.
  destruct (Re.search journal_pattern s); [|done].
  repeat (apply shape_insert_other; [|other_key]). done.
Qed.

Lemma shape_book text s entry :
  entry_shape text entry → entry_shape text (_parse_book_entry s entry).
Proof.
  intros H. unfold _parse_book_entry. apply shape_with_authors.
  assert (entry_shape text (<["type" := vs "book"]> entry)) as H1
    by (apply shape_insert_type; [done | by repeat constructor]).
  destruct (Re.search book_title_pattern s); [by apply shape_insert_title | done].
Qed.

Lemma shape_generic text s entry :
  entry_shape text entry → entry_shape text (_parse_generic_entry s entry).
Proof.
  intros H. unfold _parse_generic_entry. apply shape_with_authors.
  assert (∀ e, entry_shape text e →
            entry_shape text
              (if Val.truthy (title_of e) then e
               else match Py.find "." s with
                    | Some first_period =>
                        if (0 <? first_period)%nat
                        then if (10 <? Py.len (Py.strip (Py.take first_period s)))%nat
                                && negb (Py.contains "(" (Py.strip (Py.take first_period s)))
                             then <["title" := vs (Py.strip (Py.take first_period s))]> e
                             else e
                        else e
                    | None => e
                    end)) as Hsecond.
  { intros e He. destruct (Val.truthy (title_of e)); [done|].
    destruct (Py.find "." s) as [first_period|]; [|done].
    destruct (0 <? first_period)%nat; [|done].
    destruct (_ && _); [by apply shape_insert_title | done]. }
  apply Hsecond.
  destruct (Re.search generic_title_pattern s); [by apply shape_insert_title | done].
Qed.

Lemma shape_parsed text entry :
  _parse_single_entry text = Some entry → entry_shape text entry.
Proof.
  unfold _parse_single_entry.
  assert (entry_shape text
            match Re.search year_pattern text with
            | Some year_match =>
                <["year" := vs (group_or_empty year_match 1)]> (blank_entry text)
            | None => blank_entry text
            end) as H1.
  { destruct (Re.search year_pattern text) as [m|] eqn:Hm; [|apply shape_blank].
    apply search_year_pattern in Hm as (y & Hg & Hy).
    apply shape_insert_year; [apply shape_blank|].
    unfold group_or_empty. by rewrite Hg. }
  match type of H1 with entry_shape _ ?e => set (e1 := e) in * end.
  assert (entry_shape text
            match Re.search doi_pattern text with
            | Some doi_match => <["doi" := vs (group_or_empty doi_match 1)]> e1
            | None => e1
            end) as H2
    by (destruct (Re.search doi_pattern text);
          [apply shape_insert_other; [done | other_key] | done]).
  match type of H2 with entry_shape _ ?e => set (e2 := e) in * end.
  assert (entry_shape text
            match Re.search url_pattern text with
            | Some url_match => <["url" := vs (Re.m_text url_match)]> e2
            | None => e2
            end) as H3
    by (destruct (Re.search url_pattern text);
          [apply shape_insert_other; [done | other_key] | done]).
  match type of H3 with entry_shape _ ?e => set (e3 := e) in * end.
  destruct (_ || _).
  - destruct (Val.truthy _); [|done]. intros [= <-]. by apply shape_journal.
  - destruct (_ || _).
    + destruct (Val.truthy _); [|done]. intros [= <-]. by apply shape_book.
    + destruct (Val.truthy _); [|done]. intros [= <-]. by apply shape_generic.
Qed.


End EntryShape.

Section EntryTitle.

Import Bibliography.

Lemma parsed_title_truthy text entry :
  _parse_single_entry text = Some entry → Val.truthy (title_of entry) = true.
Proof.
  unfold _parse_single_entry. cbv zeta.
  match goal with
  | |- (if Val.truthy (title_of ?e) then _ else _) = _ → _ =>
      destruct (Val.truthy (title_of e)) eqn:Ht; [intros [= <-]; exact Ht | done]
  end.
Qed.

End EntryTitle.

(** An entry that [_parse_single_entry] returns keeps the text it was read
    from and has a title that is not empty; its year is empty or has four
    digits, its type is journal, book or unknown, and each of its authors
    is a non-empty stripped string without comma, the text before the
    first parenthesis being split at every comma. *)
Theorem parsed_entry_is_well_formed :
  ∀ (entry_text : string) (entry : gmap string pyval),
    Bibliography._parse_single_entry entry_text = Some entry →
    entry_shape entry_text entry ∧
    ∃ title, entry !! "title" = Some (VStr title) ∧ nonempty title = true.
Proof.
  intros entry_text entry Hparsed.
  pose proof (shape_parsed _ _ Hparsed) as Hshape. split; [done|].
  apply parsed_title_truthy in Hparsed.
  destruct Hshape as (_ & (title & Ht & _) & _). exists title. split; [done|].
  unfold Bibliography.title_of, Val.get in Hparsed. rewrite Ht in Hparsed.
  by destruct title.
Qed.

Lemma parsed_entry_witness :
  entry_shape jones_entry_text
    (default ∅ (Bibliography._parse_single_entry jones_entry_text)) ∧
  ∃ title,
    default ∅ (Bibliography._parse_single_entry jones_entry_text) !! "title"
      = Some (VStr title) ∧ nonempty title = true.
Proof.
  apply (parsed_entry_is_well_formed jones_entry_text
           (default ∅ (Bibliography._parse_single_entry jones_entry_text))).
  destruct (Bibliography._parse_single_entry jones_entry_text) eqn:H; [reflexivity|].
  assert (parsed_field jones_entry_text "title" = None) as Hfield
    by (unfold parsed_field; by rewrite H).
  vm_compute in Hfield. discriminate Hfield.
Defined.

Section Index.

Import Bibliography.
Import Matching.

Implicit Types (index : list (string * gmap string pyval))
  (parsed : list (gmap string pyval)) (raw : list string)
  (entry : gmap string pyval) (k : string).

Lemma assign_keys k entry index :
  (assign k entry index).*1
    = if bool_decide (k ∈ index.*1) then index.*1 else index.*1 ++ [k].
Proof.
  induction index as [|[k' v] index IH]; [done|]. cbn [assign].
  rewrite (fmap_cons fst (k', v) index). cbn [fst].
  destruct (bool_decide (k' = k)) eqn:Hk.
  - apply bool_decide_eq_true in Hk as ->. rewrite fmap_cons. cbn [fst].
    by rewrite bool_decide_eq_true_2 by left.
  - apply bool_decide_eq_false in Hk. rewrite fmap_cons. cbn [fst]. rewrite IH.
    destruct (bool_decide (k ∈ index.*1)) eqn:Hin.
    + apply bool_decide_eq_true in Hin.
      by rewrite bool_decide_eq_true_2 by (by right).
    + apply bool_decide_eq_false in Hin.
      rewrite bool_decide_eq_false_2; [done|].
      intros [?|?]%elem_of_cons; congruence.
Qed.

Lemma assign_keys_distinct k entry index :
  NoDup index.*1 → NoDup (assign k entry index).*1.
Proof.
  intros Hnd. rewrite assign_keys.
  destruct (bool_decide (k ∈ index.*1)) eqn:Hin; [done|].
  apply bool_decide_eq_false in Hin. apply NoDup_app. split; [done|].
  split; [|apply NoDup_singleton]. by intros x Hx ->%list_elem_of_singleton.
Qed.

Lemma entry_of_assign_eq k entry index :
  entry_of k (assign k entry index) = Some entry.
Proof.
  induction index as [|[k' v] index IH]; simpl.
  - by rewrite bool_decide_eq_true_2.
  - destruct (bool_decide (k' = k)) eqn:Hk; simpl; by rewrite Hk.
Qed.

Lemma entry_of_assign_ne k k' entry index :
  k' ≠ k → entry_of k' (assign k entry index) = entry_of k' index.
Proof.
  intros Hne. induction index as [|[k0 v] index IH]; simpl.
  - by rewrite bool_decide_eq_false_2.
  - destruct (bool_decide (k0 = k)) eqn:Hk; simpl.
    + apply bool_decide_eq_true in Hk as ->.
      by rewrite (bool_decide_eq_false_2 (k = k')) by done.
    + by rewrite IH.
Qed.

Lemma nonempty_lower s : nonempty (Py.lower s) = nonempty s.
Proof. by destruct s. Qed.

Lemma indexed_add k entry index parsed :
  indexed index parsed → index_key entry = k →
  indexed (if nonempty k then assign k entry index else index) (parsed ++ [entry]).
Proof.
  intros Hi Hk k'. unfold entries_with_key. rewrite filter_app.
  rewrite filter_cons, filter_nil.
  destruct (decide (k' = k)) as [->|Hne].
  - rewrite decide_True by done.
    destruct (nonempty k) eqn:Hnk.
    + by rewrite entry_of_assign_eq, last_snoc.
    + rewrite Hi. by rewrite Hnk.
  - rewrite decide_False by congruence. rewrite app_nil_r.
    destruct (nonempty k); [rewrite entry_of_assign_ne by done|]; apply Hi.
Qed.

Lemma parse_entries_spec raw : ∀ index parsed,
  indexed index parsed → NoDup index.*1 →
  (parse_entries raw index parsed).2 = parsed ++ parsed_paragraphs raw ∧
  indexed (parse_entries raw index parsed).1 (parse_entries raw index parsed).2 ∧
  NoDup (parse_entries raw index parsed).1.*1.
Proof.
  induction raw as [|raw_entry raw IH]; intros index parsed Hi Hnd.
  - simpl. by rewrite app_nil_r.
  - cbn [parse_entries]. unfold parsed_paragraphs. cbn [omap list_omap].
    fold (parsed_paragraphs raw).
    destruct (_parse_single_entry (Py.strip raw_entry)) as [entry|]; [|by apply IH].
    replace (parsed ++ entry :: parsed_paragraphs raw)
      with ((parsed ++ [entry]) ++ parsed_paragraphs raw)
      by (by rewrite <- app_assoc).
    apply IH.
    + by apply indexed_add.
    + destruct (nonempty _); [by apply assign_keys_distinct | done].
Qed.

End Index.

(** After [parse_zotero_txt] the parser holds, whatever it held before, the
    entries that the paragraphs of the file give, in their order; the flag
    tells whether there is one; the keys of the index are distinct, and a
    title is found, whatever the case of its letters, when an entry has it:
    the index then gives the last entry with that title. *)
Theorem index_gives_last_entry_of_title :
  ∀ (self : Bibliography.BibliographyParser) (file_content title : string),
    let parser := (Bibliography.parse_zotero_txt self file_content).2 in
    Bibliography.raw_entries parser = parsed_paragraphs (paragraphs file_content) ∧
    (Bibliography.parse_zotero_txt self file_content).1
      = bool_decide (Bibliography.raw_entries parser ≠ []) ∧
    NoDup (Bibliography.entries parser).*1 ∧
    Matching.get_entry_by_title parser title
      = if nonempty title
        then last (entries_with_key (Py.lower title) (Bibliography.raw_entries parser))
        else None.
Proof.
  intros self file_content title. unfold Bibliography.parse_zotero_txt.
  fold (paragraphs file_content).
  destruct (parse_entries_spec (paragraphs file_content) [] [])
    as (Hraw & Hindexed & Hnd).
  { intros k. by destruct (nonempty k). }
  { constructor. }
  destruct (Bibliography.parse_entries _ [] []) as [index parsed].
  cbn [fst snd Bibliography.raw_entries Bibliography.entries] in *.
  split; [done|]. split.
  - destruct parsed.
    + rewrite !bool_decide_eq_false_2; [done | by intros H | simpl; lia].
    + rewrite !bool_decide_eq_true_2; [done | done | simpl; lia].
  - split; [done|]. unfold Matching.get_entry_by_title. simpl.
    rewrite Hindexed. by rewrite nonempty_lower.
Qed.

Section Found.

Import Bibliography.
Import Matching.

Lemma parser_indexed self file_content :
  let parser := (parse_zotero_txt self file_content).2 in
  raw_entries parser = parsed_paragraphs (paragraphs file_content) ∧
  indexed (entries parser) (raw_entries parser) ∧
  NoDup (entries parser).*1.
Proof.
  unfold parse_zotero_txt. fold (paragraphs file_content).
  destruct (parse_entries_spec (paragraphs file_content) [] [])
    as (Hraw & Hindexed & Hnd).
  { intros k. by destruct (nonempty k). }
  { constructor. }
  by destruct (parse_entries _ [] []) as [index parsed].
Qed.

Lemma parsed_key_nonempty raw entry :
  entry ∈ parsed_paragraphs raw → nonempty (index_key entry) = true.
Proof.
  unfold parsed_paragraphs. intros (raw_entry & _ & Hp)%list_elem_of_omap.
  pose proof (shape_parsed _ _ Hp) as (_ & (title & Ht & _) & _).
  apply parsed_title_truthy in Hp.
  unfold index_key. unfold title_of, Val.get in *. rewrite Ht in *. simpl in *.
  rewrite nonempty_lower. by destruct title.
Qed.

Lemma last_filter_elem {A} (P : A → Prop) `{∀ x, Decision (P x)} (l : list A) x :
  x ∈ l → P x → ∃ y, last (filter P l) = Some y ∧ y ∈ l ∧ P y.
Proof.
  intros Hx HP.
  assert (x ∈ filter P l) as Hin by (by apply list_elem_of_filter).
  destruct (last (filter P l)) as [y|] eqn:Hl.
  - exists y. split; [done|].
    apply last_Some in Hl as (l' & Hl).
    assert (y ∈ filter P l) as Hy by (rewrite Hl; apply elem_of_app; right; by left).
    apply list_elem_of_filter in Hy as [? ?]. done.
  - apply last_None in Hl. rewrite Hl in Hin. by apply elem_of_nil in Hin.
Qed.

End Found.

(** An entry of a parsed bibliography is found by its title: when the
    metadata of a document give a title that, lowered and stripped, is the
    lowered title of an entry, [find_matching_entry] returns an entry of
    that title, whatever the filename; it is the last one of that title. *)
Theorem entry_found_by_title :
  ∀ (self : Bibliography.BibliographyParser) (file_content filename title : string)
    (pdf_metadata entry : gmap string pyval),
    let parser := (Bibliography.parse_zotero_txt self file_content).2 in
    entry ∈ Bibliography.raw_entries parser →
    pdf_metadata !! "title" = Some (VStr title) →
    Py.strip (Py.lower title) = index_key entry →
    ∃ found,
      Matching.find_matching_entry parser (VStr filename) pdf_metadata = Some found ∧
      last (entries_with_key (index_key entry) (Bibliography.raw_entries parser))
        = Some found ∧
      found ∈ Bibliography.raw_entries parser ∧
      index_key found = index_key entry.
Proof.
  intros self file_content filename title pdf_metadata entry parser Hin Ht Hkey.
  destruct (parser_indexed self file_content) as (Hraw & Hindexed & _).
  fold parser in Hraw, Hindexed.
  assert (nonempty (index_key entry) = true) as Hne
    by (apply (parsed_key_nonempty (paragraphs file_content)); by rewrite <- Hraw).
  destruct (last_filter_elem (λ e, index_key e = index_key entry)
              (Bibliography.raw_entries parser) entry Hin eq_refl)
    as (found & Hlast & Hfound & Hk).
  exists found. unfold Matching.find_matching_entry.
  cbn [Val.as_str mbind option_bind].
  assert (Val.get pdf_metadata "title" (VStr EmptyString) = VStr title) as ->
    by (unfold Val.get; by rewrite Ht).
  cbn [default Val.as_str mbind option_bind]. rewrite Hkey, Hne.
  rewrite Hindexed, Hne. unfold entries_with_key. rewrite Hlast. done.
Qed.

Lemma entry_found_by_title_witness :
  ∃ found,
    Matching.find_matching_entry
      (Bibliography.parse_zotero_txt Bibliography.__init__ jones_entry_text).2
      (VStr "scan0001.pdf") (<["title" := VStr " Deep Learning BASICS"]> ∅)
      = Some found ∧
    last (entries_with_key
            (index_key (default ∅ (Bibliography._parse_single_entry jones_entry_text)))
            (Bibliography.raw_entries
               (Bibliography.parse_zotero_txt Bibliography.__init__ jones_entry_text).2))
      = Some found ∧
    found ∈ Bibliography.raw_entries
              (Bibliography.parse_zotero_txt Bibliography.__init__ jones_entry_text).2 ∧
    index_key found
      = index_key (default ∅ (Bibliography._parse_single_entry jones_entry_text)).
Proof.
  apply (entry_found_by_title Bibliography.__init__ jones_entry_text "scan0001.pdf"
           " Deep Learning BASICS" (<["title" := VStr " Deep Learning BASICS"]> ∅)
           (default ∅ (Bibliography._parse_single_entry jones_entry_text))).
  - vm_compute. left.
  - reflexivity.
  - by vm_compute.
Defined.

Section Similar.

Import Matching.

Implicit Types (w v : list string).

Lemma common_length w v :
  NoDup w → NoDup v →
  length (filter (λ x, x ∈ v) w) = length (filter (λ x, x ∈ w) v).
Proof.
  intros Hw Hv. apply Permutation_length, NoDup_Permutation.
  - by apply NoDup_filter.
  - by apply NoDup_filter.
  - intros x. rewrite !list_elem_of_filter. tauto.
Qed.

Lemma split_length w v :
  length w = (length (filter (λ x, x ∈ v) w) + length (filter (λ x, x ∉ v) w))%nat.
Proof.
  induction w as [|x w IH]; [done|]. rewrite !filter_cons.
  destruct (decide (x ∈ v)); simpl.
  - rewrite decide_False by tauto. lia.
  - rewrite decide_True by done. simpl. lia.
Qed.

Lemma union_length w v :
  NoDup w → NoDup v →
  length (w ++ filter (λ x, x ∉ w) v) = length (v ++ filter (λ x, x ∉ v) w).
Proof.
  intros Hw Hv. rewrite !length_app.
  pose proof (split_length w v) as Hwv. pose proof (split_length v w) as Hvw.
  pose proof (common_length w v Hw Hv). lia.
Qed.

End Similar.

(** The similarity of two titles does not depend on their order: the
    words in common and the words in all are counted on sets. *)
Theorem titles_similar_is_symmetric :
  ∀ (title1 title2 : string) (threshold : float),
    Matching._titles_similar title1 title2 threshold
      = Matching._titles_similar title2 title1 threshold.
Proof.
  intros title1 title2 threshold. unfold Matching._titles_similar.
  pose proof (NoDup_remove_dups (Py.words (Py.lower title1))) as H1.
  pose proof (NoDup_remove_dups (Py.words (Py.lower title2))) as H2.
  fold (Matching.word_set title1) in *. fold (Matching.word_set title2) in *.
  destruct (Matching.word_set title1) as [|x w] eqn:E1,
           (Matching.word_set title2) as [|y v] eqn:E2; try done.
  by rewrite (common_length _ _ H1 H2), (union_length _ _ H1 H2).
Qed.
(** ** More on the citation processor *)

Section Evaluation.

Import Processor.

Lemma contains_any_elem keywords s :
  Py.contains_any keywords s = true ↔ ∃ k, k ∈ keywords ∧ Py.contains k s = true.
Proof.
  unfold Py.contains_any. rewrite existsb_exists.
  split; intros (k & Hk & Hc); exists k; by rewrite ?list_elem_of_In in *.
Qed.

Lemma graded_strong_or_good filename strong_terms strong good_terms good otherwise :
  strong_or_good strong = true → strong_or_good good = true →
  (∃ k, (k ∈ strong_terms ∨ k ∈ good_terms) ∧ Py.contains k filename = true) →
  strong_or_good (graded filename strong_terms strong good_terms good otherwise) = true.
Proof.
  intros Hs Hg (k & Hk & Hc). unfold graded.
  destruct (Py.contains_any strong_terms filename) eqn:H1; [done|].
  destruct (Py.contains_any good_terms filename) eqn:H2; [done|].
  destruct Hk as [Hk|Hk].
  - assert (Py.contains_any strong_terms filename = true) as H
      by (apply contains_any_elem; by exists k). congruence.
  - assert (Py.contains_any good_terms filename = true) as H
      by (apply contains_any_elem; by exists k). congruence.
Qed.

End Evaluation.

Section Rewarded.

Import Processor.

(** A filename that is no strong and no good match holds none of the
    terms that the score of the claim type looks for, so the score is that
    of the empty filename. *)
Lemma weak_match_same_score (name claim_type : string)
    (metadata : gmap string pyval) (score : float) :
  strong_or_good
    (_evaluate_claim_type_match (<["filename" := VStr name]> ∅) claim_type) = false →
  type_score claim_type (VStr name) metadata score
    = type_score claim_type (VStr EmptyString) metadata score.
Proof.
  unfold _evaluate_claim_type_match.
  assert (Val.get (<["filename" := VStr name]> ∅) "filename" (VStr EmptyString)
          = VStr name) as -> by (unfold Val.get; by rewrite lookup_insert_eq).
  unfold type_score, filename_has. cbn [Val.as_str mbind option_bind].
  change (Py.lower EmptyString) with EmptyString.
  repeat match goal with
         | |- context [bool_decide (claim_type = ?t)] =>
             destruct (bool_decide (claim_type = t)); [|]
         end;
    try done;
    change (Py.contains_any ?l EmptyString) with false;
    match goal with
    | |- context [add_if (Py.contains_any ?l (Py.lower name))] =>
        destruct (Py.contains_any l (Py.lower name)) eqn:Hin
    end;
    try done;
    intros Hweak; exfalso;
    apply contains_any_elem in Hin as (k & Hk & Hc);
    (rewrite graded_strong_or_good in Hweak; [done | done | done |]);
    exists k; (split; [|done]);
    repeat (apply elem_of_cons in Hk as [-> | Hk]);
    try (by apply elem_of_nil in Hk);
    first [ left; by repeat constructor | right; by repeat constructor ].
Qed.

Ltac float_value := vm_compute; reflexivity.

(** A score of a claim type is not above itself: it is a number. *)
Lemma type_score_is_number (claim_type : string) (filename : pyval)
    (metadata : gmap string pyval) (score : float) :
  type_score claim_type filename metadata 0.5 = Some score →
  PrimFloat.ltb score score = false.
Proof.
  unfold type_score, year_test, filename_has.
  generalize (Val.truthy (Val.get metadata "journal" VNone)).
  generalize (Val.truthy (Val.get metadata "doi" VNone)).
  generalize (Val.truthy (Val.get metadata "publisher" VNone)).
  generalize (Val.as_str (Val.get metadata "publisher" (VStr EmptyString))).
  generalize (year_of metadata).
  generalize (Val.as_str filename).
  intros name year publisher has_publisher has_doi has_journal.
  repeat match goal with
         | |- context [bool_decide ?P] => destruct (bool_decide P)
         end;
    destruct has_publisher, has_doi, has_journal;
    destruct name as [name|], year as [year|], publisher as [publisher|];
    cbn [mbind option_bind add_if];
    repeat match goal with
           | |- context [Py.contains_any ?l ?s] => destruct (Py.contains_any l s)
           | |- context [Py.contains ?l ?s] => destruct (Py.contains l s)
           | |- context [Z.leb ?a ?b] => destruct (Z.leb a b)
           end;
    cbn [add_if]; intros H; try discriminate H; injection H as <-; float_value.
Qed.

End Rewarded.

(** A filename that earns the bonus of [_calculate_source_authority] is
    never a weak match: when the score of the claim type, from the base 0.5
    and with the same metadata, is higher for the filename of the source
    than for the empty filename, [_evaluate_claim_type_match] answers a
    strong or a good match.  Only the types STATISTICAL, THEORETICAL,
    METHODOLOGICAL and OPINION_INTERPRETATION read the filename. *)
Theorem rewarded_filename_is_strong_or_good_match :
  ∀ (source : gmap string pyval) (name claim_type : string)
    (metadata : gmap string pyval) (with_name without : float),
    Val.get source "filename" (VStr EmptyString) = VStr name →
    Processor.type_score claim_type (VStr name) metadata 0.5 = Some with_name →
    Processor.type_score claim_type (VStr EmptyString) metadata 0.5 = Some without →
    PrimFloat.ltb without with_name = true →
    strong_or_good (Processor._evaluate_claim_type_match source claim_type) = true.
Proof.
  intros source name claim_type metadata with_name without Hname Hwith Hwithout Hlt.
  assert (Processor._evaluate_claim_type_match source claim_type
          = Processor._evaluate_claim_type_match (<["filename" := VStr name]> ∅)
              claim_type) as ->.
  { unfold Processor._evaluate_claim_type_match. rewrite Hname.
    unfold Val.get at 1. by rewrite lookup_insert_eq. }
  destruct (strong_or_good _) eqn:Hmatch; [done|].
  rewrite (weak_match_same_score name claim_type metadata 0.5 Hmatch), Hwithout
    in Hwith.
  injection Hwith as <-.
  by rewrite (type_score_is_number _ _ _ _ Hwithout) in Hlt.
Qed.

Lemma rewarded_filename_witness :
  strong_or_good
    (Processor._evaluate_claim_type_match
       (<["filename" := VStr "Field_Study_2019.pdf"]> ∅) "STATISTICAL") = true.
Proof.
  apply (rewarded_filename_is_strong_or_good_match
           (<["filename" := VStr "Field_Study_2019.pdf"]> ∅) "Field_Study_2019.pdf"
           "STATISTICAL" ∅ (0.5 + 0.2)%float 0.5%float).
  - reflexivity.
  - reflexivity.
  - reflexivity.
  - reflexivity.
Defined.

Section Fallback.

Import Processor.

Implicit Types (s old new : string) (p : ascii → bool).

Lemma all_chars_drop p n : ∀ s, all_chars p s = true → all_chars p (Py.drop n s) = true.
Proof.
  induction n as [|n IH]; intros [|c s]; simpl; try done.
  intros [_ Hs]%andb_prop. by apply IH.
Qed.

Lemma all_chars_replace_go p old new fuel : ∀ s,
  all_chars p new = true → all_chars p s = true →
  all_chars p (Py.replace_go fuel old new s) = true.
Proof.
  induction fuel as [|fuel IH]; intros s Hnew Hs; [done|].
  destruct s as [|c s]; [done|]. cbn [Py.replace_go].
  destruct (Py.startswith old (String c s)).
  - rewrite all_chars_app, Hnew. simpl. apply IH; [done|]. by apply all_chars_drop.
  - simpl in *. apply andb_prop in Hs as [Hc Hs]. rewrite Hc. simpl. by apply IH.
Qed.

Lemma one_line_replace old new s :
  one_line new = true → one_line s = true → one_line (Py.replace old new s) = true.
Proof. apply all_chars_replace_go. Qed.

Lemma nonempty_replace old new s :
  nonempty new = true → nonempty s = true → nonempty (Py.replace old new s) = true.
Proof.
  intros Hnew Hs. destruct s as [|c s]; [done|]. unfold Py.replace.
  cbn [Py.len String.length Py.replace_go].
  destruct (Py.startswith old (String c s)); [|done]. by destruct new.
Qed.

End Fallback.

(** A file that the library does not hold, or a formatter that is missing,
    gives the fallback citation, whatever the selected style: the filename
    without its extension, underscores and hyphens turned into spaces, and
    the mark (n.d.); it has the APA shape that the APA validator accepts. *)
Theorem unknown_file_gets_undated_citation :
  ∀ (self : Processor.CitationProcessor) (filename : string)
    (citation_formatter : option CitationFormatter),
    (Processor.pdf_library self
       ≫= (λ library, Library.get_pdf_content library filename)) = None
    ∨ citation_formatter = None →
    one_line filename = true →
    nonempty (Py.replace ".pdf" EmptyString filename) = true →
    Processor._generate_citation self filename citation_formatter
      = Processor._generate_fallback_citation filename ∧
    _validate_apa_format (Processor._generate_fallback_citation filename) = true.
Proof.
  intros self filename citation_formatter Hmissing Hline Hne. split.
  - unfold Processor._generate_citation.
    destruct Hmissing as [Hnone | ->].
    + rewrite Hnone. by destruct (Processor.bibliography_parser self).
    + simpl. destruct (Processor.pdf_library self ≫= _) as [content|];
        destruct (Processor.bibliography_parser self) as [parser|]; simpl;
        try done.
      destruct (Matching.find_matching_entry parser _ _) as [entry|]; [|done].
      by case_bool_decide.
  - unfold Processor._generate_fallback_citation.
    rewrite <- (app_empty_r " (n.d.)."). apply apa_accepts_nd.
    + by do 2 (apply nonempty_replace; [done|]).
    + by do 3 (apply one_line_replace; [done|]).
Qed.

Lemma unknown_file_witness :
  Processor._generate_citation (Processor.__init__ "https://x" "key" "gpt")
    "Field_Study-2019.pdf" (Some (__init__ MLA 2026))
    = Processor._generate_fallback_citation "Field_Study-2019.pdf" ∧
  _validate_apa_format (Processor._generate_fallback_citation "Field_Study-2019.pdf")
    = true.
Proof.
  apply (unknown_file_gets_undated_citation
           (Processor.__init__ "https://x" "key" "gpt") "Field_Study-2019.pdf"
           (Some (__init__ MLA 2026))).
  - left. reflexivity.
  - reflexivity.
  - reflexivity.
Defined.

Section Statistics.

Import Processor.

Implicit Types (steps : Steps) (self : CitationProcessor) (claims : list ClaimObj)
  (found : list Found).

Lemma remove_dups_length (l : list string) :
  (length (remove_dups l) ≤ length l)%nat.
Proof.
  induction l as [|x l IH]; [done|]. simpl.
  destruct (decide_rel elem_of x l); simpl; lia.
Qed.

Lemma cite_claims_spec steps self claims : ∀ found text formatter,
  ∃ more,
    (cite_claims steps self claims found text formatter).1.1 = found ++ more ∧
    (length more ≤ length claims)%nat ∧
    f_claim <$> more `sublist_of` claim_text <$> claims.
Proof.
  induction claims as [|claim_obj claims IH]; intros found text formatter.
  - exists []. simpl. by rewrite app_nil_r.
  - cbn [cite_claims].
    destruct (_find_supporting_content steps self _ formatter _) as [support|].
    + destruct (_insert_citation steps self text _ support formatter)
        as [text' formatter'].
      destruct (IH (found ++ [{| f_claim := claim_text claim_obj;
                                 f_claim_type := claim_type claim_obj;
                                 f_claim_reasoning := claim_reasoning claim_obj;
                                 f_support := support |}]) text' formatter')
        as (more & -> & Hlen & Hsub).
      eexists (_ :: more). rewrite <- app_assoc. split; [done|].
      split; [simpl; lia|]. rewrite !fmap_cons. simpl. by apply sublist_skip.
    + destruct (IH found text formatter) as (more & -> & Hlen & Hsub).
      exists more. split; [done|]. split; [simpl; lia|].
      rewrite fmap_cons. by apply sublist_cons.
Qed.

End Statistics.

(** A configured processor whose service answers with a number returns no
    result; the library is stored and the formatter is reset all the
    same. *)
Example numeric_claims_give_no_result :
  let run :=
    Processor.process_paper numeric_reply_steps
      (Processor.__init__ "https://x" "key" "gpt") "Ice melts."
      {| Library.library := [] |} None (Some (__init__ IEEE 2026)) in
  run.1.1 = None ∧
  Processor.pdf_library run.1.2 = Some {| Library.library := [] |} ∧
  run.2 = Some (reset_state (__init__ IEEE 2026)).
Proof. by vm_compute. Qed.

(** [process_paper] returns no result exactly when the client is
    configured and the claims are a true value that cannot be iterated, the
    case that its [except] clause catches.  In every other case it returns
    a result whose statistics agree with it: the citations are counted,
    there are at most as many as claims and at least as many as sources
    used, and the claims cited are claims identified, in their order.  The
    original text is the paper. *)
Theorem statistics_agree_with_citations :
  ∀ (steps : Processor.Steps) (self : Processor.CitationProcessor)
    (paper_content : string) (library : Library.PDFLibrary)
    (parser : option Bibliography.BibliographyParser)
    (formatter : option CitationFormatter),
    match
      (Processor.process_paper steps self paper_content library parser formatter).1.1
    with
    | None =>
        is_Some (Processor.client self) ∧
        Processor._identify_claims steps paper_content = Processor.ClaimScalar true
    | Some result =>
        ¬ (is_Some (Processor.client self) ∧
           Processor._identify_claims steps paper_content
             = Processor.ClaimScalar true) ∧
        Processor.original_text result = paper_content ∧
        Processor.citations_added (Processor.stats result)
          = Z.of_nat (length (Processor.citations result)) ∧
        Processor.sources_used (Processor.stats result)
          = Z.of_nat (length (remove_dups (source_of <$> Processor.citations result))) ∧
        0 ≤ Processor.sources_used (Processor.stats result)
          ≤ Processor.citations_added (Processor.stats result) ∧
        Processor.citations_added (Processor.stats result)
          ≤ Z.of_nat (length (identified steps paper_content)) ∧
        Processor.f_claim <$> Processor.citations result
          `sublist_of` Processor.claim_text <$> identified steps paper_content
    end.
Proof.
  intros steps self paper_content library parser formatter.
  unfold Processor.process_paper, identified.
  destruct (Processor.client self) as [client|].
  - destruct (Processor._identify_claims steps paper_content) as [[|c claims]|[|]].
    + simpl. repeat split; try done; try lia. by intros [_ ?].
    + cbn [Processor.claims_truthy negb Processor.claims_iterated default].
      match goal with
      | |- context [Processor.cite_claims steps ?s ?cl [] ?t ?f] =>
          destruct (cite_claims_spec steps s cl [] t f) as (more & Hmore & Hlen & Hsub);
          destruct (Processor.cite_claims steps s cl [] t f) as [[found text] fmt]
      end.
      simpl in Hmore. subst found. simpl.
      pose proof (remove_dups_length (source_of <$> more)) as Hdup.
      rewrite length_fmap in Hdup. unfold source_of in *.
      simpl in Hlen.
      repeat split; try done; try lia. by intros [_ ?].
    + simpl. by split.
    + simpl. repeat split; try done; try lia. by intros [_ ?].
  - simpl. repeat split; try done; try lia.
    + by intros [[? ?] _].
    + apply sublist_nil_l.
Qed.

Section Converted.

Import Processor.

Implicit Types (bib_entry : gmap string pyval) (authors : list string).

Lemma converted_unfold bib_entry authors :
  bib_entry !! "authors" = Some (VList authors) →
  _convert_bibliography_to_metadata bib_entry
    = foldr (λ '(key, from), <[key := Val.get bib_entry from (VStr EmptyString)]>)
        (<["author" := VStr (Py.join ", " authors)]> ∅) converted_keys.
Proof.
  intros Ha. unfold _convert_bibliography_to_metadata.
  assert (Val.get bib_entry "authors" VNone = VList authors) as ->
    by (unfold Val.get; by rewrite Ha).
  by destruct authors.
Qed.

Lemma converted_lookup bib_entry authors k :
  bib_entry !! "authors" = Some (VList authors) →
  _convert_bibliography_to_metadata bib_entry !! k
    = match list_find (λ entry, entry.1 = k) converted_keys with
      | Some (_, (_, from)) => Some (Val.get bib_entry from (VStr EmptyString))
      | None => if bool_decide (k = "author")
                then Some (VStr (Py.join ", " authors)) else None
      end.
Proof.
  intros Ha. rewrite (converted_unfold _ _ Ha).
  induction converted_keys as [|[key from] keys IH].
  - simpl. case_bool_decide as Hk.
    + subst k. apply lookup_insert_eq.
    + rewrite lookup_insert_ne by done. apply lookup_empty.
  - cbn [foldr list_find]. cbn [fst]. destruct (decide (key = k)) as [->|Hne].
    + by rewrite lookup_insert_eq.
    + rewrite lookup_insert_ne by done. rewrite IH.
      by destruct (list_find _ keys) as [[i [k' from']]|].
Qed.

Lemma search_year_text y :
  is_year y = true →
  ∃ m, Re.search four_digits y = Some m ∧ Re.group m 1 = Some y.
Proof.
  unfold is_year. intros [Hlen Hall]%andb_prop. apply Nat.eqb_eq in Hlen.
  destruct y as [|a [|b [|c [|d [|e y]]]]]; try done. clear Hlen.
  simpl in Hall.
  apply andb_prop in Hall as [Ha Hall]. apply andb_prop in Hall as [Hb Hall].
  apply andb_prop in Hall as [Hc Hall]. apply andb_prop in Hall as [Hd _].
  unfold Re.search, Re.search_from, Re.match_at, four_digits.
  cbn -[Nat.sub]. rewrite Ha. cbn -[Nat.sub]. rewrite Hb. cbn -[Nat.sub].
  rewrite Hc. cbn -[Nat.sub]. rewrite Hd. cbn.
  eexists. split; reflexivity.
Qed.

End Converted.

(** The metadata converted from a bibliography entry have no key year and
    no key authors: the year of the entry goes under creation_date and the
    authors, joined by commas, under author.  The formatter still finds the
    year, through the creation date, when it is between 1900 and the current
    year. *)
Theorem bibliography_year_reaches_formatter :
  ∀ (self : CitationFormatter) (bib_entry : gmap string pyval)
    (authors : list string) (filename : string) (n : Z),
    current_year self ≤ 9999 →
    1900 ≤ n ≤ current_year self →
    bib_entry !! "authors" = Some (VList authors) →
    bib_entry !! "year" = Some (VStr (Py.str_of_Z n)) →
    let metadata := Processor._convert_bibliography_to_metadata bib_entry in
    metadata !! "year" = None ∧ metadata !! "authors" = None ∧
    metadata !! "creation_date" = Some (VStr (Py.str_of_Z n)) ∧
    metadata !! "author" = Some (VStr (Py.join ", " authors)) ∧
    _extract_year self metadata filename = Some (Some (Py.str_of_Z n)).
Proof.
  intros self bib_entry authors filename n Hcur Hn Ha Hy metadata.
  assert (metadata !! "year" = None) as Hyear
    by (unfold metadata; by rewrite (converted_lookup _ _ _ Ha)).
  assert (metadata !! "creation_date" = Some (VStr (Py.str_of_Z n))) as Hdate.
  { unfold metadata. rewrite (converted_lookup _ _ _ Ha). simpl.
    unfold Val.get. by rewrite Hy. }
  split; [done|].
  split; [unfold metadata; by rewrite (converted_lookup _ _ _ Ha)|].
  split; [done|].
  split; [unfold metadata; by rewrite (converted_lookup _ _ _ Ha)|].
  unfold _extract_year, Val.get. rewrite Hyear, Hdate. simpl.
  assert (is_year (Py.str_of_Z n) = true) as Hprinted
    by (apply str_of_Z_is_year; lia).
  destruct (search_year_text _ Hprinted) as (m & Hm & Hg).
  pose proof (is_year_nonempty _ Hprinted) as Hne.
  destruct (Py.str_of_Z n) as [|c s] eqn:Hs; [done|]. rewrite <- Hs in *.
  rewrite Hm, Hg. simpl. rewrite parse_str_of_Z by lia.
  unfold year_in_range.
  rewrite (proj2 (Z.leb_le 1900 n)) by lia.
  by rewrite (proj2 (Z.leb_le n (current_year self))) by lia.
Qed.

Lemma bibliography_year_witness :
  let metadata :=
    Processor._convert_bibliography_to_metadata
      (<["authors" := VList ["Jones"; "A."]]> (<["year" := VStr "2019"]> ∅)) in
  metadata !! "year" = None ∧ metadata !! "authors" = None ∧
  metadata !! "creation_date" = Some (VStr (Py.str_of_Z 2019)) ∧
  metadata !! "author" = Some (VStr (Py.join ", " ["Jones"; "A."])) ∧
  _extract_year (__init__ APA 2026) metadata "scan.pdf"
    = Some (Some (Py.str_of_Z 2019)).
Proof.
  apply (bibliography_year_reaches_formatter (__init__ APA 2026)
           (<["authors" := VList ["Jones"; "A."]]> (<["year" := VStr "2019"]> ∅))
           ["Jones"; "A."] "scan.pdf" 2019).
  - simpl. lia.
  - simpl. lia.
  - reflexivity.
  - reflexivity.
Defined.

Section FallbackList.

Import Processor.

Implicit Types (cs firsts : list Found) (refs seen : list string).

Lemma first_of_source_later cs c earlier :
  source_of earlier ≠ source_of c →
  first_of_source cs c → first_of_source (earlier :: cs) c.
Proof.
  intros Hne (i & Hi & Hfirst). exists (S i). split; [done|].
  intros [|j] c' Hj Hc'.
  - by injection Hc' as <-.
  - apply (Hfirst j); [lia | done].
Qed.

Lemma fallback_references_firsts cs : ∀ refs seen,
  ∃ firsts,
    fallback_references cs refs seen = refs ++ (citation_text <$> firsts) ∧
    NoDup (source_of <$> firsts) ∧
    (∀ s, s ∈ source_of <$> firsts ↔ s ∈ source_of <$> cs ∧ s ∉ seen) ∧
    (∀ c, c ∈ firsts → first_of_source cs c).
Proof.
  induction cs as [|c cs IH]; intros refs seen.
  - exists []. simpl. rewrite app_nil_r. split; [done|].
    split; [constructor|]. split; [|by intros c ?%elem_of_nil].
    intros s. split; [by intros ?%elem_of_nil | by intros [?%elem_of_nil _]].
  - cbn [fallback_references]. fold (source_of c). rewrite fmap_cons.
    case_bool_decide as Hseen.
    + destruct (IH refs seen) as (firsts & Heq & Hnd & Hel & Hfirst).
      exists firsts. split; [done|]. split; [done|]. split.
      * intros s. rewrite Hel, elem_of_cons. split; [tauto|].
        intros [[->|?] ?]; [done | tauto].
      * intros c' Hc'. apply first_of_source_later; [|by apply Hfirst].
        intros Heq'. assert (source_of c' ∈ source_of <$> firsts) as Hin
          by (apply list_elem_of_fmap; by exists c').
        apply Hel in Hin as [_ Hnot]. apply Hnot. by rewrite <- Heq'.
    + destruct (IH (refs ++ [s_citation (f_support c)]) (source_of c :: seen))
        as (firsts & Heq & Hnd & Hel & Hfirst).
      exists (c :: firsts). rewrite Heq, <- app_assoc. split; [done|].
      rewrite fmap_cons. split; [|split].
      * constructor; [|done]. intros Hin. apply Hel in Hin as [_ Hnot].
        apply Hnot. by left.
      * intros s. rewrite !elem_of_cons, Hel, elem_of_cons.
        destruct (decide (s = source_of c)) as [->|Hne]; [tauto|]. tauto.
      * intros c' [->|Hc']%elem_of_cons.
        -- exists O. split; [done|]. intros j ? Hj. lia.
        -- apply first_of_source_later; [|by apply Hfirst].
           intros Heq'. assert (source_of c' ∈ source_of <$> firsts) as Hin
             by (apply list_elem_of_fmap; by exists c').
           apply Hel in Hin as [_ Hnot]. apply Hnot. rewrite <- Heq'. by left.
Qed.

End FallbackList.

(** The fallback list of references has the header References and one
    entry for each source: the entries are, in ascending order, the
    citation texts of the citations that are the first of their source,
    one citation for each source of the list; so there are as many entries
    as the statistics count sources. *)
Theorem fallback_list_has_one_entry_per_source :
  ∀ citations : list Processor.Found,
    ∃ (firsts : list Processor.Found) (listed : list string),
      Processor._generate_fallback_references_list citations
        = "References" +:+ Py.nl +:+ Py.nl +:+ Py.join (Py.nl +:+ Py.nl) listed ∧
      ascending listed ∧
      listed ≡ₚ citation_text <$> firsts ∧
      NoDup (source_of <$> firsts) ∧
      (∀ s, s ∈ source_of <$> firsts ↔ s ∈ source_of <$> citations) ∧
      (∀ c, c ∈ firsts → first_of_source citations c) ∧
      length listed = length (remove_dups (source_of <$> citations)).
Proof.
  intros citations.
  destruct (fallback_references_firsts citations [] [])
    as (firsts & Heq & Hnd & Hel & Hfirst).
  simpl in Heq.
  assert (∀ s, s ∈ source_of <$> firsts ↔ s ∈ source_of <$> citations) as Hsame.
  { intros s. rewrite Hel. split; [tauto|]. intros ?. split; [done|].
    by intros ?%elem_of_nil. }
  exists firsts, (sort_strings (Processor.fallback_references citations [] [])).
  split; [done|]. split; [apply sort_strings_ascending|].
  split; [by rewrite (sort_strings_perm _), Heq|].
  split; [done|]. split; [done|]. split; [done|].
  rewrite (Permutation_length (sort_strings_perm _)), Heq, length_fmap.
  rewrite <- (length_fmap source_of firsts).
  apply Permutation_length, NoDup_Permutation; [done | apply NoDup_remove_dups |].
  intros s. by rewrite Hsame, elem_of_remove_dups.
Qed.
(** ** Titles made from filenames *)

Section FilenameTitle.

Implicit Types (s cur new : string) (p : ascii → bool) (c : ascii).

Lemma replace_char_go c new fuel : ∀ s,
  (Py.len s < fuel)%nat →
  all_chars (λ x, negb (Py.char_eqb x c)) new = true →
  all_chars (λ x, negb (Py.char_eqb x c))
    (Py.replace_go fuel (String c EmptyString) new s) = true.
Proof.
  induction fuel as [|fuel IH]; intros s Hlen Hnew; [lia|].
  destruct s as [|a s]; [done|]. cbn [Py.replace_go Py.startswith].
  unfold Py.len in *. simpl in Hlen.
  destruct (Py.char_eqb c a) eqn:Hca; cbn [andb].
  - rewrite all_chars_app, Hnew. simpl. apply IH; [lia | done].
  - simpl. unfold Py.char_eqb in *. rewrite Ascii.eqb_sym, Hca. simpl.
    apply IH; [lia | done].
Qed.

Lemma replace_char c new s :
  all_chars (λ x, negb (Py.char_eqb x c)) new = true →
  all_chars (λ x, negb (Py.char_eqb x c))
    (Py.replace (String c EmptyString) new s) = true.
Proof. apply replace_char_go. lia. Qed.

Lemma all_chars_and p1 p2 s :
  all_chars p1 s = true → all_chars p2 s = true →
  all_chars (λ x, p1 x && p2 x) s = true.
Proof.
  induction s as [|a s IH]; [done|]. simpl.
  intros [H1 Hs1]%andb_prop [H2 Hs2]%andb_prop. by rewrite H1, H2, IH.
Qed.

Lemma all_chars_impl p1 p2 s :
  (∀ x, p1 x = true → p2 x = true) →
  all_chars p1 s = true → all_chars p2 s = true.
Proof.
  intros Himpl. induction s as [|a s IH]; [done|]. simpl.
  intros [H1 Hs]%andb_prop. by rewrite (Himpl a H1), IH.
Qed.

Lemma words_go_chars p s : ∀ cur,
  all_chars (λ x, p x && negb (Py.is_space x)) cur = true →
  all_chars p s = true →
  Forall (λ w, all_chars (λ x, p x && negb (Py.is_space x)) w = true)
    (Py.words_go cur s).
Proof.
  induction s as [|a s IH]; intros cur Hcur Hs.
  - simpl. destruct cur; by repeat constructor.
  - simpl in Hs. apply andb_prop in Hs as [Ha Hs]. cbn [Py.words_go].
    destruct (Py.is_space a) eqn:Hsp.
    + destruct cur; [by apply IH|]. constructor; [done | by apply IH].
    + apply IH; [|done]. rewrite all_chars_app, Hcur. simpl. by rewrite Ha, Hsp.
Qed.

Lemma join_chars p sep l :
  all_chars p sep = true → Forall (λ w, all_chars p w = true) l →
  all_chars p (Py.join sep l) = true.
Proof.
  intros Hsep. induction 1 as [|w l Hw Hl IH]; [done|].
  destruct l as [|w' l]; [done|].
  change (Py.join sep (w :: w' :: l)) with (w +:+ sep +:+ Py.join sep (w' :: l)).
  rewrite !all_chars_app, Hw, Hsep. by rewrite IH.
Qed.

End FilenameTitle.

(** The title made from a filename, when the metadata give none, is not
    empty and stripped, and holds no underscore, no hyphen and no white
    space but the plain space. *)
Theorem filename_title_is_spaced_words :
  ∀ (self : CitationFormatter) (metadata : gmap string pyval) (filename : string),
    Val.get metadata "title" (VStr EmptyString) = VStr EmptyString →
    ∃ title,
      _extract_title self metadata filename = Some title ∧
      nonempty title = true ∧ Py.strip title = title ∧
      all_chars title_char title = true.
Proof.
  intros self metadata filename Hmd. unfold _extract_title. rewrite Hmd. simpl.
  exists (title_from_filename filename). split; [done|].
  split; [apply title_from_filename_nonempty|].
  unfold title_from_filename. cbv zeta.
  set (cleaned := Re.sub lead_underscore EmptyString _).
  set (spaced := Py.replace "-" " " (Py.replace "_" " " cleaned)).
  assert (all_chars (λ x, negb (Py.char_eqb x "_") && negb (Py.char_eqb x "-"))
            spaced = true) as Hspaced.
  { apply all_chars_and.
    - apply (all_chars_replace_go (λ x, negb (Py.char_eqb x "_"))); [done|].
      by apply replace_char.
    - by apply replace_char. }
  assert (all_chars title_char (Py.join " " (Py.words spaced)) = true) as Hjoin.
  { apply join_chars; [done|].
    eapply Forall_impl; [apply (words_go_chars _ spaced EmptyString eq_refl Hspaced)|].
    intros w. apply all_chars_impl. intros x [Hx Hsp]%andb_prop.
    unfold title_char. by rewrite Hx, Hsp. }
  destruct (nonempty (Py.join " " (Py.words spaced))); [|done].
  split; [apply strip_stripped | by apply all_chars_strip].
Qed.

Lemma filename_title_witness :
  ∃ title,
    _extract_title (__init__ APA 2026) ∅ "Smith_2020_Climate-Data.pdf" = Some title ∧
    nonempty title = true ∧ Py.strip title = title ∧
    all_chars title_char title = true.
Proof.
  apply (filename_title_is_spaced_words (__init__ APA 2026) ∅
           "Smith_2020_Climate-Data.pdf").
  reflexivity.
Defined.
